(** * Judge Dredd 5D: pattern detector, telemetry client, five-dimension verifier

    A shallow embedding of
      - [src/patterns/PatternDetector.js]   (rule registry and detector),
      - [src/analytics/CentralBrainClient.js] (rule fetch, telemetry send),
      - the five-dimension verifier ([FourDimensionalVerifier]),
    followed by the properties established about them.

    Conventions.
      - A JavaScript string is a [string]: a sequence of code units, taken
        here below 256 (the Latin-1 range).
      - A JavaScript number is an exact rational ([Q]) or an integer ([Z]);
        floating-point rounding error is not modelled.
      - A [throw] (or a rejected promise) is the left injection of a sum.
      - An object used as a dictionary is a [gmap string _]. *)

From Stdlib Require Import ZArith QArith Qround Qminmax Lqa Lia List Ascii String Bool.
From stdpp Require Import gmap strings.
From Equations Require Import Equations.
Import ListNotations.

Open Scope string_scope.

(* ===================================================================== *)
(** * Part I. Definitions                                                 *)
(* ===================================================================== *)

(** ** Host strings *)

Module JS.

(** [s.includes(needle)] *)
Fixpoint includes (s needle : string) {struct s} : bool :=
  String.prefix needle s ||
  match s with
  | EmptyString => false
  | String _ s' => includes s' needle
  end.

(** [s.startsWith(p)] *)
Definition startsWith (s p : string) : bool := String.prefix p s.

(** [s.endsWith(p)] *)
Definition endsWith (s p : string) : bool :=
  (String.length p <=? String.length s)%nat &&
  String.eqb (String.substring (String.length s - String.length p) (String.length p) s) p.

(** Code unit of a character. *)
Definition code (c : ascii) : N := N_of_ascii c.

(** [String.prototype.toLowerCase] on one code unit of the Latin-1 range:
    A-Z and the accented capitals U+00C0..U+00DE (U+00D7 apart). *)
Definition lower (c : ascii) : ascii :=
  let n := code c in
  if ((65 <=? n) && (n <=? 90) || (192 <=? n) && (n <=? 222) && negb (n =? 215))%N
  then ascii_of_N (n + 32) else c.

Fixpoint toLowerCase (s : string) : string :=
  match s with
  | EmptyString => EmptyString
  | String c s' => String (lower c) (toLowerCase s')
  end.

(** White space of the Latin-1 range (TAB, LF, VT, FF, CR, SP, NBSP): what
    [\s] matches and what [trim] removes. *)
Definition isSpace (c : ascii) : bool :=
  let n := code c in
  ((9 <=? n) && (n <=? 13) || (n =? 32) || (n =? 160))%N.

(** Line terminators of the range (LF, CR): what [.] does not match. *)
Definition isLineTerminator (c : ascii) : bool :=
  let n := code c in ((n =? 10) || (n =? 13))%N.

Definition isDigit (c : ascii) : bool :=
  let n := code c in ((48 <=? n) && (n <=? 57))%N.

(** Truthiness of [l.trim()]: some character of [l] is not white space. *)
Fixpoint trimmedNonEmpty (l : string) : bool :=
  match l with
  | EmptyString => false
  | String c l' => negb (isSpace c) || trimmedNonEmpty l'
  end.

(** [s.split('\n')] *)
Fixpoint splitLines (s : string) : list string :=
  match s with
  | EmptyString => [EmptyString]
  | String c s' =>
      if (code c =? 10)%N then EmptyString :: splitLines s'
      else match splitLines s' with
           | [] => [String c EmptyString]
           | l :: ls => String c l :: ls
           end
  end.

(** [parts.join(sep)] *)
Fixpoint join (sep : string) (parts : list string) : string :=
  match parts with
  | [] => ""
  | [p] => p
  | p :: ps => p ++ sep ++ join sep ps
  end.

(** [Math.round]: nearest integer, ties towards plus infinity. *)
Definition Math_round (x : Q) : Z := Qfloor (x + (1 # 2)).

(** [Math.max(x, ...xs)] and [Math.min(x, ...xs)] on a non-empty argument list. *)
Definition Math_max (x : Q) (xs : list Q) : Q := fold_left Qmax xs x.
Definition Math_min (x : Q) (xs : list Q) : Q := fold_left Qmin xs x.

(** What a rejected promise or a [throw] carries. *)
Inductive Exn : Type :=
| TypeError
| SyntaxError
| IOError.

(** A computation that may throw. *)
Definition Result (A : Type) : Type := (Exn + A)%type.

Definition ok {A} (a : A) : Result A := inr a.
Definition throw {A} (e : Exn) : Result A := inl e.

Definition bindR {A B} (m : Result A) (k : A -> Result B) : Result B :=
  match m with
  | inl e => inl e
  | inr a => k a
  end.

(** [try { body } catch (error) { handler }] *)
Definition tryCatch {A} (body : Result A) (handler : Exn -> Result A) : Result A :=
  match body with
  | inl e => handler e
  | inr a => inr a
  end.

Fixpoint mapR {A B} (f : A -> Result B) (l : list A) : Result (list B) :=
  match l with
  | [] => ok []
  | x :: xs => bindR (f x) (fun y => bindR (mapR f xs) (fun ys => ok (y :: ys)))
  end.

End JS.

(** ** Regular-expression literals

    The detector's own expressions are literals of the source, over literal
    characters, classes, [.], concatenation, alternation and repetition.
    [test] decides whether some substring matches, as [RegExp.prototype.test]
    does for an expression without the global and sticky flags. *)

Module Regex.

Inductive regex : Type :=
| Fail
| Eps
| Sym (p : ascii -> bool)
| Cat (r s : regex)
| Alt (r s : regex)
| Star (r : regex).

Fixpoint nullable (r : regex) : bool :=
  match r with
  | Fail => false
  | Eps => true
  | Sym _ => false
  | Cat r s => nullable r && nullable s
  | Alt r s => nullable r || nullable s
  | Star _ => true
  end.

Definition cat (r s : regex) : regex :=
  match r, s with
  | Fail, _ => Fail
  | _, Fail => Fail
  | Eps, _ => s
  | _, Eps => r
  | _, _ => Cat r s
  end.

Definition alt (r s : regex) : regex :=
  match r, s with
  | Fail, _ => s
  | _, Fail => r
  | _, _ => Alt r s
  end.

(** Brzozowski derivative. *)
Fixpoint deriv (c : ascii) (r : regex) : regex :=
  match r with
  | Fail => Fail
  | Eps => Fail
  | Sym p => if p c then Eps else Fail
  | Cat r s => alt (cat (deriv c r) s) (if nullable r then deriv c s else Fail)
  | Alt r s => alt (deriv c r) (deriv c s)
  | Star r => cat (deriv c r) (Star r)
  end.

(** Some prefix of [s] matches [r]. *)
Fixpoint matchesPrefix (r : regex) (s : string) : bool :=
  nullable r ||
  match s with
  | EmptyString => false
  | String c s' => matchesPrefix (deriv c r) s'
  end.

(** [r.test(s)]: some substring of [s] matches [r]. *)
Fixpoint test (r : regex) (s : string) : bool :=
  matchesPrefix r s ||
  match s with
  | EmptyString => false
  | String _ s' => test r s'
  end.

(** What it means for a string to match an expression as a whole. *)
Inductive matches : regex -> string -> Prop :=
| MEps : matches Eps ""
| MSym p c : p c = true -> matches (Sym p) (String c "")
| MCat r s u v : matches r u -> matches s v -> matches (Cat r s) (u ++ v)
| MAltL r s u : matches r u -> matches (Alt r s) u
| MAltR r s u : matches s u -> matches (Alt r s) u
| MStar0 r : matches (Star r) ""
| MStarS r u v : matches r u -> matches (Star r) v -> matches (Star r) (u ++ v).

(** Canonicalization of a code unit under the [i] flag (upper case). *)
Definition canonicalize (c : ascii) : ascii :=
  let n := JS.code c in
  if ((97 <=? n) && (n <=? 122) || (224 <=? n) && (n <=? 254) && negb (n =? 247))%N
  then ascii_of_N (n - 32) else c.

(** One literal character, case-sensitive. *)
Definition chr (c : ascii) : regex := Sym (Ascii.eqb c).

(** One literal character under the [i] flag. *)
Definition chr_i (c : ascii) : regex :=
  Sym (fun x => Ascii.eqb (canonicalize x) (canonicalize c)).

(** A literal run of characters. *)
Fixpoint lit (s : string) : regex :=
  match s with
  | EmptyString => Eps
  | String c s' => Cat (chr c) (lit s')
  end.

Fixpoint lit_i (s : string) : regex :=
  match s with
  | EmptyString => Eps
  | String c s' => Cat (chr_i c) (lit_i s')
  end.

(** [.] *)
Definition dot : regex := Sym (fun c => negb (JS.isLineTerminator c)).
(** [\s] *)
Definition space : regex := Sym JS.isSpace.
(** [\d] *)
Definition digit : regex := Sym JS.isDigit.
(** [[\s\S]] *)
Definition anychar : regex := Sym (fun _ => true).
(** [[c1c2...]]: one of the characters of [cs]. *)
Definition oneOf (cs : string) : regex :=
  Sym (fun x => JS.includes cs (String x EmptyString)).
(** [[lo-hi]] *)
Definition range (lo hi : ascii) : regex :=
  Sym (fun x => (JS.code lo <=? JS.code x)%N && (JS.code x <=? JS.code hi)%N).

(** [r+] *)
Definition plus (r : regex) : regex := Cat r (Star r).

(** [r{n,}] *)
Fixpoint atLeast (n : nat) (r : regex) : regex :=
  match n with
  | O => Star r
  | S n' => Cat r (atLeast n' r)
  end.

(** Concatenation of a list of pieces. *)
Fixpoint seq (rs : list regex) : regex :=
  match rs with
  | [] => Eps
  | [r] => r
  | r :: rs' => Cat r (seq rs')
  end.

End Regex.

(** ** Rule records

    A rule ("incident") record as the detector reads it: its identifier,
    [pattern.detection.textPatterns] and [financialImpact]. A field that is
    missing from the record is [None]: reading through it throws. *)

Module Rules.

(** [financialImpact: {min, max, proven}] *)
Record FinancialImpact : Type := {
  impactMin : Z;
  impactMax : Z;
  impactProven : bool
}.

Record Incident : Type := {
  id : string;
  (** [pattern.detection.textPatterns]: regular-expression sources *)
  textPatterns : option (list string);
  financialImpact : option FinancialImpact
}.

(** The rule set, keyed by rule identifier. *)
Abbreviation Registry := (gmap string Incident).

End Rules.

(** ** Central Brain client ([CentralBrainClient.js]) *)

Module CentralBrain.
Import JS Rules.

Record Sender : Type := {
  endpoint : option string;
  apiKey : option string;
  enabled : bool;
  retryAttempts : nat;
  retryDelay : nat  (* ms (exponential backoff base) *)
}.

(** [constructor()] *)
Definition newSender : Sender :=
  {| endpoint := None; apiKey := None; enabled := false;
     retryAttempts := 3; retryDelay := 1000 |}.

Record Config : Type := {
  cfgEndpoint : option string;
  cfgApiKey : option string;
  cfgOauthToken : option string
}.

(** Truthiness of an optional string field: present and not empty. *)
Definition truthy (o : option string) : bool :=
  match o with
  | Some s => negb (String.eqb s "")
  | None => false
  end.

(** [a || b] on optional strings. *)
Definition orElse (a b : option string) : option string :=
  if truthy a then a else b.

(** [configure(config)] *)
Definition configure (config : option Config) (s : Sender) : Sender :=
  match config with
  | None =>
      {| endpoint := endpoint s; apiKey := apiKey s; enabled := false;
         retryAttempts := retryAttempts s; retryDelay := retryDelay s |}
  | Some c =>
      if negb (truthy (cfgEndpoint c)) then
        {| endpoint := endpoint s; apiKey := apiKey s; enabled := false;
           retryAttempts := retryAttempts s; retryDelay := retryDelay s |}
      else if negb (truthy (cfgApiKey c)) && negb (truthy (cfgOauthToken c)) then
        {| endpoint := endpoint s; apiKey := apiKey s; enabled := false;
           retryAttempts := retryAttempts s; retryDelay := retryDelay s |}
      else
        {| endpoint := cfgEndpoint c;
           apiKey := orElse (cfgApiKey c) (cfgOauthToken c);
           enabled := true;
           retryAttempts := retryAttempts s; retryDelay := retryDelay s |}
  end.

(** What one [fetch] call comes back with: a rejection (network failure or
    the abort of its timeout), or a response with its [ok] flag and the
    outcome of reading its body. *)
Inductive Response (B : Type) : Type :=
| Rejected
| Responded (isOk : bool) (body : Result B).
Arguments Rejected {B}.
Arguments Responded {B} isOk body.

(** What the client does that can be observed from outside, in order. *)
Inductive Effect : Type :=
| Post (attempt : nat)                    (* the POST of this attempt *)
| LogSent                                 (* console.log: events sent *)
| WarnRetry (attempt : nat) (delay : nat) (* console.warn: retrying in delay ms *)
| Sleep (delay : nat)                     (* setTimeout(resolve, delay) *)
| LogDropped (attempts : nat).            (* console.error: failed, events dropped *)

(** The body of the [try] of [sendEvents]: the POST and the check of
    [response.ok]. *)
Definition postOnce (r : Response unit) : Result unit :=
  match r with
  | Rejected => throw IOError
  | Responded isOk _ => if isOk then ok tt else throw IOError
  end.

(** [retryDelay * Math.pow(2, attempt - 1)], for [attempt >= 1]. *)
Definition backoff (s : Sender) (attempt : nat) : nat :=
  retryDelay s * 2 ^ (attempt - 1).

(** [sendEvents(events, attempt)]: [post k] is what the POST of attempt [k]
    comes back with. The result pairs the observable effects with what the
    returned promise settles to. *)
Equations? sendEventsFrom {E : Type} (s : Sender) (post : nat -> Response unit)
    (events : list E) (attempt : nat) : list Effect * Result unit
    by wf (retryAttempts s - attempt) lt :=
sendEventsFrom s post events attempt with negb (enabled s) || (length events =? 0)%nat := {
  | true := ([], ok tt)
  | false with postOnce (post attempt) := {
    | inr _ := ([Post attempt; LogSent], ok tt)
    | inl _ with lt_dec attempt (retryAttempts s) := {
      | left _ :=
          let delay := backoff s attempt in
          let rest := sendEventsFrom s post events (attempt + 1) in
          (([Post attempt; WarnRetry attempt delay; Sleep delay] ++ fst rest)%list, snd rest)
      | right _ := ([Post attempt; LogDropped (retryAttempts s)], ok tt) } } }.
Proof. lia. Qed.

(** [sendEvents(events)]: the attempt number defaults to 1. *)
Definition sendEvents {E : Type} (s : Sender) (post : nat -> Response unit)
    (events : list E) : list Effect * Result unit :=
  sendEventsFrom s post events 1.

(** [fetchIncidentPatterns()]: the body of the response is [data.patterns],
    [None] when the field is missing. *)
Definition fetchIncidentPatterns (s : Sender) (get : Response (option Registry))
    : Result Registry :=
  if negb (enabled s) then ok ∅
  else
    tryCatch
      (match get with
       | Rejected => throw IOError
       | Responded isOk body =>
           if negb isOk then throw IOError
           else bindR body (fun patterns =>
                  ok (match patterns with Some m => m | None => ∅ end))
       end)
      (fun _ => ok ∅).

End CentralBrain.

(** ** Pattern detector ([PatternDetector.js]) *)

Module Detector.
Import JS Rules Regex.

Inductive Severity : Type := CRITICAL | HIGH | MEDIUM | INFO.

Definition Severity_eqb (a b : Severity) : bool :=
  match a, b with
  | CRITICAL, CRITICAL | HIGH, HIGH | MEDIUM, MEDIUM | INFO, INFO => true
  | _, _ => false
  end.

(** The context record the caller passes to [analyze]. *)
Record Context : Type := {
  source : option string;
  timestamp : option string;
  files : option (list string);
  file : option string
}.

(** [context = {}] *)
Definition emptyContext : Context :=
  {| source := None; timestamp := None; files := None; file := None |}.

(** A violation or a warning. The leading pictograph of [message] and the
    [suggestedFix] text, a constant of each finding type, are left out. *)
Record Finding : Type := {
  type : string;
  severity : Severity;
  incident : option string;
  message : string;
  details : string;
  financialRisk : option FinancialImpact;
  law : string;
  context : Context
}.

Record Commendation : Type := {
  ctype : string;
  cmessage : string
}.

(** The detector instance: [this]. [incidents] is [null] until loaded. *)
Record Detector : Type := {
  violations : list Finding;
  warnings : list Finding;
  commendations : list Commendation;
  incidents : option Registry
}.

(** [constructor()] *)
Definition newDetector : Detector :=
  {| violations := []; warnings := []; commendations := []; incidents := None |}.

(** What [getResults()] returns. *)
Record Results : Type := {
  resViolations : list Finding;
  resWarnings : list Finding;
  resCommendations : list Commendation;
  hasViolations : bool;
  hasCritical : bool
}.

(** The host's [new RegExp(source, 'i')]: [None] when the source is not a
    regular expression (the constructor throws a [SyntaxError]), otherwise
    the [test] method of the compiled expression. *)
Class RegExpHost : Type := {
  newRegExp_i : string -> option (string -> bool)
}.

(** A method of the detector: it may update [this] and may throw. *)
Definition M (A : Type) : Type := Detector -> Result A * Detector.

#[export] Instance M_ret : MRet M := fun A a d => (ok a, d).
#[export] Instance M_bind : MBind M := fun A B k m d =>
  match m d with
  | (inl e, d') => (inl e, d')
  | (inr a, d') => k a d'
  end.

Definition liftR {A} (r : Result A) : M A := fun d => (r, d).

Definition pushViolation (f : Finding) : M unit := fun d =>
  (ok tt, {| violations := violations d ++ [f]; warnings := warnings d;
             commendations := commendations d; incidents := incidents d |}).

Definition pushWarning (f : Finding) : M unit := fun d =>
  (ok tt, {| violations := violations d; warnings := warnings d ++ [f];
             commendations := commendations d; incidents := incidents d |}).

Definition pushCommendation (c : Commendation) : M unit := fun d =>
  (ok tt, {| violations := violations d; warnings := warnings d;
             commendations := commendations d ++ [c]; incidents := incidents d |}).

(** [this.violations = []; this.warnings = []; this.commendations = [];] *)
Definition resetFindings : M unit := fun d =>
  (ok tt, {| violations := []; warnings := []; commendations := [];
             incidents := incidents d |}).

Definition setIncidents (reg : Registry) (d : Detector) : Detector :=
  {| violations := violations d; warnings := warnings d;
     commendations := commendations d; incidents := Some reg |}.

(** [this.incidents[key]]: reading through [null] throws. *)
Definition getIncident (key : string) : M (option Incident) := fun d =>
  match incidents d with
  | None => (throw TypeError, d)
  | Some reg => (ok (reg !! key), d)
  end.

(** [getResults()] *)
Definition getResults : M Results := fun d =>
  (ok {| resViolations := violations d;
         resWarnings := warnings d;
         resCommendations := commendations d;
         hasViolations := (0 <? length (violations d))%nat;
         hasCritical := existsb (fun v => Severity_eqb (severity v) CRITICAL) (violations d) |},
   d).

(** *** Loading the rule registry *)

(** What the outside world gives one call of [loadIncidentPatterns]. *)
Record LoadEnv : Type := {
  (** the Central Brain client (a singleton of the process) *)
  brain : CentralBrain.Sender;
  (** what [GET /api/patterns/incidents] comes back with *)
  remote : CentralBrain.Response (option Registry);
  (** [fs.readdir(incidentsDir)]: the file names, each with what reading
      and parsing that file gives *)
  localDir : Result (list (string * Result Incident))
}.

(** The first half of [loadIncidentPatterns]: the live rules when the client
    is enabled and the fetch gives a non-empty dictionary. *)
Definition tryLive (env : LoadEnv) : option Registry :=
  if CentralBrain.enabled (brain env) then
    match CentralBrain.fetchIncidentPatterns (brain env) (remote env) with
    | inr livePatterns =>
        if (0 <? size livePatterns)%nat then Some livePatterns else None
    | inl _ => None
    end
  else None.

(** The loop over the local files: [this.incidents[incident.id] = incident]
    for each file whose name ends in [.json]. *)
Fixpoint readLocal (entries : list (string * Result Incident)) (acc : Registry)
    : Result Registry :=
  match entries with
  | [] => ok acc
  | (name, content) :: rest =>
      if endsWith name ".json" then
        bindR content (fun incident => readLocal rest (<[id incident := incident]> acc))
      else readLocal rest acc
  end.

(** [loadIncidentPatterns()] *)
Definition loadIncidentPatterns (env : LoadEnv) : M bool := fun d =>
  match tryLive env with
  | Some livePatterns => (ok true, setIncidents livePatterns d)
  | None =>
      match bindR (localDir env) (fun entries => readLocal entries ∅) with
      | inr reg => (ok true, setIncidents reg d)
      | inl _ => (ok false, setIncidents ∅ d)
      end
  end.

(** *** Rule-backed checks *)

(** [incident.pattern.detection.textPatterns.map(p => new RegExp(p, 'i'))] *)
Definition compilePatterns `{RegExpHost} (incident : Incident)
    : Result (list (string -> bool)) :=
  match textPatterns incident with
  | None => throw TypeError
  | Some sources =>
      mapR (fun p => match newRegExp_i p with
                     | Some t => ok t
                     | None => throw SyntaxError
                     end) sources
  end.

(** The [for ... if (pattern.test(text)) { ...; break; }] loop: its body runs
    once when some pattern matches. *)
Definition anyMatches (patterns : list (string -> bool)) (text : string) : bool :=
  existsb (fun pattern => pattern text) patterns.

(** [{min: incident.financialImpact.min, max: ..., proven: ...}] *)
Definition readImpact (incident : Incident) : Result FinancialImpact :=
  match financialImpact incident with
  | None => throw TypeError
  | Some fi => ok fi
  end.

(** [context.file && p(context.file)] *)
Definition fileSatisfies (context : Context) (p : string -> bool) : bool :=
  match file context with
  | Some f => negb (String.eqb f "") && p f
  | None => false
  end.

(** Issue #43: Security Control Removal (CRITICAL) *)
Definition checkIssue43Pattern `{RegExpHost} (text : string) (context : Context) : M unit :=
  incident ← getIncident "issue-43";
  match incident with
  | None => mret tt
  | Some incident =>
      patterns ← liftR (compilePatterns incident);
      if anyMatches patterns text then
        risk ← liftR (readImpact incident);
        pushViolation
          {| type := "SECURITY_CONTROL_REMOVAL";
             severity := CRITICAL;
             incident := Some "Issue #43";
             message := "SECURITY CONTROL REMOVAL DETECTED";
             details := "You are attempting to remove or modify security controls.
This is the EXACT pattern that caused Issue #43.";
             financialRisk := Some risk;
             law := "Security controls exist because of previous failures. DO NOT REMOVE.";
             context := context |}
      else mret tt
  end.

(** Issue #32: NO NGINX Law (HIGH) *)
Definition checkIssue32Pattern `{RegExpHost} (text : string) (context : Context) : M unit :=
  incident ← getIncident "issue-32";
  match incident with
  | None => mret tt
  | Some incident =>
      patterns ← liftR (compilePatterns incident);
      if anyMatches patterns text then
        pushViolation
          {| type := "NO_NGINX_LAW";
             severity := HIGH;
             incident := Some "Issue #32";
             message := "NO NGINX LAW VIOLATED";
             details := "You are attempting to add nginx. We use Node.js + Express for everything.";
             financialRisk := None;
             law := "NO NGINX - Use express.static() for static files";
             context := context |}
      else mret tt
  end.

(** Issue #41: Untested Deploy (HIGH) *)
Definition checkIssue41Pattern (text : string) (context : Context) : M unit :=
  let isWorkflowChange :=
    fileSatisfies context (fun f => includes f ".github/workflows" || includes f "deploy") in
  if isWorkflowChange then
    let hasTestEvidence :=
      test (seq [lit_i "test"; Star dot; lit_i "local"]) text ||
      test (seq [lit_i "local"; Star dot; lit_i "test"]) text ||
      test (seq [lit_i "verified"; Star dot; lit_i "local"]) text ||
      test (seq [lit_i "curl"; Star dot; lit_i "localhost"]) text in
    if negb hasTestEvidence then
      pushWarning
        {| type := "UNTESTED_DEPLOY";
           severity := HIGH;
           incident := Some "Issue #41";
           message := "UNTESTED DEPLOYMENT PATTERN DETECTED";
           details := "You modified CI/CD workflows without evidence of local testing.";
           financialRisk := None;
           law := "ALWAYS test locally before production (no exceptions)";
           context := context |}
    else mret tt
  else mret tt.

(** The class of the two quotation marks (single and double). *)
Definition quotes : string := String "'"%char (String "034"%char EmptyString).

(** The label of the second theme element: [data-theme=] followed by the word
    light in double quotation marks and by the closing bracket and [styles]. *)
Definition lightThemeStyles : string :=
  "[data-theme=" ++ String "034"%char ("light" ++ String "034"%char "] styles").

(** DAYMAN/NIGHTMAN Theme System Required *)
Definition checkDaymanNightmanTheme (text : string) (context : Context) : M unit :=
  incident ← getIncident "dayman-nightman-theme";
  match incident with
  | None => mret tt
  | Some _ =>
      let isCustomerFacingHTML :=
        fileSatisfies context (fun f =>
          includes f "/public/" && endsWith f ".html" ||
          includes f "/services/" && endsWith f ".html" ||
          includes f "status-page" && endsWith f ".html") in
      if negb isCustomerFacingHTML then mret tt
      else
        let hasThemeVars :=
          test (seq [lit ":root"; Star space; lit "{"; Star anychar; lit "--"]) text in
        let hasLightTheme :=
          test (seq [lit "[data-theme="; oneOf quotes; lit "light"; oneOf quotes; lit "]"]) text in
        let hasToggleFunction := test (lit "function toggleTheme()") text in
        let hasDaymanReference := test (lit "DAYMAN") text in
        let hasNightmanReference := test (lit "NIGHTMAN") text in
        let missingElements : list string :=
          ((if negb hasThemeVars then [":root CSS variables"] else []) ++
           (if negb hasLightTheme
            then [lightThemeStyles]
            else []) ++
           (if negb hasToggleFunction then ["toggleTheme() function"] else []) ++
           (if negb hasDaymanReference then ["DAYMAN reference"] else []) ++
           (if negb hasNightmanReference then ["NIGHTMAN reference"] else []))%list in
        if (0 <? length missingElements)%nat then
          pushWarning
            {| type := "MISSING_THEME_SYSTEM";
               severity := MEDIUM;
               incident := Some "DAYMAN/NIGHTMAN Theme";
               message := "DAYMAN/NIGHTMAN THEME SYSTEM MISSING";
               details := "Customer-facing page is missing theme system elements: "
                          ++ join ", " missingElements;
               financialRisk := None;
               law := "DAYMAN/NIGHTMAN THEME REQUIRED - All customer-facing pages must support theme toggle";
               context := context |}
        else mret tt
  end.

(** Alpine Base Image Law (HIGH) *)
Definition checkAlpineBaseImagePattern `{RegExpHost} (text : string) (context : Context) : M unit :=
  incident ← getIncident "alpine-base-image";
  match incident with
  | None => mret tt
  | Some incident =>
      patterns ← liftR (compilePatterns incident);
      if anyMatches patterns text then
        risk ← liftR (readImpact incident);
        pushViolation
          {| type := "ALPINE_BASE_IMAGE";
             severity := HIGH;
             incident := Some "Alpine Base Image";
             message := "BASE IMAGE LAW VIOLATED";
             details := "You are attempting to use Alpine Linux. We use Debian-based images ONLY (node:20-slim).";
             financialRisk := Some risk;
             law := "BASE IMAGE LAW: DEBIAN ONLY, NEVER ALPINE";
             context := context |}
      else mret tt
  end.

(** Docker AMD64 Platform Law (HIGH) *)
Definition checkDockerAmd64PlatformPattern `{RegExpHost} (text : string) (context : Context) : M unit :=
  incident ← getIncident "docker-amd64-platform";
  match incident with
  | None => mret tt
  | Some incident =>
      (* Exception: References to the correct approach *)
      if includes text "./build-and-push.sh" || includes text "--platform linux/amd64"
      then mret tt
      else
        patterns ← liftR (compilePatterns incident);
        if anyMatches patterns text then
          risk ← liftR (readImpact incident);
          pushViolation
            {| type := "DOCKER_AMD64_PLATFORM";
               severity := HIGH;
               incident := Some "Docker AMD64 Platform";
               message := "DOCKER BUILD LAW VIOLATED";
               details := "You are using docker build without --platform linux/amd64. Mac builds default to ARM64, breaking Azure Container Apps.";
               financialRisk := Some risk;
               law := "DOCKER BUILD LAW: ALWAYS AMD64 - Use ./build-and-push.sh";
               context := context |}
        else mret tt
  end.

(** The five keyword categories of [checkEnterpriseSprawl], in the order of
    the object literal. *)
Definition sprawlPatterns : list (string * regex) :=
  [ ("DDoS Protection",
      seq [lit_i "ddos"; Star dot; lit_i "protection"; Star dot; lit_i "standard"]);
    ("Private Link", seq [lit_i "private"; Star dot; lit_i "link"]);
    ("Enterprise Key Management",
      seq [lit_i "enterprise"; Star dot; lit_i "key"; Star dot; lit_i "management"]);
    ("Application Gateway", seq [lit_i "application"; Star dot; lit_i "gateway"]);
    ("Azure Firewall", seq [lit_i "azure"; Star dot; lit_i "firewall"]) ].

Definition sprawlViolation (name : string) (context : Context) : Finding :=
  {| type := "ENTERPRISE_SPRAWL";
     severity := CRITICAL;
     incident := None;
     message := "ENTERPRISE SPRAWL: " ++ name ++ " detected";
     details := "DugganUSA LLC has no legacy infrastructure to protect.";
     financialRisk := None;
     law := "Born Without Sin - Do not preemptively acquire enterprise debt";
     context := context |}.

(** The [for (const [name, pattern] of Object.entries(patterns))] loop. *)
Fixpoint sprawlLoop (entries : list (string * regex)) (text : string) (context : Context)
    : M unit :=
  match entries with
  | [] => mret tt
  | (name, pattern) :: rest =>
      (if test pattern text then pushViolation (sprawlViolation name context) else mret tt) ;;
      sprawlLoop rest text context
  end.

(** Check for enterprise sprawl. [skipCostChecks] is accepted and not read. *)
Definition checkEnterpriseSprawl (text : string) (context : Context) (skipCostChecks : bool)
    : M unit :=
  sprawlLoop sprawlPatterns text context.

(** The exclusions of the Live Data check ("correct patterns"). *)
Definition correctPatterns : list regex :=
  [ seq [lit_i "fetch("; Star dot; oneOf quotes; lit_i "/";
         Alt (lit_i "health") (lit_i "api/version")];
    seq [lit_i "getElementById("; Star dot; lit_i "version"];
    lit_i "updateSprintStats";
    seq [lit_i "textContent"; Star dot; lit_i "="; Star dot; lit_i "data."];
    seq [lit_i "// Version from "; Star dot; lit_i "API"] ].

(** Live Data Law - Enhanced with incident-based learning (HIGH) *)
Definition checkLiveDataLawPattern `{RegExpHost} (text : string) (context : Context) : M unit :=
  incident ← getIncident "live-data-law";
  match incident with
  | None => mret tt
  | Some incident =>
      let isRelevantFile :=
        fileSatisfies context (fun f =>
          endsWith f ".html" ||
          includes f "/public/" && endsWith f ".js" ||
          includes f "/views/" && endsWith f ".ejs") in
      if negb isRelevantFile then mret tt
      else if existsb (fun correct => test correct text) correctPatterns then mret tt
      else
        patterns ← liftR (compilePatterns incident);
        if anyMatches patterns text then
          risk ← liftR (readImpact incident);
          pushViolation
            {| type := "HARDCODED_LIVE_DATA";
               severity := HIGH;
               incident := Some "Live Data Law";
               message := "LIVE DATA LAW VIOLATED";
               details := "You are hardcoding version numbers, metrics, or status data that should be fetched from APIs.";
               financialRisk := Some risk;
               law := "LIVE DATA LAW: NO HARDCODED VERSIONS/STATUS EVER";
               context := context |}
        else mret tt
  end.

(** The two shapes of [cd ../.. && git]. *)
Definition breakoutPatterns : list regex :=
  [ seq [lit_i "cd"; plus space;
         Alt (lit "../..") (Alt (lit "..\..") (lit "../../"));
         plus space; lit "&&"; Star dot; lit_i "git"];
    seq [lit_i "cd"; plus space; lit ".."; plus space; lit "&&"; plus space;
         lit_i "cd"; plus space; lit ".."; plus space; lit "&&"; Star dot; lit_i "git"] ].

(** Git Directory Breakout Prevention (MEDIUM) *)
Definition checkGitDirectoryBreakout (text : string) (context : Context) : M unit :=
  incident ← getIncident "git-directory-breakout";
  match incident with
  | None => mret tt
  | Some _ =>
      if existsb (fun r => test r text) breakoutPatterns then
        pushViolation
          {| type := "GIT_DIRECTORY_BREAKOUT";
             severity := MEDIUM;
             incident := Some "Issue #95";
             message := "DIRECTORY BREAKOUT DETECTED";
             details := "You are using cd ../.. before git commands. This breaks out of current context and violates directory discipline.";
             financialRisk := None;
             law := "DIRECTORY DISCIPLINE LAW: Execute git from current directory (consistent with docker-wrong-directory)";
             context := context |}
      else mret tt
  end.

(** Deprecated: delegates to [checkLiveDataLawPattern]. *)
Definition checkHardcodedData `{RegExpHost} (text : string) (context : Context) : M unit :=
  checkLiveDataLawPattern text context.

(** [$500+/month] and [$1000+/month]. *)
Definition expensivePatterns : list regex :=
  [ seq [lit "$"; range "5" "9"; atLeast 2 digit; Star dot; lit_i "month"];
    seq [lit "$"; atLeast 4 digit; Star dot; lit_i "month"] ].

(** Check for cost inefficiency *)
Definition checkCostEfficiency (text : string) (context : Context) (skipCostChecks : bool)
    : M unit :=
  if skipCostChecks then mret tt
  else if existsb (fun r => test r text) expensivePatterns then
    pushWarning
      {| type := "COST_INEFFICIENCY";
         severity := HIGH;
         incident := None;
         message := "HIGH COST DETECTED";
         details := "DugganUSA LLC maintains lean infrastructure costs per business model.";
         financialRisk := None;
         law := "Maintain extreme cost efficiency - it is our competitive moat";
         context := context |}
  else mret tt.

(** Check for commendations *)
Definition checkCommendations (text : string) : M unit :=
  let lowerText := toLowerCase text in
  (if includes lowerText "cost" &&
      (includes lowerText "reduction" || includes lowerText "efficiency")
   then pushCommendation
          {| ctype := "COST_EFFICIENCY";
             cmessage := "Maintaining extreme cost efficiency - The Law is upheld" |}
   else mret tt) ;;
  (if includes lowerText "soc1" || includes lowerText "compliance"
   then pushCommendation
          {| ctype := "SOC1_FOCUS";
             cmessage := "Focusing on application compliance - The Law is upheld" |}
   else mret tt) ;;
  (if includes lowerText "cisa" || includes lowerText "zero-day" || includes lowerText "kev"
   then pushCommendation
          {| ctype := "ZERO_DAY_PROTECTION";
             cmessage := "Free, effective threat protection - The Law is upheld" |}
   else mret tt) ;;
  (if includes lowerText "born without sin" || includes lowerText "no legacy"
   then pushCommendation
          {| ctype := "PHILOSOPHICAL_ALIGNMENT";
             cmessage := "Understanding the competitive advantage - The Law is upheld" |}
   else mret tt).

(** Check if text is documentation *)
Definition isDocumentation (text : string) : bool :=
  includes text "SECURITY-PHILOSOPHY" ||
  includes text "THE LAW" ||
  includes text "Born Without Sin" ||
  includes text "what NOT to do" ||
  includes text "What Legacy Enterprises" ||
  includes text "Why They Need It | Why You Don't" ||
  includes text "IMPLEMENTATION-PLAN" ||
  includes text "JUDGE-DREDD-AGENT-GUIDE".

(** Check if text is investor materials *)
Definition isInvestorMaterials (text : string) : bool :=
  includes text "ARR" ||
  includes text "portfolio value" ||
  includes text "Patent #" ||
  includes text "**Problem:**" ||
  includes text "competitors" ||
  includes text "TAM:".

(** [if (!this.incidents) await this.loadIncidentPatterns();] *)
Definition ensureLoaded (env : LoadEnv) : M unit := fun d =>
  match incidents d with
  | None => (_ ← loadIncidentPatterns env; mret tt) d
  | Some _ => (ok tt, d)
  end.

(** Analyze text/diff for violations *)
Definition analyze `{RegExpHost} (env : LoadEnv) (text : string) (context : Context)
    : M Results :=
  resetFindings ;;
  (* Ensure incidents are loaded *)
  ensureLoaded env ;;
  (* Exception: Documentation about violations is allowed *)
  if isDocumentation text then
    pushCommendation
      {| ctype := "DOCUMENTATION";
         cmessage := "Documenting THE LAW - teaching what to avoid" |} ;;
    getResults
  else
    (* Exception: Investor materials describing costs *)
    let investor := isInvestorMaterials text in
    (if investor then
       pushCommendation
         {| ctype := "INVESTOR_MATERIALS";
            cmessage := "Investor materials - describing market opportunity" |}
     else mret tt) ;;
    (* Check for incident patterns *)
    checkIssue43Pattern text context ;;
    checkIssue32Pattern text context ;;
    checkIssue41Pattern text context ;;
    checkDaymanNightmanTheme text context ;;
    checkAlpineBaseImagePattern text context ;;
    checkDockerAmd64PlatformPattern text context ;;
    checkLiveDataLawPattern text context ;;
    checkGitDirectoryBreakout text context ;;
    (* Check other violations *)
    checkEnterpriseSprawl text context investor ;;
    checkHardcodedData text context ;;
    checkCostEfficiency text context investor ;;
    (* Check for commendations *)
    checkCommendations text ;;
    getResults.

(** *** Vocabulary of the properties *)

(** Total-correctness triple: from a state that satisfies [P], the method
    returns normally, with a value and a state that satisfy [Q]. *)
Definition triple {A} (P : Detector -> Prop) (m : M A) (Q : A -> Detector -> Prop) : Prop :=
  forall d, P d -> exists a d', m d = (ok a, d') /\ Q a d'.

(** The detector right after [resetFindings], with registry [reg] loaded. *)
Definition loaded (reg : Registry) : Detector :=
  {| violations := []; warnings := []; commendations := []; incidents := Some reg |}.

(** A warning of one of the two checks that consult no rule. *)
Definition heuristicWarning (w : Finding) : Prop :=
  type w = "UNTESTED_DEPLOY" \/ type w = "COST_INEFFICIENCY".

(** The registry is [reg], the violations pushed so far are [vs], and the
    warnings pushed so far come from the checks that consult no rule. *)
Definition atViolations (reg : Registry) (vs : list Finding) (d : Detector) : Prop :=
  incidents d = Some reg /\ violations d = vs /\ Forall heuristicWarning (warnings d).

(** The method never changes the registry, whether it returns or throws. *)
Definition keepsRegistry {A} (m : M A) : Prop :=
  forall d, incidents (snd (m d)) = incidents d.

(** The rule identifiers that the checks of [analyze] look up. *)
Definition ruleIds : list string :=
  [ "issue-43"; "issue-32"; "dayman-nightman-theme"; "alpine-base-image";
    "docker-amd64-platform"; "live-data-law"; "git-directory-breakout" ].

(** The violations that [checkEnterpriseSprawl] adds for a text: one for each
    category whose pattern matches, in the order of the categories. *)
Definition sprawlFindings (text : string) (context : Context) : list Finding :=
  map (fun e => sprawlViolation (fst e) context)
      (List.filter (fun e => test (snd e) text) sprawlPatterns).

(** What [analyze] returns for a documentation text. *)
Definition documentationResults : Results :=
  {| resViolations := [];
     resWarnings := [];
     resCommendations :=
       [{| ctype := "DOCUMENTATION";
           cmessage := "Documenting THE LAW - teaching what to avoid" |}];
     hasViolations := false;
     hasCritical := false |}.

(** [new RegExp(p, 'i')] does not throw. *)
Definition compiles `{RegExpHost} (p : string) : bool :=
  match newRegExp_i p with
  | Some _ => true
  | None => false
  end.

(** A rule as a pattern-reading check needs it, when it is present: it
    carries its pattern list, every pattern compiles, and, for a check that
    reports the financial risk, it carries its financial impact. *)
Definition wellFormedRule `{RegExpHost} (needsImpact : bool) (rule : option Incident) : bool :=
  match rule with
  | None => true
  | Some incident =>
      match textPatterns incident with
      | None => false
      | Some sources => forallb compiles sources
      end &&
      (negb needsImpact ||
       match financialImpact incident with Some _ => true | None => false end)
  end.

(** The rule identifiers whose records the checks read, each with whether
    its check reports the financial risk. *)
Definition patternRules : list (string * bool) :=
  [ ("issue-43", true); ("issue-32", false); ("alpine-base-image", true);
    ("docker-amd64-platform", true); ("live-data-law", true) ].

Definition wellFormedRegistry `{RegExpHost} (reg : Registry) : bool :=
  forallb (fun r => wellFormedRule (snd r) (reg !! fst r)) patternRules.

(** A host for registries whose pattern sources are plain words (letters,
    digits, spaces, [-], [_], [:]): such a source compiles to the search for
    that word without regard to case, as [new RegExp(source, 'i')] does. Any
    other source is refused, also where [new RegExp] would accept it: the
    worked examples, the only users of this host, give it plain words, and
    for a source that does not compile one that [new RegExp] refuses too. *)
Definition isPlain (c : ascii) : bool :=
  let n := code c in
  ((48 <=? n) && (n <=? 58) || (65 <=? n) && (n <=? 90) || (97 <=? n) && (n <=? 122)
   || (n =? 32) || (n =? 45) || (n =? 95))%N.

Fixpoint allPlain (s : string) : bool :=
  match s with
  | EmptyString => true
  | String c s' => isPlain c && allPlain s'
  end.

Definition wordHost : RegExpHost :=
  {| newRegExp_i := fun p => if allPlain p then Some (test (lit_i p)) else None |}.

End Detector.

(** ** Five-dimension verifier ([FourDimensionalVerifier]) *)

Module Verifier.
Import JS.

(** Status tag of one dimension. *)
Module DimStatus.
Inductive t : Type :=
| PASSED | FAILED | ERROR | DRIFT_DETECTED | DEGRADED
| MALICIOUS_DETECTED | DECAYED | ESTIMATED.
End DimStatus.

(** What an analyzer returns. The [evidence] payload and the [details] text
    are left out. *)
Record DimensionResult : Type := {
  dimension : nat;
  name : string;
  score : Q;
  confidence : Z;
  status : DimStatus.t
}.

(** 95% is THE LAW (epistemic humility) *)
Definition EPISTEMIC_CAP : Z := 95.
Definition EPISTEMIC_BUFFER : Z := 5.

(** [this.thresholds] *)
Record Thresholds : Type := {
  commit : Z; corpus : Z; evidence : Z; temporal : Z; financial : Z
}.
Definition thresholds : Thresholds :=
  {| commit := 95; corpus := 95; evidence := 95; temporal := 95; financial := 95 |}.

Definition Qltb (x y : Q) : bool := negb (Qle_bool y x).

(** A file as the verifier meets it: not accessible, accessible but failing
    on read, or read. *)
Inductive File : Type :=
| NoFile
| BadFile
| Contents (content : string).

(** A directory as the verifier meets it: not accessible, accessible but
    failing on [readdir], or listed; each listed name comes with what reading
    and parsing that file gives. *)
Inductive Dir (A : Type) : Type :=
| NoDir
| BadDir
| Listing (entries : list (string * Result A)).
Arguments NoDir {A}.
Arguments BadDir {A}.
Arguments Listing {A} entries.

(** What one [axios.get] settles to. *)
Inductive Settled : Type :=
| Fulfilled (statusCode : Z)
| RejectedRequest.

(** A VirusTotal evidence file, parsed: [virustotal_scan.scan_skipped],
    [stats.malicious || 0], [stats.suspicious || 0], [status || 'UNKNOWN']. *)
Record VtFile : Type := {
  scan_skipped : bool;
  malicious : Z;
  suspicious : Z;
  scanStatus : string
}.

(** A financial evidence file, parsed: the avoided cost and the ROI. *)
Record Session : Type := {
  avoided_cost : Z;
  roi : Z
}.

(** Everything one [verify()] reads from outside. *)
Record World : Type := {
  (** the corpus file at [corpusPath] *)
  corpusFile : File;
  (** whether [JSON.parse] of a line gives a truthy value *)
  parsesTruthy : string -> bool;
  (** what the GET of each production endpoint settles to *)
  axiosGet : string -> Settled;
  (** [compliance/evidence/virustotal] *)
  vtDir : Dir VtFile;
  (** [compliance/evidence/marketing]: each file with its page-view total *)
  cfDir : Dir Z;
  (** [compliance/evidence/financial] *)
  financialDir : Dir Session;
  (** [Date.now()] *)
  dateNow : Z
}.

(** *** Dimension 1: Commit Compliance *)

Definition analyzeDimension1_Commits : Result DimensionResult :=
  ok {| dimension := 1; name := "Commit Compliance";
        score := 95;  (* Placeholder - replace with actual git analysis *)
        confidence := 95; status := DimStatus.PASSED |}.

(** *** Dimension 2: Corpus Alignment *)

Record CorpusChecks : Type := {
  has95PercentBadge : bool;
  hasEpistemicHumility : bool;
  hasEvidenceBacked : bool;
  hasAspbergersInformed : bool;
  aligned : bool;
  checksScore : Z
}.

Definition initialChecks : CorpusChecks :=
  {| has95PercentBadge := false; hasEpistemicHumility := false;
     hasEvidenceBacked := false; hasAspbergersInformed := false;
     aligned := false; checksScore := 0 |}.

Definition countTrue (bs : list bool) : nat := length (List.filter (fun b => b) bs).

(** Validate corpus alignment checks *)
Definition validateCorpusAlignment (w : World) : Result CorpusChecks :=
  tryCatch
    (match corpusFile w with
     | NoFile => ok initialChecks
     | BadFile => throw IOError
     | Contents content =>
         let lines := List.filter trimmedNonEmpty (splitLines content) in
         let examples := List.filter (parsesTruthy w) lines in
         let exampleCount := Z.of_nat (length examples) in
         let corpusText := toLowerCase content in
         let b1 := includes corpusText "95%" || includes corpusText "epistemic cap" in
         let b2 := includes corpusText "epistemic" || includes corpusText "humility"
                   || includes corpusText "5% bullshit" in
         let b3 := includes corpusText "evidence" || includes corpusText "validated"
                   || includes corpusText "proof" in
         let b4 := includes corpusText "precise" || includes corpusText "rigorous"
                   || includes corpusText "aristocrats" in
         (* Object.values(checks).filter(v => v === true).length: [aligned]
            is still false here *)
         let alignmentCount := Z.of_nat (countTrue [b1; b2; b3; b4; false]) in
         let corpusSizeScore :=
           if (50 <=? exampleCount)%Z then 95%Z
           else Math_round ((inject_Z exampleCount / 50) * 95) in
         let qualityScore := Math_round ((inject_Z alignmentCount / 4) * 95) in
         let s := Z.min 95 (Math_round (inject_Z (corpusSizeScore + qualityScore) / 2)) in
         ok {| has95PercentBadge := b1; hasEpistemicHumility := b2;
               hasEvidenceBacked := b3; hasAspbergersInformed := b4;
               aligned := (90 <=? s)%Z; checksScore := s |}
     end)
    (fun _ => ok initialChecks).

(** The result of dimension 2 when the corpus is not accessible. *)
Definition dimension2Failed : DimensionResult :=
  {| dimension := 2; name := "Corpus Alignment"; score := 0;
     confidence := 0; status := DimStatus.FAILED |}.

(** The result of the [catch] of dimension 2. *)
Definition dimension2Error : DimensionResult :=
  {| dimension := 2; name := "Corpus Alignment"; score := 0;
     confidence := 0; status := DimStatus.ERROR |}.

Definition analyzeDimension2_Corpus (w : World) : Result DimensionResult :=
  tryCatch
    (match corpusFile w with
     | NoFile => ok dimension2Failed
     | _ =>
         bindR (validateCorpusAlignment w) (fun corpusChecks =>
           let s := if aligned corpusChecks then 95%Z else checksScore corpusChecks in
           ok {| dimension := 2; name := "Corpus Alignment";
                 score := inject_Z (Z.min s EPISTEMIC_CAP);
                 confidence := 95;
                 status := if (corpus thresholds <=? s)%Z
                           then DimStatus.PASSED else DimStatus.DRIFT_DETECTED |})
     end)
    (fun _ => ok dimension2Error).

(** *** Dimension 3: Production Evidence *)

Record ApiEvidence : Type := { allHealthy : bool; healthScore : Z }.
Record VtEvidence : Type := { allClean : bool; hasMalicious : bool; securityScore : Z }.
Record CfEvidence : Type := { hasData : bool; analyticsScore : Z }.

Definition endpoints : list string :=
  ["/api/incidents"; "/api/patents"; "/api/cloudflare-bypass-evidence"; "/health"].

Definition isHealthy (r : Settled) : bool :=
  match r with
  | Fulfilled statusCode => (statusCode =? 200)%Z
  | RejectedRequest => false
  end.

(** Fetch production evidence from APIs *)
Definition fetchProductionEvidence (w : World) : Result ApiEvidence :=
  let results := map (axiosGet w) endpoints in
  let healthyCount := Z.of_nat (length (List.filter isHealthy results)) in
  let n := Z.of_nat (length endpoints) in
  ok {| healthScore := Math_round ((inject_Z healthyCount / inject_Z n) * 100);
        allHealthy := (healthyCount =? n)%Z |}.

(** The running totals of the loop over the VirusTotal evidence files. *)
Record VtTotals : Type := {
  scans : nat;
  totalMalicious : Z;
  totalSuspicious : Z;
  skippedScans : nat
}.

Fixpoint vtLoop (jsonFiles : list (string * Result VtFile)) (acc : VtTotals) : VtTotals :=
  match jsonFiles with
  | [] => acc
  | (_, inl _) :: rest => vtLoop rest acc  (* Skip files that can't be parsed *)
  | (_, inr data) :: rest =>
      if scan_skipped data then
        vtLoop rest {| scans := scans acc; totalMalicious := totalMalicious acc;
                       totalSuspicious := totalSuspicious acc;
                       skippedScans := S (skippedScans acc) |}
      else
        vtLoop rest {| scans := S (scans acc);
                       totalMalicious := totalMalicious acc + malicious data;
                       totalSuspicious := totalSuspicious acc + suspicious data;
                       skippedScans := skippedScans acc |}
  end.

(** Check VirusTotal scan evidence for malware detection *)
Definition checkVirusTotalEvidence (w : World) : Result VtEvidence :=
  tryCatch
    (match vtDir w with
     | NoDir =>
         (* Neutral score when not scanned *)
         ok {| allClean := false; hasMalicious := false; securityScore := 50 |}
     | BadDir => throw IOError
     | Listing entries =>
         let jsonFiles := List.filter (fun e => endsWith (fst e) ".json") entries in
         if (length jsonFiles =? 0)%nat then
           ok {| allClean := false; hasMalicious := false; securityScore := 50 |}
         else
           let t := vtLoop jsonFiles
                      {| scans := 0; totalMalicious := 0; totalSuspicious := 0;
                         skippedScans := 0 |} in
           let totalScanned := scans t in
           let mal := (0 <? totalMalicious t)%Z in
           let clean := (totalMalicious t =? 0)%Z && (0 <? totalScanned)%nat in
           if (totalScanned =? 0)%nat then
             ok {| allClean := clean; hasMalicious := mal;
                   securityScore := if (0 <? skippedScans t)%nat then 75 else 50 |}
           else if clean then
             ok {| allClean := clean; hasMalicious := mal; securityScore := 95 |}
           else
             let penaltyPercent :=
               Z.min 100 (totalMalicious t * 10 + totalSuspicious t * 5) in
             ok {| allClean := clean; hasMalicious := mal;
                   securityScore := Z.max 0 (95 - penaltyPercent) |}
     end)
    (fun _ => ok {| allClean := false; hasMalicious := false; securityScore := 0 |}).

(** [names.sort()]: insertion into ascending order of code units. *)
Fixpoint insertByName {A} (e : string * A) (l : list (string * A)) : list (string * A) :=
  match l with
  | [] => [e]
  | x :: xs => if String.leb (fst e) (fst x) then e :: x :: xs else x :: insertByName e xs
  end.

Definition sortByName {A} (l : list (string * A)) : list (string * A) :=
  fold_right insertByName [] l.

(** Check Cloudflare Analytics for guerilla marketing metrics *)
Definition checkCloudflareAnalytics (w : World) : Result CfEvidence :=
  tryCatch
    (match cfDir w with
     | NoDir => ok {| hasData := false; analyticsScore := 50 |}
     | BadDir => throw IOError
     | Listing entries =>
         let cfFiles :=
           rev (sortByName
                  (List.filter (fun e => startsWith (fst e) "cloudflare-analytics-"
                                         && endsWith (fst e) ".json") entries)) in
         match cfFiles with
         | [] => ok {| hasData := false; analyticsScore := 50 |}
         | (_, latest) :: _ =>
             bindR latest (fun totalPageviews =>
               if (0 <? totalPageviews)%Z
               then ok {| hasData := true; analyticsScore := 95 |}
               else ok {| hasData := false; analyticsScore := 50 |})
         end
     end)
    (fun _ => ok {| hasData := false; analyticsScore := 50 |}).

(** The result of the [catch] of dimension 3. *)
Definition dimension3Error : DimensionResult :=
  {| dimension := 3; name := "Production Evidence"; score := 0;
     confidence := 0; status := DimStatus.ERROR |}.

Definition analyzeDimension3_Evidence (w : World) : Result DimensionResult :=
  tryCatch
    (bindR (fetchProductionEvidence w) (fun apiEvidence =>
     bindR (checkVirusTotalEvidence w) (fun vtEvidence =>
     bindR (checkCloudflareAnalytics w) (fun cfEvidence =>
       (* API health: 40% weight, VirusTotal: 30% weight, Cloudflare: 30% weight *)
       let s :=
         if allHealthy apiEvidence && allClean vtEvidence && hasData cfEvidence
         then 95%Z
         else
           let apiScore := (inject_Z (healthScore apiEvidence) * (4 # 10))%Q in
           let vtScore := (inject_Z (securityScore vtEvidence) * (3 # 10))%Q in
           let cfScore := (inject_Z (analyticsScore cfEvidence) * (3 # 10))%Q in
           Math_round (apiScore + vtScore + cfScore)%Q in
       let st :=
         if hasMalicious vtEvidence then DimStatus.MALICIOUS_DETECTED
         else if (s <? evidence thresholds)%Z then DimStatus.DEGRADED
         else DimStatus.PASSED in
       ok {| dimension := 3; name := "Production Evidence";
             score := inject_Z (Z.min s EPISTEMIC_CAP);
             confidence := 95; status := st |}))))
    (fun _ => ok dimension3Error).

(** *** Dimension 4: Temporal Decay *)

Record Temporal : Type := {
  lastCommitAge : Z;
  cveExposure : Z;
  decayPercent : Q
}.

Definition dayMs : Z := 24 * 60 * 60 * 1000.

(** The decay bands of [calculateTemporalDecay], as a function of the age in
    days of the last commit:
    - 0-7 days: 0% decay
    - 8-30 days: 1-3% decay
    - 31+ days: 3-10% decay *)
Definition decayOfAge (age : Z) : Q :=
  if (age <=? 7)%Z then 0%Q
  else if (age <=? 30)%Z then Qmin 3 (inject_Z age / 10)%Q
  else Qmin 10 (inject_Z age / 30)%Q.

(** The body of [calculateTemporalDecay] from the two time stamps on. *)
Definition temporalSince (now lastCommitTime : Z) : Temporal :=
  let age := ((now - lastCommitTime) / dayMs)%Z in
  let monthsSinceUpdate := (inject_Z age / 30)%Q in
  {| lastCommitAge := age;
     cveExposure := Qfloor (monthsSinceUpdate * 50);
     decayPercent := decayOfAge age |}.

(** Calculate temporal decay metrics. The time of the last commit is the
    mock of the source: one day before now. *)
Definition calculateTemporalDecay (w : World) : Result Temporal :=
  tryCatch
    (let lastCommitTime := (dateNow w - dayMs)%Z in  (* Mock: 1 day ago *)
     ok (temporalSince (dateNow w) lastCommitTime))
    (fun _ => ok {| lastCommitAge := 0; cveExposure := 0;
                    decayPercent := 5 (* Conservative estimate *) |}).

(** The part of [analyzeDimension4_Temporal] after the temporal metrics. *)
Definition temporalResult (t : Temporal) : DimensionResult :=
  let s := (95 - decayPercent t)%Q in
  {| dimension := 4; name := "Temporal Decay";
     score := Qmax 0 (Qmin s (inject_Z EPISTEMIC_CAP));
     confidence := 95;
     status := if Qle_bool (inject_Z (temporal thresholds)) s
               then DimStatus.PASSED else DimStatus.DECAYED |}.

(** The result of the [catch] of dimension 4. *)
Definition dimension4Estimated : DimensionResult :=
  {| dimension := 4; name := "Temporal Decay";
     score := 85;  (* Default to slight decay on error *)
     confidence := 50; status := DimStatus.ESTIMATED |}.

Definition analyzeDimension4_Temporal (w : World) : Result DimensionResult :=
  tryCatch
    (bindR (calculateTemporalDecay w) (fun t => ok (temporalResult t)))
    (fun _ => ok dimension4Estimated).

(** *** Dimension 5: Financial Efficiency *)

Record Financial : Type := {
  sessions : list Session;
  totalAvoidedCost : Z;
  financialScore : Z
}.

(** The loop over the evidence files: malformed files are skipped. *)
Fixpoint parseSessions (entries : list (string * Result Session)) : list Session :=
  match entries with
  | [] => []
  | (_, inl _) :: rest => parseSessions rest
  | (_, inr data) :: rest => data :: parseSessions rest
  end.

(** Check financial efficiency metrics (P.F. Chang's Avoided Cost) *)
Definition checkFinancialEfficiency (w : World) : Result Financial :=
  tryCatch
    (match financialDir w with
     | NoDir =>
         (* Neutral (not tracking yet) *)
         ok {| sessions := []; totalAvoidedCost := 0; financialScore := 50 |}
     | BadDir => throw IOError
     | Listing entries =>
         let pfChangsFiles :=
           rev (sortByName
                  (List.filter (fun e => startsWith (fst e) "pf-changs-avoided-cost-"
                                         && endsWith (fst e) ".json") entries)) in
         if (length pfChangsFiles =? 0)%nat then
           ok {| sessions := []; totalAvoidedCost := 0; financialScore := 50 |}
         else
           let ss := parseSessions pfChangsFiles in
           let total := fold_left (fun sum s => (sum + avoided_cost s)%Z) ss 0%Z in
           ok {| sessions := ss; totalAvoidedCost := total;
                 financialScore := if (0 <? total)%Z then 95 else 50 |}
     end)
    (fun _ => ok {| sessions := []; totalAvoidedCost := 0; financialScore := 50 |}).

(** The result of the [catch] of dimension 5. *)
Definition dimension5Estimated : DimensionResult :=
  {| dimension := 5; name := "Financial Efficiency";
     score := 50;  (* Neutral on error *)
     confidence := 50; status := DimStatus.ESTIMATED |}.

Definition analyzeDimension5_Financial (w : World) : Result DimensionResult :=
  tryCatch
    (bindR (checkFinancialEfficiency w) (fun fin =>
       ok {| dimension := 5; name := "Financial Efficiency";
             score := inject_Z (financialScore fin);
             confidence := 95;
             status := if (financial thresholds <=? financialScore fin)%Z
                       then DimStatus.PASSED else DimStatus.DEGRADED |}))
    (fun _ => ok dimension5Estimated).

(** *** Correlation *)

Inductive Status : Type := GODEL_COMPLIANT | DRIFT_DETECTED | INCONSISTENT.

(** What [correlate5D] returns; [overallStatus] is its [status] field. *)
Record CorrelationResult : Type := {
  finalScore : Z;
  overallStatus : Status;
  dimensions : list DimensionResult;
  avgScore : Z;
  maxDrift : Q;
  hasDrift : bool;
  epistemicBuffer : Z;
  godelCompliant : bool
}.

(** [scores.reduce((a, b) => a + b, 0) / scores.length], in exact
    arithmetic: see [Scores.wholeScore] for the scores on which the doubles
    of the source agree with it. *)
Definition average (scores : list Q) : Q :=
  (fold_left Qplus scores 0 / inject_Z (Z.of_nat (length scores)))%Q.

(** 5D CORRELATION: The Strange Loop. The scores are rationals and the
    arithmetic is exact: this is the arithmetic of the source on whole
    scores, see [Scores.wholeScore]. *)
Definition correlate5D (dimension1 dimension2 dimension3 dimension4 dimension5 : DimensionResult)
    : CorrelationResult :=
  let s1 := score dimension1 in
  let s2 := score dimension2 in
  let s3 := score dimension3 in
  let s4 := score dimension4 in
  let s5 := score dimension5 in
  let avg := average [s1; s2; s3; s4; s5] in
  (* Check for drift (any dimension more than 10 points from others) *)
  let drift := (Math_max s1 [s2; s3; s4; s5] - Math_min s1 [s2; s3; s4; s5])%Q in
  let drifting := Qltb 10 drift in
  (* Determine overall status *)
  let st := if drifting then DRIFT_DETECTED
            else if Qltb avg 85 then INCONSISTENT
            else GODEL_COMPLIANT in
  (* Cap at 95% (epistemic humility) *)
  let final := Qmin avg (inject_Z EPISTEMIC_CAP) in
  {| finalScore := Math_round final;
     overallStatus := st;
     dimensions := [dimension1; dimension2; dimension3; dimension4; dimension5];
     avgScore := Math_round avg;
     maxDrift := drift;
     hasDrift := drifting;
     epistemicBuffer := EPISTEMIC_BUFFER;
     godelCompliant := negb drifting && Qle_bool 85 avg |}.

(** A dimension result respects the epistemic cap: its score lies between 0
    and [EPISTEMIC_CAP]. *)
Definition withinCap (d : DimensionResult) : Prop :=
  (0 <= score d /\ score d <= inject_Z EPISTEMIC_CAP)%Q.

(** The five analyzers of one [verify()], in order. *)
Definition analyzers : list (World -> Result DimensionResult) :=
  [ fun _ => analyzeDimension1_Commits;
    analyzeDimension2_Corpus;
    analyzeDimension3_Evidence;
    analyzeDimension4_Temporal;
    analyzeDimension5_Financial ].

(** Main 5D verification entry point *)
Definition verify (w : World) : Result CorrelationResult :=
  bindR analyzeDimension1_Commits (fun dimension1 =>
  bindR (analyzeDimension2_Corpus w) (fun dimension2 =>
  bindR (analyzeDimension3_Evidence w) (fun dimension3 =>
  bindR (analyzeDimension4_Temporal w) (fun dimension4 =>
  bindR (analyzeDimension5_Financial w) (fun dimension5 =>
    ok (correlate5D dimension1 dimension2 dimension3 dimension4 dimension5)))))).

End Verifier.

(** ** Whole scores *)

Module Scores.
Import JS Verifier.

(** The numbers of the source are doubles, the scores of this model
    rationals. On what [correlate5D] computes the two agree when the five
    scores are whole numbers of at most 2^31 in size: the sum of the scores
    and the difference of two of them are then computed exactly, and the
    fifth of the sum is a multiple of 0.2 that its double misses by less than
    the comparison with 85 and the rounding to an integer can see. The
    scores that the five analyzers return are of this form. For scores with
    a fraction the doubles can round across a threshold (a drift of exactly
    10 computed as 10.000000000000002), which rationals do not follow. *)
Definition wholeScore (d : DimensionResult) : bool :=
  Qeq_bool (score d) (inject_Z (Qfloor (score d))) &&
  (Z.abs (Qfloor (score d)) <=? 2 ^ 31)%Z.

(** A dimension result with a given score. *)
Definition scored (s : Q) : DimensionResult :=
  {| dimension := 0; name := ""; score := s; confidence := 95;
     status := DimStatus.PASSED |}.

End Scores.

(** ** Data of the worked examples *)

Module Examples.
Import JS Rules Detector.

(** No Central Brain configured and no readable local directory. *)
Definition offlineEnv : LoadEnv :=
  {| brain := CentralBrain.newSender;
     remote := CentralBrain.Rejected;
     localDir := throw IOError |}.

(** The security-control rule, with the financial impact of the end-to-end
    scenario. *)
Definition rule43 : Incident :=
  {| id := "issue-43";
     textPatterns := Some ["disable security check"];
     financialImpact :=
       Some {| impactMin := 2500000; impactMax := 6000000; impactProven := true |} |}.

Definition rule32 : Incident :=
  {| id := "issue-32"; textPatterns := Some ["nginx"]; financialImpact := None |}.

(** A record for [issue-43] that has lost its pattern list. *)
Definition malformed43 : Incident :=
  {| id := "issue-43";
     textPatterns := None;
     financialImpact :=
       Some {| impactMin := 2500000; impactMax := 6000000; impactProven := true |} |}.

Definition someRules : Registry :=
  <["issue-43" := rule43]> (<["issue-32" := rule32]> ∅).

Definition malformedRules : Registry := <["issue-43" := malformed43]> ∅.

(** A change to a deployment workflow. *)
Definition workflowContext : Context :=
  {| source := Some "cli-review"; timestamp := None; files := None;
     file := Some ".github/workflows/deploy.yml" |}.

(** A policy document that also names what the rules forbid. *)
Definition policyText : string :=
  "THE LAW: never disable security check, never add nginx, no Azure Firewall".

(** Investor material that names all five infrastructure categories. *)
Definition sprawlText : string :=
  "ARR plan: Azure Firewall, Application Gateway, Private Link, Enterprise Key Management, DDoS Protection Standard".

End Examples.

(** ** Readings of a telemetry trace *)

Module Traces.
Import CentralBrain.

Definition isPost (e : Effect) : bool :=
  match e with
  | Post _ => true
  | _ => false
  end.

(** How many POST requests a trace holds. *)
Definition posts (t : list Effect) : nat := length (List.filter isPost t).

(** The time a trace spends in [setTimeout], in ms. *)
Fixpoint waited (t : list Effect) : nat :=
  match t with
  | [] => 0
  | Sleep delay :: t' => delay + waited t'
  | _ :: t' => waited t'
  end.

(** The trace of [n] attempts in a row, from attempt [first] on, that each
    fail and are retried. *)
Fixpoint retries (s : Sender) (first n : nat) : list Effect :=
  match n with
  | O => []
  | S n' =>
      Post first :: WarnRetry first (backoff s first) :: Sleep (backoff s first)
      :: retries s (S first) n'
  end.

End Traces.

(** ** Telemetry events ([src/analytics/CentralBrainClient.js]) *)

Module Telemetry.
Import JS Rules CentralBrain Detector.

(** [s.replace(pattern, '')] with a string for pattern: the first occurrence
    of [pattern] is removed. *)
Fixpoint removeFirst (s pattern : string) {struct s} : string :=
  if String.prefix pattern s then
    String.substring (String.length pattern) (String.length s - String.length pattern) s
  else
    match s with
    | EmptyString => EmptyString
    | String c s' => String c (removeFirst s' pattern)
    end.

(** An event of the ingest API. [suggestedFix] is left out, as it is in
    [Finding]. *)
Record Event : Type := {
  eventType : string;
  patternId : string;
  patternName : string;
  evSeverity : string;
  lawViolated : string;
  costOfViolation : Z;
  scenario : string;
  outcome : string;
  roiMeasured : Z;
  validationSource : string;
  evFiles : list string;
  evTimestamp : string
}.

(** The string a severity is in the source. *)
Definition severityName (s : Severity) : string :=
  match s with
  | CRITICAL => "CRITICAL"
  | HIGH => "HIGH"
  | MEDIUM => "MEDIUM"
  | INFO => "INFO"
  end.

(** [a || b] on strings. *)
Definition orString (a b : string) : string :=
  if String.eqb a "" then b else a.

(** [Number.isSafeInteger(n)]: the integers that a number of the source
    holds exactly, together with their neighbours. *)
Definition isSafeInteger (n : Z) : bool :=
  (- 2 ^ 53 <? n)%Z && (n <? 2 ^ 53)%Z.

(** The bounds of a financial risk and their sum are safe integers: the
    addition of [extractCost] is exact on such bounds. *)
Definition safeRange (risk : FinancialImpact) : bool :=
  isSafeInteger (impactMin risk) && isSafeInteger (impactMax risk) &&
  isSafeInteger (impactMin risk + impactMax risk).

(** [extractCost(financialRisk)]. The sum of the two bounds is the sum of
    integers: it is the sum of the source for a risk in [safeRange]. *)
Definition extractCost (financialRisk : option FinancialImpact) : Z :=
  match financialRisk with
  | None => 0
  | Some risk =>
      (* Use midpoint of range *)
      Math_round (inject_Z (impactMin risk + impactMax risk) / 2)
  end.

(** [context.files || []] *)
Definition filesOf (context : Context) : list string :=
  match files context with
  | Some fs => fs
  | None => []
  end.

(** [context.timestamp || new Date().toISOString()], where [now] is what the
    clock reads. *)
Definition timestampOf (now : string) (context : Context) : string :=
  match timestamp context with
  | Some t => orString t now
  | None => now
  end.

(** [mapViolationToEvent(violation, context)] *)
Definition mapViolationToEvent (now : string) (violation : Finding) (context : Context)
    : Event :=
  {| eventType := "judge_dredd_violation";
     patternId := if truthy (incident violation)
                  then default "" (incident violation) else "unknown";
     patternName := message violation;
     evSeverity := orString (severityName (severity violation)) "MEDIUM";
     lawViolated := orString (law violation) "Unknown Law";
     costOfViolation := extractCost (financialRisk violation);
     scenario := details violation;
     outcome := "SEV" ++
                (if Severity_eqb (severity violation) CRITICAL then "1"
                 else if Severity_eqb (severity violation) HIGH then "2" else "3")
                ++ " incident";
     roiMeasured := - extractCost (financialRisk violation);
     validationSource :=
       if truthy (incident violation)
       then "github-issue-" ++ removeFirst (default "" (incident violation)) "Issue #"
       else "pattern-detection";
     evFiles := filesOf context;
     evTimestamp := timestampOf now context |}.

(** [mapCommendationToEvent(commendation, context)] *)
Definition mapCommendationToEvent (now : string) (commendation : Commendation)
    (context : Context) : Event :=
  {| eventType := "judge_dredd_commendation";
     patternId := orString (ctype commendation) "unknown";
     patternName := cmessage commendation;
     evSeverity := "NONE";
     lawViolated := "NONE";
     costOfViolation := 0;
     scenario := cmessage commendation;
     outcome := "Positive behavior - encouraged";
     roiMeasured := 0;
     validationSource := "pattern-detection";
     evFiles := filesOf context;
     evTimestamp := timestampOf now context |}.

(** [sendViolations(violations, context)]: [clock i] is what the clock reads
    when the event of the [i]-th violation is built. *)
Definition sendViolations (s : Sender) (post : nat -> Response unit) (clock : nat -> string)
    (violations : list Finding) (context : Context) : list Effect * Result unit :=
  if negb (enabled s) || (length violations =? 0)%nat then ([], ok tt)
  else
    let events := imap (fun i v => mapViolationToEvent (clock i) v context) violations in
    sendEvents s post events.

(** [sendCommendations(commendations, context)] *)
Definition sendCommendations (s : Sender) (post : nat -> Response unit)
    (clock : nat -> string) (commendations : list Commendation) (context : Context)
    : list Effect * Result unit :=
  if negb (enabled s) || (length commendations =? 0)%nat then ([], ok tt)
  else
    let events := imap (fun i c => mapCommendationToEvent (clock i) c context) commendations in
    sendEvents s post events.

End Telemetry.

(** ** Readings of a directory listing *)

Module Loading.
Import JS Rules.

(** The rules of the readable [.json] files of a directory listing, each
    under its identifier, in the order of the listing. *)
Definition jsonRules (entries : list (string * Result Incident))
    : list (string * Incident) :=
  omap (fun e =>
          if endsWith (fst e) ".json" then
            match snd e with
            | inr incident => Some (id incident, incident)
            | inl _ => None
            end
          else None) entries.

End Loading.

(** ** Further worked scenarios *)

Module Scenarios.
Import JS Rules Detector Examples.

(** A local rule directory: two files carry the rule [issue-43], the later
    one in its repaired form; the notes beside them cannot be read. *)
Definition localListing : list (string * Result Incident) :=
  [ ("issue-43.json", ok malformed43);
    ("NOTES.md", throw IOError);
    ("issue-32.json", ok rule32);
    ("issue-43-v2.json", ok rule43) ].

(** No Central Brain configured; the rules come from the local directory. *)
Definition localEnv : LoadEnv :=
  {| brain := CentralBrain.newSender;
     remote := CentralBrain.Rejected;
     localDir := ok localListing |}.

End Scenarios.

(** ** The verdict of a verification run *)

Module Verdict.
Import JS Verifier.

(** The last branch of [displayResults]: whether the banner reads that the
    law is upheld ([true]) or that drift is to be investigated. *)
Definition lawUpheld (correlation : CorrelationResult) : bool :=
  (EPISTEMIC_CAP <=? finalScore correlation)%Z.

(** The exit code of [dredd 4d], from what [verify()] settles to. *)
Definition exitCode4d (outcome : Result CorrelationResult) : Z :=
  match outcome with
  | inr result =>
      match overallStatus result with
      | GODEL_COMPLIANT => 0
      | DRIFT_DETECTED => 1
      | INCONSISTENT => 2
      end
  | inl _ => 3
  end.

End Verdict.

(** ** Readings of the evidence directories *)

Module Evidence.
Import JS Verifier.

(** The totals of the loop of [checkVirusTotalEvidence] over the [.json]
    files of a listing. *)
Definition vtTotals (entries : list (string * Result VtFile)) : VtTotals :=
  vtLoop (List.filter (fun e => endsWith (fst e) ".json") entries)
         {| scans := 0; totalMalicious := 0; totalSuspicious := 0; skippedScans := 0 |}.

(** The detection counts of the scans add up to totals that are not
    negative, as counts do. *)
Definition countsNotNegative (w : World) : Prop :=
  match vtDir w with
  | Listing entries =>
      (0 <= totalMalicious (vtTotals entries) /\ 0 <= totalSuspicious (vtTotals entries))%Z
  | _ => True
  end.

(** The score of dimension 3 from the three pieces of evidence: API health
    40% weight, VirusTotal 30% weight, Cloudflare 30% weight. *)
Definition evidenceScore (api : ApiEvidence) (vt : VtEvidence) (cf : CfEvidence) : Z :=
  if allHealthy api && allClean vt && hasData cf then 95%Z
  else Math_round (inject_Z (healthScore api) * (4 # 10)
                   + inject_Z (securityScore vt) * (3 # 10)
                   + inject_Z (analyticsScore cf) * (3 # 10))%Q.

(** A corpus of [n] lines. *)
Fixpoint corpusLines (n : nat) (line : string) : string :=
  match n with
  | O => EmptyString
  | S n' => line ++ String "010"%char (corpusLines n' line)
  end.

(** A training example as a line of the corpus file: a JSON object with one
    field, [text], whose value is a string; [JSON.parse] reads it to an
    object, which is truthy. *)
Definition exampleLine : string :=
  "{" ++ String "034"%char ("text" ++ String "034"%char (": " ++ String "034"%char
    ("95% epistemic humility, evidence, precise" ++ String "034"%char "}"))).

(** A world in which every piece of evidence is in place. Its corpus is 50
    times [exampleLine], and [JSON.parse] is given on the lines of this
    corpus: [exampleLine] parses, the empty line after the last line feed
    does not. *)
Definition healthyWorld : World :=
  {| corpusFile := Contents (corpusLines 50 exampleLine);
     parsesTruthy := fun line => String.eqb line exampleLine;
     axiosGet := fun _ => Fulfilled 200;
     vtDir := Listing [("api-virustotal-evidence.json",
                        ok {| scan_skipped := false; malicious := 0; suspicious := 2;
                              scanStatus := "CLEAN" |})];
     cfDir := Listing [("cloudflare-analytics-2025-10.json", ok 1200%Z)];
     financialDir := Listing [("pf-changs-avoided-cost-2025-10.json",
                               ok {| avoided_cost := 4000; roi := 3 |})];
     dateNow := 1762128000000 |}.

(** The same world after one malicious detection. *)
Definition infectedWorld : World :=
  {| corpusFile := corpusFile healthyWorld;
     parsesTruthy := parsesTruthy healthyWorld;
     axiosGet := axiosGet healthyWorld;
     vtDir := Listing [("api-virustotal-evidence.json",
                        ok {| scan_skipped := false; malicious := 1; suspicious := 2;
                              scanStatus := "MALICIOUS" |})];
     cfDir := cfDir healthyWorld;
     financialDir := financialDir healthyWorld;
     dateNow := dateNow healthyWorld |}.

(** A world whose newest analytics file cannot be parsed, beside an older
    one with page views. *)
Definition staleAnalytics : list (string * Result Z) :=
  [ ("cloudflare-analytics-2025-09.json", ok 5000%Z);
    ("cloudflare-analytics-2025-10.json", throw SyntaxError);
    ("summary.txt", ok 1%Z) ].

Definition staleWorld : World :=
  {| corpusFile := corpusFile healthyWorld;
     parsesTruthy := parsesTruthy healthyWorld;
     axiosGet := axiosGet healthyWorld;
     vtDir := vtDir healthyWorld;
     cfDir := Listing staleAnalytics;
     financialDir := financialDir healthyWorld;
     dateNow := dateNow healthyWorld |}.

End Evidence.

(** ** The order of the evidence files *)

Module Ordering.
Import JS Verifier.

(** The order [sort()] puts the file names in. *)
Definition nameLe {A} (a b : string * A) : Prop := String.leb (fst a) (fst b) = true.

(** A listing in ascending order of its names. *)
Fixpoint ascending {A} (l : list (string * A)) : Prop :=
  match l with
  | [] => True
  | x :: xs => Forall (nameLe x) xs /\ ascending xs
  end.

End Ordering.

(** ** What a run of the detector reports *)

Module Report.
Import JS Rules Regex Detector.

(** The detector [d] with further findings recorded after its own. *)
Definition appendTo (d : Detector) (vs ws : list Finding) (cs : list Commendation)
    : Detector :=
  {| violations := violations d ++ vs;
     warnings := warnings d ++ ws;
     commendations := commendations d ++ cs;
     incidents := incidents d |}.

(** On every detector that holds the registry [reg] the method has the
    outcome [r] and records the findings [vs], [ws], [cs] after those that
    are there, leaving these and the registry as they are. *)
Definition appends {A} (reg : Registry) (m : M A) (r : Result A)
    (vs ws : list Finding) (cs : list Commendation) : Prop :=
  forall d, incidents d = Some reg -> m d = (r, appendTo d vs ws cs).

(** The method appends, and what it appends has the given shapes. *)
Definition framedAt {A} (reg : Registry) (Pv Pw : Finding -> Prop)
    (Pc : Commendation -> Prop) (m : M A) : Prop :=
  exists r vs ws cs,
    appends reg m r vs ws cs /\ Forall Pv vs /\ Forall Pw ws /\ Forall Pc cs.

(** The kinds of violation. *)
Inductive Kind : Type :=
| SecurityControlRemoval
| NoNginxLaw
| AlpineBaseImage
| DockerAmd64Platform
| HardcodedLiveData
| GitDirectoryBreakout
| EnterpriseSprawl.

Definition kindType (k : Kind) : string :=
  match k with
  | SecurityControlRemoval => "SECURITY_CONTROL_REMOVAL"
  | NoNginxLaw => "NO_NGINX_LAW"
  | AlpineBaseImage => "ALPINE_BASE_IMAGE"
  | DockerAmd64Platform => "DOCKER_AMD64_PLATFORM"
  | HardcodedLiveData => "HARDCODED_LIVE_DATA"
  | GitDirectoryBreakout => "GIT_DIRECTORY_BREAKOUT"
  | EnterpriseSprawl => "ENTERPRISE_SPRAWL"
  end.

Definition kindSeverity (k : Kind) : Severity :=
  match k with
  | SecurityControlRemoval | EnterpriseSprawl => CRITICAL
  | GitDirectoryBreakout => MEDIUM
  | _ => HIGH
  end.

(** The [incident] label of a violation of the kind. *)
Definition kindIncident (k : Kind) : option string :=
  match k with
  | SecurityControlRemoval => Some "Issue #43"
  | NoNginxLaw => Some "Issue #32"
  | AlpineBaseImage => Some "Alpine Base Image"
  | DockerAmd64Platform => Some "Docker AMD64 Platform"
  | HardcodedLiveData => Some "Live Data Law"
  | GitDirectoryBreakout => Some "Issue #95"
  | EnterpriseSprawl => None
  end.

(** The identifier of the rule that the check of the kind looks up. *)
Definition kindRule (k : Kind) : option string :=
  match k with
  | SecurityControlRemoval => Some "issue-43"
  | NoNginxLaw => Some "issue-32"
  | AlpineBaseImage => Some "alpine-base-image"
  | DockerAmd64Platform => Some "docker-amd64-platform"
  | HardcodedLiveData => Some "live-data-law"
  | GitDirectoryBreakout => Some "git-directory-breakout"
  | EnterpriseSprawl => None
  end.

(** Whether the check of the kind tests the text against the patterns of its
    rule, and whether it reports the financial impact of the rule. *)
Definition kindReadsPatterns (k : Kind) : bool :=
  match k with
  | GitDirectoryBreakout | EnterpriseSprawl => false
  | _ => true
  end.

Definition kindReportsImpact (k : Kind) : bool :=
  match k with
  | SecurityControlRemoval | AlpineBaseImage | DockerAmd64Platform | HardcodedLiveData => true
  | _ => false
  end.

(** Some pattern of the rule compiles to an expression that matches the
    text. *)
Definition ruleMatches `{RegExpHost} (rule : Incident) (text : string) : Prop :=
  exists sources p t,
    textPatterns rule = Some sources /\ In p sources /\
    newRegExp_i p = Some t /\ t text = true.

(** The files the Live Data check looks at. *)
Definition liveDataFile (f : string) : bool :=
  endsWith f ".html" ||
  includes f "/public/" && endsWith f ".js" ||
  includes f "/views/" && endsWith f ".ejs".

(** What else the check of the kind asks of the text and of the context. *)
Definition kindGate (k : Kind) (text : string) (context : Context) : Prop :=
  match k with
  | DockerAmd64Platform =>
      includes text "./build-and-push.sh" = false /\
      includes text "--platform linux/amd64" = false
  | HardcodedLiveData =>
      fileSatisfies context liveDataFile = true /\
      existsb (fun correct => test correct text) correctPatterns = false
  | GitDirectoryBreakout =>
      existsb (fun r => test r text) breakoutPatterns = true
  | EnterpriseSprawl =>
      exists name pattern, In (name, pattern) sprawlPatterns /\ test pattern text = true
  | _ => True
  end.

(** [v] is a violation of kind [k] as a run on [text] and [context] with the
    registry [reg] reports it. *)
Definition violationOf `{RegExpHost} (reg : Registry) (text : string) (context : Context)
    (k : Kind) (v : Finding) : Prop :=
  type v = kindType k /\
  severity v = kindSeverity k /\
  incident v = kindIncident k /\
  Detector.context v = context /\
  kindGate k text context /\
  match kindRule k with
  | None => financialRisk v = None
  | Some key =>
      exists rule,
        reg !! key = Some rule /\
        (kindReadsPatterns k = true -> ruleMatches rule text) /\
        financialRisk v = (if kindReportsImpact k then financialImpact rule else None) /\
        (kindReportsImpact k = true -> financialImpact rule <> None)
  end.

(** The kinds of warning. *)
Inductive WarningKind : Type :=
| UntestedDeploy
| MissingThemeSystem
| CostInefficiency.

Definition warningType (k : WarningKind) : string :=
  match k with
  | UntestedDeploy => "UNTESTED_DEPLOY"
  | MissingThemeSystem => "MISSING_THEME_SYSTEM"
  | CostInefficiency => "COST_INEFFICIENCY"
  end.

Definition warningSeverity (k : WarningKind) : Severity :=
  match k with
  | MissingThemeSystem => MEDIUM
  | _ => HIGH
  end.

Definition warningIncident (k : WarningKind) : option string :=
  match k with
  | UntestedDeploy => Some "Issue #41"
  | MissingThemeSystem => Some "DAYMAN/NIGHTMAN Theme"
  | CostInefficiency => None
  end.

(** The files the deployment check and the theme check look at. *)
Definition workflowFile (f : string) : bool :=
  includes f ".github/workflows" || includes f "deploy".

Definition customerFacingFile (f : string) : bool :=
  includes f "/public/" && endsWith f ".html" ||
  includes f "/services/" && endsWith f ".html" ||
  includes f "status-page" && endsWith f ".html".

(** The evidence of a local test that the deployment check looks for in the
    text. *)
Definition hasTestEvidence (text : string) : bool :=
  test (seq [lit_i "test"; Star dot; lit_i "local"]) text ||
  test (seq [lit_i "local"; Star dot; lit_i "test"]) text ||
  test (seq [lit_i "verified"; Star dot; lit_i "local"]) text ||
  test (seq [lit_i "curl"; Star dot; lit_i "localhost"]) text.

(** The elements of the theme system that the theme check does not find in
    the text, under the names it reports them by. *)
Definition missingElements (text : string) : list string :=
  ((if negb (test (seq [lit ":root"; Star space; lit "{"; Star anychar; lit "--"]) text)
    then [":root CSS variables"] else []) ++
   (if negb (test (seq [lit "[data-theme="; oneOf quotes; lit "light"; oneOf quotes;
                        lit "]"]) text)
    then [lightThemeStyles] else []) ++
   (if negb (test (lit "function toggleTheme()") text)
    then ["toggleTheme() function"] else []) ++
   (if negb (test (lit "DAYMAN") text) then ["DAYMAN reference"] else []) ++
   (if negb (test (lit "NIGHTMAN") text) then ["NIGHTMAN reference"] else []))%list.

(** What the check of a warning kind asks of the registry, of the text and of
    the context before it warns; [skipCostChecks] is what the cost check is
    called with. *)
Definition warningGate (reg : Registry) (text : string) (context : Context)
    (skipCostChecks : bool) (k : WarningKind) : Prop :=
  match k with
  | UntestedDeploy =>
      fileSatisfies context workflowFile = true /\
      hasTestEvidence text = false
  | MissingThemeSystem =>
      reg !! "dayman-nightman-theme" <> None /\
      fileSatisfies context customerFacingFile = true /\
      missingElements text <> []
  | CostInefficiency =>
      skipCostChecks = false /\
      existsb (fun r => test r text) expensivePatterns = true
  end.

(** [w] is a warning of kind [k] as a run reports it: the fields of the kind,
    the gate of its check, and for the theme check the list of the missing
    elements in the details. *)
Definition warningOf (reg : Registry) (text : string) (context : Context)
    (skipCostChecks : bool) (k : WarningKind) (w : Finding) : Prop :=
  type w = warningType k /\
  severity w = warningSeverity k /\
  incident w = warningIncident k /\
  Detector.context w = context /\
  financialRisk w = None /\
  warningGate reg text context skipCostChecks k /\
  (k = MissingThemeSystem ->
   details w = "Customer-facing page is missing theme system elements: "
               ++ join ", " (missingElements text)).

(** The checks that [analyze] runs on a text that is not documentation, in
    their order; [investor] is whether the text is investor material. *)
Definition checks `{RegExpHost} (text : string) (context : Context) (investor : bool)
    : list (M unit) :=
  [ checkIssue43Pattern text context;
    checkIssue32Pattern text context;
    checkIssue41Pattern text context;
    checkDaymanNightmanTheme text context;
    checkAlpineBaseImagePattern text context;
    checkDockerAmd64PlatformPattern text context;
    checkLiveDataLawPattern text context;
    checkGitDirectoryBreakout text context;
    checkEnterpriseSprawl text context investor;
    checkHardcodedData text context;
    checkCostEfficiency text context investor;
    checkCommendations text ].

(** The methods of a list run in order, then [k]. *)
Fixpoint runChecks {B} (ms : list (M unit)) (k : M B) : M B :=
  match ms with
  | [] => k
  | m :: ms' => m ;; runChecks ms' k
  end.

(** What [getResults()] reads off a detector. *)
Definition resultsOf (d : Detector) : Results :=
  {| resViolations := violations d;
     resWarnings := warnings d;
     resCommendations := commendations d;
     hasViolations := (0 <? length (violations d))%nat;
     hasCritical := existsb (fun v => Severity_eqb (severity v) CRITICAL) (violations d) |}.

(** The commendations that the text alone earns. *)
Definition textCommendations (text : string) : list Commendation :=
  commendations (snd (checkCommendations text (loaded ∅))).

(** The types of the commendations that the text alone earns. *)
Definition textCommendation (c : Commendation) : Prop :=
  In (ctype c) ["COST_EFFICIENCY"; "SOC1_FOCUS"; "ZERO_DAY_PROTECTION";
                "PHILOSOPHICAL_ALIGNMENT"].

(** The shape of no finding at all. *)
Definition never {A} (a : A) : Prop := False.

(** Some kind of violation, some kind of warning, and a commendation that a
    run on a text that is not documentation may record. *)
Definition reportedViolation `{RegExpHost} (reg : Registry) (text : string)
    (context : Context) (v : Finding) : Prop :=
  exists k, violationOf reg text context k v.

Definition reportedWarning (reg : Registry) (text : string) (context : Context)
    (w : Finding) : Prop :=
  exists k, warningOf reg text context (isInvestorMaterials text) k w.

Definition reportedCommendation (text : string) (c : Commendation) : Prop :=
  ctype c = "INVESTOR_MATERIALS" /\ isInvestorMaterials text = true \/
  textCommendation c.

(** The exit code of [dredd review] when there are changes to review, from
    what [analyze] settles to. *)
Definition reviewExitCode (outcome : Result Results) : Z :=
  match outcome with
  | inr results => if hasCritical results then 1 else 0
  | inl _ => 1
  end.

(** How many findings of a list have the given type. *)
Definition countType (ty : string) (fs : list Finding) : nat :=
  length (List.filter (fun f => String.eqb (type f) ty) fs).

End Report.

(** ** When a violation is due *)

Module Due.
Import JS Rules Regex Detector Report.

(** The check that reports the violations of a kind. *)
Definition checkOf `{RegExpHost} (text : string) (context : Context) (investor : bool)
    (k : Kind) : M unit :=
  match k with
  | SecurityControlRemoval => checkIssue43Pattern text context
  | NoNginxLaw => checkIssue32Pattern text context
  | AlpineBaseImage => checkAlpineBaseImagePattern text context
  | DockerAmd64Platform => checkDockerAmd64PlatformPattern text context
  | HardcodedLiveData => checkLiveDataLawPattern text context
  | GitDirectoryBreakout => checkGitDirectoryBreakout text context
  | EnterpriseSprawl => checkEnterpriseSprawl text context investor
  end.

(** The conditions under which the check of a kind reports: what it asks of
    the text and of the context, and, for a rule-backed kind, that its rule
    is in the registry and, where the check reads the patterns of the rule,
    that one of them matches the text. *)
Definition fires `{RegExpHost} (reg : Registry) (text : string) (context : Context)
    (k : Kind) : Prop :=
  kindGate k text context /\
  match kindRule k with
  | Some key =>
      exists rule,
        reg !! key = Some rule /\
        (kindReadsPatterns k = true -> ruleMatches rule text)
  | None => True
  end.

End Due.

(** ** Worked reviews *)

Module Reviews.
Import JS Rules Detector Examples.

(** The context that [dredd review] builds: no [file]. *)
Definition reviewContext : Context :=
  {| source := Some "cli-review";
     timestamp := Some "2025-11-03T10:00:00.000Z";
     files := Some ["Dockerfile"; "nginx.conf"];
     file := None |}.

(** A change that matches both rules of [someRules] and names one of the
    infrastructure categories. *)
Definition reviewText : string :=
  "please disable security check and add nginx behind Azure Firewall".

(** A change that only adds nginx. *)
Definition nginxText : string := "serve the static files with nginx".

(** The Live Data rule and a page that hardcodes a version. *)
Definition liveRule : Incident :=
  {| id := "live-data-law";
     textPatterns := Some ["version 2"];
     financialImpact :=
       Some {| impactMin := 1000; impactMax := 5000; impactProven := false |} |}.

Definition liveRules : Registry := <["live-data-law" := liveRule]> ∅.

Definition pageContext : Context :=
  {| source := None; timestamp := None; files := None;
     file := Some "public/status.html" |}.

Definition pageText : string := "<span>version 2.4.1</span>".

(** The security-control rule with a second source that is no regular
    expression: its group is never closed, so that [new RegExp] throws a
    SyntaxError on it, as the host of the worked examples does. *)
Definition brokenRule : Incident :=
  {| id := "issue-43";
     textPatterns := Some ["disable security check"; "security("];
     financialImpact :=
       Some {| impactMin := 2500000; impactMax := 6000000; impactProven := true |} |}.

Definition brokenRules : Registry := <["issue-43" := brokenRule]> ∅.

(** The security-control rule without its financial impact. *)
Definition bareRule : Incident :=
  {| id := "issue-43";
     textPatterns := Some ["disable security check"];
     financialImpact := None |}.

Definition bareRules : Registry := <["issue-43" := bareRule]> ∅.

(** A text that earns commendations. *)
Definition thriftText : string := "cost reduction keeps us in compliance".

End Reviews.

(** ** The git analyzer ([GitAnalyzer]) *)

Module Git.
Import JS.

(** [s.trim()] on the code units of the range. *)
Fixpoint trimStart (s : string) : string :=
  match s with
  | EmptyString => EmptyString
  | String c s' => if isSpace c then trimStart s' else s
  end.

Fixpoint trimEnd (s : string) : string :=
  match s with
  | EmptyString => EmptyString
  | String c s' =>
      match trimEnd s' with
      | EmptyString => if isSpace c then EmptyString else String c EmptyString
      | t => String c t
      end
  end.

Definition trim (s : string) : string := trimEnd (trimStart s).

(** The line feed. *)
Definition newline : string := String "010"%char EmptyString.

(** What [getUncommittedChanges()] returns. *)
Record Changes : Type := {
  unstaged : string;
  staged : string;
  combined : string;
  hasChanges : bool
}.

(** [getUncommittedChanges()]: [diff] and [diffCached] are what [git diff]
    and [git diff --cached] give, the output or a failure. *)
Definition getUncommittedChanges (diff diffCached : Result string) : Changes :=
  match
    bindR diff (fun unstaged =>
    bindR diffCached (fun staged =>
      ok {| unstaged := unstaged;
            staged := staged;
            combined := unstaged ++ newline ++ staged;
            hasChanges := trimmedNonEmpty unstaged || trimmedNonEmpty staged |}))
  with
  | inr changes => changes
  | inl _ => {| unstaged := ""; staged := ""; combined := ""; hasChanges := false |}
  end.

(** An entry of [getModifiedFiles()]. *)
Record ModifiedFile : Type := {
  status : string;
  file : string
}.

(** [line.substring(3)] *)
Definition from3 (line : string) : string :=
  String.substring 3 (String.length line - 3) line.

(** [getModifiedFiles()]: [porcelain] is what [git status --porcelain]
    gives. *)
Definition getModifiedFiles (porcelain : Result string) : list ModifiedFile :=
  match porcelain with
  | inr stdout =>
      map (fun line =>
             {| status := trim (String.substring 0 2 line);
                file := from3 line |})
          (List.filter (fun line => negb (String.eqb line "")) (splitLines stdout))
  | inl _ => []
  end.

(** The output of [git status --porcelain] for a list of entries, each a
    status of two characters and a path. *)
Definition porcelainLine (e : string * string) : string :=
  fst e ++ " " ++ snd e ++ newline.

Fixpoint porcelain (entries : list (string * string)) : string :=
  match entries with
  | [] => EmptyString
  | e :: rest => porcelainLine e ++ porcelain rest
  end.

(** A string of one line. *)
Fixpoint oneLine (s : string) : bool :=
  match s with
  | EmptyString => true
  | String c s' => negb (code c =? 10)%N && oneLine s'
  end.

End Git.

(** ** The review command ([dredd review]) *)

Module Review.
Import JS Rules Detector Report.

(** The context that the command passes to [analyze]. *)
Definition contextOf (now : string) (modifiedFiles : list Git.ModifiedFile) : Context :=
  {| source := Some "cli-review";
     timestamp := Some now;
     files := Some (map Git.file modifiedFiles);
     file := None |}.

(** The exit code of [dredd review]: [diff], [diffCached] and [porcelain] are
    what the three git commands give, [now] is what the clock reads. *)
Definition review `{RegExpHost} (env : LoadEnv) (diff diffCached porcelain : Result string)
    (now : string) : Z :=
  let detector := snd (loadIncidentPatterns env newDetector) in
  let changes := Git.getUncommittedChanges diff diffCached in
  if negb (Git.hasChanges changes) then 0%Z
  else
    let modifiedFiles := Git.getModifiedFiles porcelain in
    reviewExitCode
      (fst (analyze env (Git.combined changes) (contextOf now modifiedFiles) detector)).

End Review.

(** ** The session check ([dredd session-start]) *)

Module Session.
Import JS Rules Detector.

(** The loop of the command over the texts it analyses, with the running
    total of the violations. The context of a commit names its hash and its
    subject, fields that no check reads. *)
Fixpoint analyzeAll `{RegExpHost} (env : LoadEnv) (texts : list string) : M nat :=
  match texts with
  | [] => mret 0%nat
  | text :: rest =>
      results ← analyze env text emptyContext;
      total ← analyzeAll env rest;
      mret (length (resViolations results) + total)%nat
  end.

(** The texts that the command analyses: the diff of each recent commit,
    then the uncommitted changes when there are any. *)
Definition sessionTexts (commitDiffs : list string) (diff diffCached : Result string)
    : list string :=
  let changes := Git.getUncommittedChanges diff diffCached in
  (commitDiffs ++ (if Git.hasChanges changes then [Git.combined changes] else []))%list.

(** [dredd session-start]: [commitDiffs] are the diffs of the recent commits,
    [diff] and [diffCached] what the two git commands give. The result is the
    exit code, with the total of the violations when the command gets to
    print it. *)
Definition sessionStart `{RegExpHost} (env : LoadEnv) (commitDiffs : list string)
    (diff diffCached : Result string) : Z * option nat :=
  let detector := snd (loadIncidentPatterns env newDetector) in
  let texts := sessionTexts commitDiffs diff diffCached in
  match fst (analyzeAll env texts detector) with
  | inr totalViolations => (0%Z, Some totalViolations)
  | inl _ => (1%Z, None)
  end.

(** The number of violations that [analyze] reports for a text on a detector
    that holds the registry, when it returns. *)
Definition violationCount `{RegExpHost} (reg : Registry) (text : string) : option nat :=
  match fst (analyze {| brain := CentralBrain.newSender;
                        remote := CentralBrain.Rejected;
                        localDir := throw IOError |} text emptyContext (loaded reg)) with
  | inr results => Some (length (resViolations results))
  | inl _ => None
  end.

End Session.

(** ** A Central Brain that cannot be reached *)

Module Outage.
Import JS Rules Detector.

(** The client is configured, the request is rejected, the local directory
    is the one of the worked scenarios. *)
Definition outageEnv : LoadEnv :=
  {| brain :=
       CentralBrain.configure
         (Some {| CentralBrain.cfgEndpoint := Some "https://analytics.example";
                  CentralBrain.cfgApiKey := Some "key";
                  CentralBrain.cfgOauthToken := None |})
         CentralBrain.newSender;
     remote := CentralBrain.Rejected;
     localDir := ok Scenarios.localListing |}.

End Outage.

(* ===================================================================== *)
(** * Part II. Properties                                                 *)
(* ===================================================================== *)

(** ** Strings and regular expressions *)

Section RegexFacts.
Import JS Regex.

Lemma append_nil_l (s : string) : "" ++ s = s.
Proof. reflexivity. Qed.

Lemma append_cons (c : ascii) (u v : string) : String c u ++ v = String c (u ++ v).
Proof. reflexivity. Qed.

Lemma append_nil_r (s : string) : s ++ "" = s.
Proof. induction s as [|c s IH]; [reflexivity|]. rewrite append_cons. congruence. Qed.

Lemma append_nil_inv (u v : string) : u ++ v = "" -> u = "" /\ v = "".
Proof.
  destruct u; [rewrite append_nil_l; auto | rewrite append_cons; discriminate].
Qed.

Ltac norm_append := rewrite ?append_nil_l, ?append_cons in *.

Lemma nullable_spec r : nullable r = true <-> matches r "".
Proof.
  induction r; simpl.
  - split; [discriminate | intros M; inversion M].
  - split; [constructor | reflexivity].
  - split; [discriminate | intros M; inversion M].
  - rewrite andb_true_iff, IHr1, IHr2. split.
    + intros [M1 M2]. change "" with ("" ++ ""). now constructor.
    + intros M. inversion M as [| |? ? u v M1 M2 E1 E2| | | |]; subst.
      apply append_nil_inv in E2 as [-> ->]. now split.
  - rewrite orb_true_iff, IHr1, IHr2. split.
    + intros [M|M]; [now apply MAltL | now apply MAltR].
    + intros M. inversion M; subst; auto.
  - split; [constructor | reflexivity].
Qed.

Lemma matches_Cat_intro r s u v w : matches r u -> matches s v -> w = u ++ v -> matches (Cat r s) w.
Proof. intros M1 M2 ->. now constructor. Qed.

Lemma cat_spec r s w : matches (cat r s) w <-> matches (Cat r s) w.
Proof.
  split.
  - intros M.
    destruct r; destruct s; simpl in M; try (inversion M; fail);
      first [ exact M
            | apply (matches_Cat_intro _ _ "" w); [constructor | exact M | reflexivity]
            | apply (matches_Cat_intro _ _ w "");
                [exact M | constructor | now rewrite append_nil_r] ].
  - intros M. inversion M as [| |? ? u v M1 M2| | | |]; subst.
    destruct r; destruct s; simpl;
      try (inversion M1; fail); try (inversion M2; fail);
      first [ now constructor
            | inversion M1; subst; exact M2
            | inversion M2; subst; rewrite append_nil_r; exact M1 ].
Qed.

Lemma alt_spec r s w : matches (alt r s) w <-> matches (Alt r s) w.
Proof.
  split.
  - intros M. destruct r; destruct s; simpl in M;
      first [ exact M | now apply MAltR | now apply MAltL ].
  - intros M.
    inversion M as [| | |? ? u M1|? ? u M1| |]; subst;
      destruct r; destruct s; simpl;
      try (inversion M1; fail);
      first [ exact M1 | now apply MAltL | now apply MAltR ].
Qed.

Lemma star_cons_inv r c w :
  matches (Star r) (String c w) ->
  exists u v, w = u ++ v /\ matches r (String c u) /\ matches (Star r) v.
Proof.
  intros M. remember (Star r) as sr eqn:Esr. remember (String c w) as cw eqn:Ecw.
  revert w Ecw. induction M; intros w Ecw; try discriminate.
  injection Esr as ->.
  destruct u as [|a u'].
  - norm_append. now apply IHM2.
  - norm_append. injection Ecw as -> <-. exists u', v. now repeat split.
Qed.

Lemma deriv_spec r : forall c w, matches (deriv c r) w <-> matches r (String c w).
Proof.
  induction r as [| |p|r1 IH1 r2 IH2|r1 IH1 r2 IH2|r IH]; intros c w; simpl.
  - split; intros M; inversion M.
  - split; intros M; inversion M.
  - destruct (p c) eqn:Hp; split; intros M; inversion M; subst.
    + now constructor.
    + constructor.
    + congruence.
  - rewrite alt_spec. split.
    + intros M. inversion M as [| | |? ? u M1|? ? u M1| |]; subst.
      * apply cat_spec in M1.
        inversion M1 as [| |? ? u v Mu Mv| | | |]; subst.
        apply IH1 in Mu. apply (matches_Cat_intro _ _ (String c u) v); auto.
      * destruct (nullable r1) eqn:Hn; [|inversion M1].
        apply IH2 in M1. apply nullable_spec in Hn.
        apply (matches_Cat_intro _ _ "" (String c w)); auto.
    + intros M. inversion M as [| |? ? u v Mu Mv E1 E2| | | |]; subst.
      destruct u as [|a u'].
      * norm_append. subst v. apply MAltR.
        apply nullable_spec in Mu. rewrite Mu. now apply IH2.
      * norm_append. injection E2 as -> <-. apply MAltL, cat_spec.
        constructor; [now apply IH1 | exact Mv].
  - rewrite alt_spec. split.
    + intros M. inversion M; subst; [apply MAltL, IH1 | apply MAltR, IH2]; assumption.
    + intros M. inversion M; subst; [apply MAltL, IH1 | apply MAltR, IH2]; assumption.
  - rewrite cat_spec. split.
    + intros M. inversion M as [| |? ? u v Mu Mv| | | |]; subst. apply IH in Mu.
      rewrite <- append_cons. now constructor.
    + intros M. apply star_cons_inv in M as (u & v & -> & Mu & Mv).
      constructor; [now apply IH | exact Mv].
Qed.

Lemma matchesPrefix_spec : forall s r,
  matchesPrefix r s = true <-> exists u v, s = u ++ v /\ matches r u.
Proof.
  induction s as [|c s IH]; intros r; simpl.
  - rewrite orb_false_r. split.
    + intros M. apply nullable_spec in M. now exists "", "".
    + intros (u & v & E & M). symmetry in E. apply append_nil_inv in E as [-> _].
      now apply nullable_spec.
  - split.
    + intros M. apply orb_true_iff in M as [M|M].
      * apply nullable_spec in M. now exists "", (String c s).
      * apply IH in M as (u & v & -> & M).
        exists (String c u), v. split; [reflexivity | now apply deriv_spec].
    + intros (u & v & E & M). apply orb_true_iff. destruct u as [|a u'].
      * left. now apply nullable_spec.
      * norm_append. injection E as <- ->. right. apply IH.
        exists u', v. split; [reflexivity | now apply deriv_spec].
Qed.

Lemma test_nil r : test r "" = matchesPrefix r "".
Proof. simpl. now rewrite !orb_false_r. Qed.

Lemma test_cons r c s : test r (String c s) = matchesPrefix r (String c s) || test r s.
Proof. reflexivity. Qed.

Lemma test_spec : forall s r,
  test r s = true <-> exists a u b, s = a ++ u ++ b /\ matches r u.
Proof.
  induction s as [|c s IH]; intros r.
  - rewrite test_nil. split.
    + intros M. apply matchesPrefix_spec in M as (u & v & E & M). now exists "", u, v.
    + intros (a & u & b & E & M). symmetry in E.
      apply append_nil_inv in E as [-> E]. apply append_nil_inv in E as [-> ->].
      apply matchesPrefix_spec. now exists "", "".
  - rewrite test_cons. split.
    + intros M. apply orb_true_iff in M as [M|M].
      * apply matchesPrefix_spec in M as (u & v & E & M). now exists "", u, v.
      * apply IH in M as (a & u & b & -> & M). now exists (String c a), u, b.
    + intros (a & u & b & E & M). apply orb_true_iff. destruct a as [|x a'].
      * left. apply matchesPrefix_spec. now exists u, b.
      * norm_append. injection E as <- ->. right. apply IH. now exists a', u, b.
Qed.

(** [includes] finds exactly the substrings. *)
Lemma prefix_spec : forall s p,
  String.prefix p s = true <-> exists b, s = p ++ b.
Proof.
  intros s p. revert s. induction p as [|c p IH]; intros s.
  - split; [intros _; now exists s | intros _; destruct s; reflexivity].
  - destruct s as [|x s]; simpl.
    + split; [discriminate | intros (b & E); discriminate].
    + destruct (ascii_dec c x) as [->|Hne].
      * rewrite IH. split; intros (b & E); exists b.
        -- rewrite append_cons. now rewrite E.
        -- rewrite append_cons in E. now injection E.
      * split; [discriminate|]. intros (b & E). rewrite append_cons in E.
        injection E as E1 E2. congruence.
Qed.

Lemma includes_nil needle : includes "" needle = String.prefix needle "".
Proof. destruct needle; reflexivity. Qed.

Lemma includes_cons c s needle :
  includes (String c s) needle = String.prefix needle (String c s) || includes s needle.
Proof. reflexivity. Qed.

Lemma includes_spec : forall s needle,
  includes s needle = true <-> exists a b, s = a ++ needle ++ b.
Proof.
  induction s as [|c s IH]; intros needle; [rewrite includes_nil | rewrite includes_cons].
  - split.
    + intros P. apply prefix_spec in P as (b & E). now exists "", b.
    + intros (a & b & E). symmetry in E. apply append_nil_inv in E as [-> E].
      apply prefix_spec. now exists b.
  - split.
    + intros P. apply orb_true_iff in P as [P|P].
      * apply prefix_spec in P as (b & E). now exists "", b.
      * apply IH in P as (a & b & ->). now exists (String c a), b.
    + intros (a & b & E). apply orb_true_iff. destruct a as [|x a'].
      * left. apply prefix_spec. now exists b.
      * norm_append. injection E as <- ->. right. apply IH. now exists a', b.
Qed.

End RegexFacts.

(** ** The correlator *)

Section CorrelatorFacts.
Import JS Verifier.
Local Open Scope Q_scope.

Lemma Qltb_lt (x y : Q) : Qltb x y = true <-> x < y.
Proof.
  unfold Qltb. rewrite negb_true_iff, <- not_true_iff_false, Qle_bool_iff.
  split; [apply Qnot_le_lt | apply Qlt_not_le].
Qed.

Lemma Qltb_ge (x y : Q) : Qltb x y = false <-> y <= x.
Proof.
  unfold Qltb. rewrite negb_false_iff. apply Qle_bool_iff.
Qed.

(** [Math.max] returns one of its arguments, and bounds them all. *)
Lemma Math_max_In (xs : list Q) : forall x, In (Math_max x xs) (x :: xs).
Proof.
  unfold Math_max. induction xs as [|y ys IH]; intros x; simpl.
  - now left.
  - destruct (IH (Qmax x y)) as [H|H].
    + rewrite <- H. unfold Qmax, GenericMinMax.gmax.
      destruct (x ?= y); auto.
    + auto.
Qed.

Lemma Math_max_upper (xs : list Q) : forall x y, In y (x :: xs) -> y <= Math_max x xs.
Proof.
  unfold Math_max. induction xs as [|z zs IH]; intros x y Hy; simpl.
  - destruct Hy as [<-|[]]. apply Qle_refl.
  - destruct Hy as [<-|[<-|Hy]].
    + eapply Qle_trans; [apply Q.le_max_l | apply IH; now left].
    + eapply Qle_trans; [apply Q.le_max_r | apply IH; now left].
    + apply IH. now right.
Qed.

Lemma Math_min_In (xs : list Q) : forall x, In (Math_min x xs) (x :: xs).
Proof.
  unfold Math_min. induction xs as [|y ys IH]; intros x; simpl.
  - now left.
  - destruct (IH (Qmin x y)) as [H|H].
    + rewrite <- H. unfold Qmin, GenericMinMax.gmin.
      destruct (x ?= y); auto.
    + auto.
Qed.

Lemma Math_min_lower (xs : list Q) : forall x y, In y (x :: xs) -> Math_min x xs <= y.
Proof.
  unfold Math_min. induction xs as [|z zs IH]; intros x y Hy; simpl.
  - destruct Hy as [<-|[]]. apply Qle_refl.
  - destruct Hy as [<-|[<-|Hy]].
    + eapply Qle_trans; [apply IH; now left | apply Q.le_min_l].
    + eapply Qle_trans; [apply IH; now left | apply Q.le_min_r].
    + apply IH. now right.
Qed.

(** [Math.round] picks the integer within one half, the upper one on a tie. *)
Lemma Math_round_spec (x : Q) :
  inject_Z (Math_round x) - (1 # 2) <= x /\ x < inject_Z (Math_round x) + (1 # 2).
Proof.
  unfold Math_round.
  pose proof (Qfloor_le (x + (1 # 2))) as Hlo.
  pose proof (Qlt_floor (x + (1 # 2))) as Hhi.
  rewrite inject_Z_plus in Hhi. change (inject_Z 1) with 1 in Hhi.
  split; lra.
Qed.

Lemma Math_round_comp (x y : Q) : x == y -> Math_round x = Math_round y.
Proof.
  intros E. unfold Math_round. apply Qfloor_comp. now rewrite E.
Qed.

Lemma average_five (a b c d e : Q) :
  average [a; b; c; d; e] == (a + b + c + d + e) / 5.
Proof.
  unfold average. simpl. field.
Qed.

End CorrelatorFacts.

Section CorrelatorSpec.
Import JS Verifier Scores.
Local Open Scope Q_scope.

(** C1. For all five dimension results with whole scores (the scores on
    which the arithmetic of the source, on doubles, is the exact arithmetic
    of this model), [correlate5D] takes the mean of the five scores as
    average; [maxDrift] is the largest score minus the smallest, is never
    negative and is a whole number; [hasDrift] holds exactly when the drift
    exceeds 10; the status is [DRIFT_DETECTED] on drift, else [INCONSISTENT]
    when the average is below 85, else [GODEL_COMPLIANT], so that
    [GODEL_COMPLIANT] holds iff the drift is at most 10 and the average at
    least 85; the final score is the rounding of the smaller of the average
    and 95. The result is a function of the five inputs alone. *)
Theorem correlate5D_spec (d1 d2 d3 d4 d5 : DimensionResult) :
  Forall (fun d => wholeScore d = true) [d1; d2; d3; d4; d5] ->
  let scores := [score d1; score d2; score d3; score d4; score d5] in
  let mean := (score d1 + score d2 + score d3 + score d4 + score d5) / 5 in
  let r := correlate5D d1 d2 d3 d4 d5 in
  (exists hi lo, In hi scores /\ In lo scores /\
     (forall x, In x scores -> lo <= x /\ x <= hi) /\ maxDrift r = hi - lo) /\
  0 <= maxDrift r /\
  (exists n : Z, maxDrift r == inject_Z n) /\
  (hasDrift r = true <-> 10 < maxDrift r) /\
  (overallStatus r = DRIFT_DETECTED <-> hasDrift r = true) /\
  (overallStatus r = INCONSISTENT <-> hasDrift r = false /\ mean < 85) /\
  (overallStatus r = GODEL_COMPLIANT <-> maxDrift r <= 10 /\ 85 <= mean) /\
  finalScore r = Math_round (Qmin mean 95) /\
  (inject_Z (finalScore r) - (1 # 2) <= Qmin mean 95 /\
   Qmin mean 95 < inject_Z (finalScore r) + (1 # 2)) /\
  dimensions r = [d1; d2; d3; d4; d5].
Proof.
  intros Hwhole scores mean r.
  set (hi := Math_max (score d1) [score d2; score d3; score d4; score d5]).
  set (lo := Math_min (score d1) [score d2; score d3; score d4; score d5]).
  assert (Hdrift : maxDrift r = hi - lo) by reflexivity.
  assert (Hbounds : forall x, In x scores -> lo <= x /\ x <= hi).
  { intros x Hx. split; [apply Math_min_lower | apply Math_max_upper]; exact Hx. }
  assert (Hlohi : lo <= hi).
  { destruct (Hbounds (score d1)) as [A B]; [now left|]. eapply Qle_trans; eauto. }
  assert (Hmean : average scores == mean) by apply average_five.
  assert (Hhas : hasDrift r = true <-> 10 < maxDrift r).
  { change (hasDrift r) with (Qltb 10 (hi - lo)). rewrite Hdrift. apply Qltb_lt. }
  assert (Hfinal : finalScore r = Math_round (Qmin mean 95)).
  { change (finalScore r) with (Math_round (Qmin (average scores) (inject_Z EPISTEMIC_CAP))).
    apply Math_round_comp. rewrite Hmean. reflexivity. }
  assert (Hstatus : overallStatus r =
            if hasDrift r then DRIFT_DETECTED
            else if Qltb (average scores) 85 then INCONSISTENT else GODEL_COMPLIANT)
    by reflexivity.
  assert (Hint : forall x, In x scores -> exists n : Z, x == inject_Z n).
  { intros x Hx. change scores with (map score [d1; d2; d3; d4; d5]) in Hx.
    apply in_map_iff in Hx. destruct Hx as (d & <- & Hd).
    rewrite List.Forall_forall in Hwhole. specialize (Hwhole d Hd).
    unfold wholeScore in Hwhole. apply andb_prop in Hwhole as [Hq _].
    exists (Qfloor (score d)). now apply Qeq_bool_eq. }
  split.
  { exists hi, lo. split; [apply Math_max_In|]. split; [apply Math_min_In|].
    split; [exact Hbounds | exact Hdrift]. }
  split. { rewrite Hdrift. lra. }
  split.
  { destruct (Hint hi (Math_max_In _ _)) as [nh Hnh].
    destruct (Hint lo (Math_min_In _ _)) as [nl Hnl].
    exists (nh - nl)%Z. rewrite Hdrift, Hnh, Hnl. unfold Z.sub, Qminus.
    rewrite inject_Z_plus, inject_Z_opp. reflexivity. }
  split. { exact Hhas. }
  split.
  { rewrite Hstatus. destruct (hasDrift r); [tauto|].
    destruct (Qltb (average scores) 85); split; discriminate. }
  split.
  { rewrite Hstatus. destruct (hasDrift r).
    - split; [discriminate | intros [? _]; discriminate].
    - destruct (Qltb (average scores) 85) eqn:E.
      + apply Qltb_lt in E. rewrite Hmean in E. tauto.
      + apply Qltb_ge in E. rewrite Hmean in E.
        split; [discriminate | intros [_ ?]; lra]. }
  split.
  { rewrite Hstatus. destruct (hasDrift r) eqn:E.
    - assert (10 < maxDrift r) by now apply Hhas.
      split; [discriminate | intros [? _]; lra].
    - assert (maxDrift r <= 10).
      { apply Qnot_lt_le. rewrite <- Hhas. congruence. }
      destruct (Qltb (average scores) 85) eqn:E'.
      + apply Qltb_lt in E'. rewrite Hmean in E'.
        split; [discriminate | intros [_ ?]; lra].
      + apply Qltb_ge in E'. rewrite Hmean in E'. tauto. }
  split. { exact Hfinal. }
  split. { rewrite Hfinal. apply Math_round_spec. }
  reflexivity.
Qed.

(** The score vector of the handoff note: drift 6, average 92.8. *)
Example correlate5D_handoff_vector :
  let d (s : Q) := {| dimension := 0; name := ""; score := s; confidence := 95;
                      status := DimStatus.PASSED |} in
  let r := correlate5D (d 95) (d 89) (d 90) (d 95) (d 95) in
  maxDrift r == 6 /\ hasDrift r = false /\ overallStatus r = GODEL_COMPLIANT /\
  finalScore r = 93%Z /\ avgScore r = 93%Z.
Proof. vm_compute. repeat split. Qed.

(** The same vector through the theorem: its scores are whole, and it is
    compliant because its drift is 6 and its mean 92.8. *)
Lemma correlate5D_spec_witness :
  Forall (fun d => wholeScore d = true)
         [scored 95; scored 89; scored 90; scored 95; scored 95] /\
  (overallStatus (correlate5D (scored 95) (scored 89) (scored 90) (scored 95) (scored 95))
   = GODEL_COMPLIANT <->
   maxDrift (correlate5D (scored 95) (scored 89) (scored 90) (scored 95) (scored 95)) <= 10 /\
   85 <= (95 + 89 + 90 + 95 + 95) / 5).
Proof.
  assert (Hwhole : Forall (fun d => wholeScore d = true)
                          [scored 95; scored 89; scored 90; scored 95; scored 95])
    by (repeat constructor).
  split; [exact Hwhole|].
  exact (proj1 (proj2 (proj2 (proj2 (proj2 (proj2 (proj2
           (correlate5D_spec (scored 95) (scored 89) (scored 90) (scored 95) (scored 95)
                             Hwhole)))))))).
Defined.

End CorrelatorSpec.

(** ** The dimension analyzers *)

Section AnalyzerFacts.
Import JS Verifier.
Local Open Scope Q_scope.

Lemma Math_round_nonneg (x : Q) : 0 <= x -> (0 <= Math_round x)%Z.
Proof.
  intros Hx. unfold Math_round.
  change 0%Z with (Qfloor (1 # 2)).
  apply Qfloor_resp_le. lra.
Qed.

Lemma inject_nat_nonneg (n : nat) : 0 <= inject_Z (Z.of_nat n).
Proof.
  change 0 with (inject_Z 0). rewrite <- Zle_Qle. lia.
Qed.

Lemma ratio_nonneg (n : nat) (k c : Q) :
  0 < k -> 0 <= c -> 0 <= inject_Z (Z.of_nat n) / k * c.
Proof.
  intros Hk Hc. apply Qmult_le_0_compat; [|exact Hc].
  apply Qmult_le_0_compat; [apply inject_nat_nonneg|].
  apply Qinv_le_0_compat. now apply Qlt_le_weak.
Qed.

Lemma half_nonneg (a b : Z) : (0 <= a)%Z -> (0 <= b)%Z -> 0 <= inject_Z (a + b) / 2.
Proof.
  intros Ha Hb. apply Qmult_le_0_compat; [|vm_compute; discriminate].
  change 0 with (inject_Z 0). rewrite <- Zle_Qle. lia.
Qed.

Lemma capped_withinCap (s : Z) :
  (0 <= s)%Z -> 0 <= inject_Z (Z.min s EPISTEMIC_CAP) /\
                inject_Z (Z.min s EPISTEMIC_CAP) <= inject_Z EPISTEMIC_CAP.
Proof.
  intros Hs. unfold EPISTEMIC_CAP. split.
  - change 0 with (inject_Z 0). rewrite <- Zle_Qle. lia.
  - rewrite <- Zle_Qle. lia.
Qed.

Lemma dimension1_withinCap :
  exists d, analyzeDimension1_Commits = ok d /\ withinCap d.
Proof.
  eexists. split; [reflexivity|]. split; vm_compute; discriminate.
Qed.

Lemma validateCorpusAlignment_ok (w : World) :
  exists c, validateCorpusAlignment w = ok c /\ (0 <= checksScore c)%Z.
Proof.
  unfold validateCorpusAlignment.
  destruct (corpusFile w) as [| |content]; simpl.
  - eexists; split; [reflexivity | simpl; lia].
  - eexists; split; [reflexivity | simpl; lia].
  - eexists; split; [reflexivity|]. simpl.
    apply Z.min_glb; [lia|]. apply Math_round_nonneg. apply half_nonneg.
    + destruct (50 <=? _)%Z; [lia|]. apply Math_round_nonneg.
      apply ratio_nonneg; reflexivity || (vm_compute; discriminate).
    + apply Math_round_nonneg.
      apply ratio_nonneg; reflexivity || (vm_compute; discriminate).
Qed.

Lemma dimension2_withinCap (w : World) :
  exists d, analyzeDimension2_Corpus w = ok d /\ withinCap d.
Proof.
  unfold analyzeDimension2_Corpus.
  destruct (validateCorpusAlignment_ok w) as (c & Hc & Hs).
  destruct (corpusFile w) as [| |content]; simpl.
  - eexists. split; [reflexivity|]. split; vm_compute; discriminate.
  - rewrite Hc. simpl. eexists. split; [reflexivity|].
    apply capped_withinCap. destruct (aligned c); lia.
  - rewrite Hc. simpl. eexists. split; [reflexivity|].
    apply capped_withinCap. destruct (aligned c); lia.
Qed.

Lemma fetchProductionEvidence_ok (w : World) :
  exists e, fetchProductionEvidence w = ok e /\ (0 <= healthScore e)%Z.
Proof.
  unfold fetchProductionEvidence. eexists. split; [reflexivity|]. simpl healthScore.
  apply Math_round_nonneg. apply ratio_nonneg; reflexivity || (vm_compute; discriminate).
Qed.

Lemma checkVirusTotalEvidence_ok (w : World) :
  exists e, checkVirusTotalEvidence w = ok e /\ (0 <= securityScore e)%Z.
Proof.
  unfold checkVirusTotalEvidence.
  destruct (vtDir w) as [| |entries]; simpl.
  - eexists; split; [reflexivity | simpl; lia].
  - eexists; split; [reflexivity | simpl; lia].
  - repeat match goal with
           | |- context [if ?b then _ else _] => destruct b; simpl
           end;
      (eexists; split; [reflexivity | simpl; lia]).
Qed.

Lemma checkCloudflareAnalytics_ok (w : World) :
  exists e, checkCloudflareAnalytics w = ok e /\ (0 <= analyticsScore e)%Z.
Proof.
  unfold checkCloudflareAnalytics.
  destruct (cfDir w) as [| |entries]; simpl.
  - eexists; split; [reflexivity | simpl; lia].
  - eexists; split; [reflexivity | simpl; lia].
  - destruct (rev _) as [|[n [e|pv]] rest]; simpl.
    + eexists; split; [reflexivity | simpl; lia].
    + eexists; split; [reflexivity | simpl; lia].
    + destruct (0 <? pv)%Z; eexists; (split; [reflexivity | simpl; lia]).
Qed.

Lemma weighted_nonneg (a b c : Z) :
  (0 <= a)%Z -> (0 <= b)%Z -> (0 <= c)%Z ->
  0 <= inject_Z a * (4 # 10) + inject_Z b * (3 # 10) + inject_Z c * (3 # 10).
Proof.
  intros Ha Hb Hc.
  assert (forall z, (0 <= z)%Z -> 0 <= inject_Z z) as inj.
  { intros z Hz. change 0 with (inject_Z 0). now rewrite <- Zle_Qle. }
  apply inj in Ha, Hb, Hc.
  revert Ha Hb Hc. generalize (inject_Z a), (inject_Z b), (inject_Z c).
  intros. lra.
Qed.

Lemma dimension3_withinCap (w : World) :
  exists d, analyzeDimension3_Evidence w = ok d /\ withinCap d.
Proof.
  unfold analyzeDimension3_Evidence.
  destruct (fetchProductionEvidence_ok w) as (a & -> & Ha).
  destruct (checkVirusTotalEvidence_ok w) as (v & -> & Hv).
  destruct (checkCloudflareAnalytics_ok w) as (c & -> & Hc).
  simpl. eexists. split; [reflexivity|].
  apply capped_withinCap.
  destruct (allHealthy a && allClean v && hasData c); [lia|].
  apply Math_round_nonneg. now apply weighted_nonneg.
Qed.

Lemma temporalResult_withinCap (t : Temporal) : withinCap (temporalResult t).
Proof.
  unfold withinCap, temporalResult; simpl. split.
  - apply Q.le_max_l.
  - apply Q.max_lub; [vm_compute; discriminate | apply Q.le_min_r].
Qed.

Lemma dimension4_withinCap (w : World) :
  exists d, analyzeDimension4_Temporal w = ok d /\ withinCap d.
Proof.
  unfold analyzeDimension4_Temporal, calculateTemporalDecay. simpl.
  eexists. split; [reflexivity|]. apply temporalResult_withinCap.
Qed.

Lemma checkFinancialEfficiency_ok (w : World) :
  exists f, checkFinancialEfficiency w = ok f /\
            (financialScore f = 50 \/ financialScore f = 95)%Z.
Proof.
  unfold checkFinancialEfficiency.
  destruct (financialDir w) as [| |entries]; simpl.
  - eexists; split; [reflexivity | simpl; auto].
  - eexists; split; [reflexivity | simpl; auto].
  - repeat match goal with
           | |- context [if ?b then _ else _] => destruct b; simpl
           end;
      (eexists; split; [reflexivity | simpl; auto]).
Qed.

Lemma dimension5_withinCap (w : World) :
  exists d, analyzeDimension5_Financial w = ok d /\ withinCap d.
Proof.
  unfold analyzeDimension5_Financial.
  destruct (checkFinancialEfficiency_ok w) as (f & -> & Hf).
  simpl. eexists. split; [reflexivity|].
  unfold withinCap; simpl. destruct Hf as [-> | ->]; split; vm_compute; discriminate.
Qed.

(** C2. Every dimension result emitted by any of the five analyzers has its
    score between 0 and 95, whatever the outside world gives: each analyzer
    returns a result (it never throws) whose score respects the cap; so do
    the results of the error and fall-back branches; hence the scores that
    reach the correlator are capped in the emitted records themselves. *)
Theorem emitted_scores_withinCap (w : World) :
  Forall (fun analyzer => exists d, analyzer w = ok d /\ withinCap d) analyzers /\
  Forall withinCap
    [dimension2Failed; dimension2Error; dimension3Error;
     dimension4Estimated; dimension5Estimated] /\
  exists r, verify w = ok r /\ Forall withinCap (dimensions r).
Proof.
  pose proof dimension1_withinCap as H1.
  pose proof (dimension2_withinCap w) as H2.
  pose proof (dimension3_withinCap w) as H3.
  pose proof (dimension4_withinCap w) as H4.
  pose proof (dimension5_withinCap w) as H5.
  split; [|split].
  - unfold analyzers.
    repeat (apply List.Forall_cons; [assumption|]). apply List.Forall_nil.
  - repeat (apply List.Forall_cons; [split; vm_compute; discriminate|]). apply List.Forall_nil.
  - unfold verify.
    destruct H1 as (d1 & -> & B1), H2 as (d2 & -> & B2), H3 as (d3 & -> & B3),
             H4 as (d4 & -> & B4), H5 as (d5 & -> & B5).
    simpl. eexists. split; [reflexivity|]. simpl.
    repeat (apply List.Forall_cons; [assumption|]). apply List.Forall_nil.
Qed.

(** *** Temporal decay *)

(** Linear arithmetic after turning divisions by the constants of the decay
    bands into multiplications. *)
Ltac lra_bands :=
  unfold Qdiv in *;
  change (/ 10) with (1 # 10) in *;
  change (/ 30) with (1 # 30) in *;
  lra.

Lemma decayOfAge_first_week (age : Z) : (age <= 7)%Z -> decayOfAge age = 0.
Proof.
  intros H. unfold decayOfAge. apply Z.leb_le in H. now rewrite H.
Qed.

Lemma decayOfAge_first_month (age : Z) :
  (8 <= age <= 30)%Z -> decayOfAge age == inject_Z age / 10.
Proof.
  intros [H8 H30]. unfold decayOfAge.
  destruct (Z.leb_spec age 7); [lia|].
  destruct (Z.leb_spec age 30); [|lia].
  apply Q.min_r.
  assert (inject_Z age <= inject_Z 30) as Hq by now rewrite <- Zle_Qle.
  change (inject_Z 30) with 30 in Hq.
  revert Hq. generalize (inject_Z age). intros q Hq. lra_bands.
Qed.

Lemma decayOfAge_later (age : Z) :
  (31 <= age)%Z -> decayOfAge age = Qmin 10 (inject_Z age / 30).
Proof.
  intros H. unfold decayOfAge.
  destruct (Z.leb_spec age 7); [lia|].
  destruct (Z.leb_spec age 30); [lia|]. reflexivity.
Qed.

(** The decay is never negative for a non-negative age, and capped at 10. *)
Lemma decayOfAge_range (age : Z) : 0 <= decayOfAge age /\ decayOfAge age <= 10.
Proof.
  unfold decayOfAge.
  destruct (Z.leb_spec age 7) as [H7|H7]; [split; vm_compute; discriminate|].
  assert (0 <= inject_Z age) as Hq.
  { change 0 with (inject_Z 0). rewrite <- Zle_Qle. lia. }
  revert Hq. generalize (inject_Z age). intros q Hq.
  destruct (Z.leb_spec age 30).
  - split.
    + apply Q.min_glb; lra_bands.
    + eapply Qle_trans; [apply Q.le_min_l | lra].
  - split.
    + apply Q.min_glb; lra_bands.
    + apply Q.le_min_l.
Qed.

(** Within the first thirty days, and again from day 31 on, the decay does
    not decrease with age. *)
Lemma decayOfAge_mono_to_30 (a b : Z) :
  (a <= b <= 30)%Z -> decayOfAge a <= decayOfAge b.
Proof.
  intros [Hab Hb]. unfold decayOfAge.
  assert (inject_Z a <= inject_Z b) as Hq by now rewrite <- Zle_Qle.
  assert (0 <= inject_Z b \/ (b <= 7)%Z) as Hb0.
  { destruct (Z.leb_spec b 7); [now right|left].
    change 0 with (inject_Z 0). rewrite <- Zle_Qle. lia. }
  revert Hq Hb0. generalize (inject_Z a), (inject_Z b). intros p q Hq Hb0.
  destruct (Z.leb_spec a 7), (Z.leb_spec b 7); try lia.
  - apply Qle_refl.
  - destruct (Z.leb_spec b 30); [|lia].
    destruct Hb0 as [Hb0|Hb0]; [|lia]. apply Q.min_glb; lra_bands.
  - destruct (Z.leb_spec a 30), (Z.leb_spec b 30); try lia.
    apply Q.min_le_compat_l. lra_bands.
Qed.

Lemma decayOfAge_mono_from_31 (a b : Z) :
  (31 <= a <= b)%Z -> decayOfAge a <= decayOfAge b.
Proof.
  intros [Ha Hab]. rewrite !decayOfAge_later by lia.
  assert (inject_Z a <= inject_Z b) as Hq by now rewrite <- Zle_Qle.
  revert Hq. generalize (inject_Z a), (inject_Z b). intros p q Hq.
  apply Q.min_le_compat_l. lra_bands.
Qed.

(** From day 31 to day 89 the decay is below the 3% of day 30. *)
Lemma decayOfAge_below_day_30 (age : Z) :
  (31 <= age < 90)%Z -> decayOfAge age < decayOfAge 30.
Proof.
  intros [H31 H90]. rewrite decayOfAge_later by lia.
  assert (inject_Z age <= inject_Z 89) as Hq by (rewrite <- Zle_Qle; lia).
  change (inject_Z 89) with 89 in Hq.
  revert Hq. generalize (inject_Z age). intros q Hq.
  eapply Qle_lt_trans; [apply Q.le_min_r|].
  apply Qlt_le_trans with (y := 3); [lra_bands | vm_compute; discriminate].
Qed.

(** The score of dimension 4 is 95 minus the decay: with a decay between 0
    and 95 neither the cap nor the floor at 0 changes it. *)
Lemma temporalResult_score (t : Temporal) :
  0 <= decayPercent t -> decayPercent t <= 95 ->
  score (temporalResult t) == 95 - decayPercent t.
Proof.
  intros H0 H95. unfold temporalResult; simpl.
  change (inject_Z EPISTEMIC_CAP) with 95.
  rewrite Q.max_r.
  - apply Q.min_l. lra.
  - apply Q.min_glb; lra.
Qed.

(** The bands at their boundary, as they are written: the decay of day 30 is
    3 and the decay of day 31 is 31/30. No run gets there: the age that
    [calculateTemporalDecay] computes is that of its mock, one day. *)
Lemma decayOfAge_falls_after_day_30 :
  decayOfAge 30 == 3 /\ decayOfAge 31 == 31 # 30 /\ decayOfAge 31 < decayOfAge 30.
Proof.
  repeat split.
Qed.

End AnalyzerFacts.

(** ** The telemetry client *)

Section SenderFacts.
Import JS CentralBrain.
Context {E : Type}.

(** One step of [sendEvents], as the source reads. *)
Lemma sendEventsFrom_unfold (s : Sender) (post : nat -> Response unit)
    (events : list E) (attempt : nat) :
  sendEventsFrom s post events attempt =
  if negb (enabled s) || (length events =? 0)%nat then ([], ok tt)
  else match postOnce (post attempt) with
       | inr _ => ([Post attempt; LogSent], ok tt)
       | inl _ =>
           if (attempt <? retryAttempts s)%nat then
             let rest := sendEventsFrom s post events (attempt + 1) in
             (([Post attempt; WarnRetry attempt (backoff s attempt);
                Sleep (backoff s attempt)] ++ fst rest)%list, snd rest)
           else ([Post attempt; LogDropped (retryAttempts s)], ok tt)
       end.
Proof.
  rewrite sendEventsFrom_equation_1.
  destruct (negb (enabled s) || (length events =? 0)%nat) eqn:Hgate; simpl.
  - reflexivity.
  - destruct (postOnce (post attempt)) eqn:Hpost; simpl; [|reflexivity].
    destruct (lt_dec attempt (retryAttempts s)) as [Hlt|Hge]; simpl.
    + apply Nat.ltb_lt in Hlt. rewrite Hlt. reflexivity.
    + apply Nat.ltb_nlt in Hge. rewrite Hge. reflexivity.
Qed.

(** The promise of [sendEvents] never rejects, whatever the network does. *)
Lemma sendEventsFrom_never_throws (s : Sender) (post : nat -> Response unit)
    (events : list E) (attempt : nat) :
  snd (sendEventsFrom s post events attempt) = ok tt.
Proof.
  remember (retryAttempts s - attempt)%nat as k eqn:Hk.
  revert attempt Hk. induction k as [k IH] using lt_wf_ind. intros attempt Hk.
  rewrite sendEventsFrom_unfold.
  destruct (negb (enabled s) || (length events =? 0)%nat); [reflexivity|].
  destruct (postOnce (post attempt)); [|reflexivity].
  destruct (attempt <? retryAttempts s)%nat eqn:Hlt; [|reflexivity].
  apply Nat.ltb_lt in Hlt. simpl.
  apply (IH (retryAttempts s - (attempt + 1))%nat); [lia | reflexivity].
Qed.

(** [configure] leaves the retry settings of the constructor alone. *)
Lemma configure_retry (config : option Config) (s : Sender) :
  retryAttempts (configure config s) = retryAttempts s /\
  retryDelay (configure config s) = retryDelay s.
Proof.
  unfold configure. destruct config as [c|]; [|now split].
  destruct (negb (truthy (cfgEndpoint c))); [now split|].
  destruct (negb (truthy (cfgApiKey c)) && negb (truthy (cfgOauthToken c))); now split.
Qed.

(** C6. On a configured client whose every POST fails, [sendEvents] makes
    exactly three attempts, waits 1000 ms after the first and 2000 ms after
    the second, and after the third failure logs that the events are dropped;
    and whatever the network does, its promise is fulfilled: no error reaches
    the caller. *)
Theorem sendEvents_three_attempts (config : option Config)
    (post : nat -> Response unit) (events : list E) :
  enabled (configure config newSender) = true ->
  events <> [] ->
  (forall k, exists e, postOnce (post k) = inl e) ->
  sendEvents (configure config newSender) post events =
    ([Post 1; WarnRetry 1 1000; Sleep 1000;
      Post 2; WarnRetry 2 2000; Sleep 2000;
      Post 3; LogDropped 3], ok tt) /\
  (forall post', snd (sendEvents (configure config newSender) post' events) = ok tt).
Proof.
  set (s := configure config newSender). intros Hen Hev Hfail.
  destruct (configure_retry config newSender) as [Hra Hrd].
  fold s in Hra, Hrd. simpl in Hra, Hrd.
  assert (Hgate : negb (enabled s) || (length events =? 0)%nat = false).
  { rewrite Hen. destruct events; [congruence | reflexivity]. }
  split; [|intros post'; apply sendEventsFrom_never_throws].
  unfold sendEvents.
  destruct (Hfail 1%nat) as [e1 H1], (Hfail 2%nat) as [e2 H2], (Hfail 3%nat) as [e3 H3].
  rewrite sendEventsFrom_unfold, Hgate, H1, Hra. simpl.
  rewrite sendEventsFrom_unfold, Hgate, H2, Hra. simpl.
  rewrite sendEventsFrom_unfold, Hgate, H3, Hra. simpl.
  unfold backoff. rewrite Hrd. reflexivity.
Qed.

End SenderFacts.

(** Worked instance: a configured client on a network that rejects every
    request. *)
Lemma sendEvents_three_attempts_witness :
  CentralBrain.sendEvents
    (CentralBrain.configure
       (Some {| CentralBrain.cfgEndpoint := Some "https://analytics.example";
                CentralBrain.cfgApiKey := Some "key";
                CentralBrain.cfgOauthToken := None |})
       CentralBrain.newSender)
    (fun _ => CentralBrain.Rejected) [tt] =
    ([CentralBrain.Post 1; CentralBrain.WarnRetry 1 1000; CentralBrain.Sleep 1000;
      CentralBrain.Post 2; CentralBrain.WarnRetry 2 2000; CentralBrain.Sleep 2000;
      CentralBrain.Post 3; CentralBrain.LogDropped 3], JS.ok tt) /\
  (forall post',
     snd (CentralBrain.sendEvents
            (CentralBrain.configure
               (Some {| CentralBrain.cfgEndpoint := Some "https://analytics.example";
                        CentralBrain.cfgApiKey := Some "key";
                        CentralBrain.cfgOauthToken := None |})
               CentralBrain.newSender) post' [tt]) = JS.ok tt).
Proof.
  apply (sendEvents_three_attempts
           (Some {| CentralBrain.cfgEndpoint := Some "https://analytics.example";
                    CentralBrain.cfgApiKey := Some "key";
                    CentralBrain.cfgOauthToken := None |})
           (fun _ => CentralBrain.Rejected) [tt]).
  - reflexivity.
  - discriminate.
  - intros k. exists JS.IOError. reflexivity.
Defined.

(** ** The detector *)

Section DetectorFacts.
Import JS Rules Regex Detector.
Context `{RegExpHost}.

(** *** Running the monad *)

Lemma bind_run {A B} (m : M A) (k : A -> M B) (d : Detector) :
  (m ≫= k) d = match m d with
               | (inl e, d') => (inl e, d')
               | (inr a, d') => k a d'
               end.
Proof. reflexivity. Qed.

Lemma bind_ok {A B} (m : M A) (k : A -> M B) (d d' : Detector) (a : A) :
  m d = (ok a, d') -> (m ≫= k) d = k a d'.
Proof. intros E. rewrite bind_run, E. reflexivity. Qed.

Lemma bind_throw {A B} (m : M A) (k : A -> M B) (d d' : Detector) (e : Exn) :
  m d = (throw e, d') -> (m ≫= k) d = (throw e, d').
Proof. intros E. rewrite bind_run, E. reflexivity. Qed.

(** *** Rules of the triples *)

Lemma triple_ret {A} (P : Detector -> Prop) (a : A) :
  triple P (mret a) (fun _ d => P d).
Proof. intros d Hd. exists a, d. split; [reflexivity | exact Hd]. Qed.

Lemma triple_bind {A B} (P : Detector -> Prop) (Q : A -> Detector -> Prop)
    (R : B -> Detector -> Prop) (m : M A) (k : A -> M B) :
  triple P m Q -> (forall a, triple (Q a) (k a) R) -> triple P (m ≫= k) R.
Proof.
  intros Hm Hk d Hd.
  destruct (Hm d Hd) as (a & d1 & E1 & Q1).
  destruct (Hk a d1 Q1) as (b & d2 & E2 & R2).
  exists b, d2. split; [|exact R2].
  rewrite (bind_ok _ _ _ _ _ E1). exact E2.
Qed.

Lemma triple_weaken {A} (P P' : Detector -> Prop) (Q Q' : A -> Detector -> Prop) (m : M A) :
  triple P m Q -> (forall d, P' d -> P d) -> (forall a d, Q a d -> Q' a d) ->
  triple P' m Q'.
Proof.
  intros Hm HP HQ d Hd.
  destruct (Hm d (HP d Hd)) as (a & d1 & E1 & Q1).
  exists a, d1. split; [exact E1 | apply HQ, Q1].
Qed.

(** Sequencing under an invariant. *)
Lemma triple_seq {A B} (I : Detector -> Prop) (R : B -> Detector -> Prop)
    (m : M A) (k : M B) :
  triple I m (fun _ d => I d) -> triple I k R -> triple I (m ;; k) R.
Proof.
  intros Hm Hk. eapply triple_bind; [exact Hm|]. intros a. exact Hk.
Qed.

Lemma triple_if {A} (P : Detector -> Prop) (Q : A -> Detector -> Prop) (b : bool)
    (m1 m2 : M A) :
  triple P m1 Q -> triple P m2 Q -> triple P (if b then m1 else m2) Q.
Proof. destruct b; auto. Qed.

(** A method that leaves the state alone and returns normally keeps any
    invariant. *)
Lemma triple_skip {A} (I : Detector -> Prop) (m : M A) (a : A) :
  (forall d, I d -> m d = (ok a, d)) -> triple I m (fun _ d => I d).
Proof.
  intros Hm d Hd. exists a, d. split; [apply Hm, Hd | exact Hd].
Qed.

(** *** A rule that is absent silences its check *)

Lemma getIncident_loaded (reg : Registry) (key : string) (d : Detector) :
  incidents d = Some reg -> getIncident key d = (ok (reg !! key), d).
Proof. intros E. unfold getIncident. rewrite E. reflexivity. Qed.

(** Runs the registry lookup that opens a rule-backed check. *)
Ltac absent_rule Hreg Habs :=
  rewrite (bind_ok _ _ _ _ _ (getIncident_loaded _ _ _ Hreg)), Habs; reflexivity.

Lemma checkIssue43Pattern_absent (reg : Registry) (text : string) (context : Context)
    (d : Detector) :
  incidents d = Some reg -> reg !! "issue-43" = None ->
  checkIssue43Pattern text context d = (ok tt, d).
Proof. intros Hreg Habs. unfold checkIssue43Pattern. absent_rule Hreg Habs. Qed.

Lemma checkIssue32Pattern_absent (reg : Registry) (text : string) (context : Context)
    (d : Detector) :
  incidents d = Some reg -> reg !! "issue-32" = None ->
  checkIssue32Pattern text context d = (ok tt, d).
Proof. intros Hreg Habs. unfold checkIssue32Pattern. absent_rule Hreg Habs. Qed.

Lemma checkDaymanNightmanTheme_absent (reg : Registry) (text : string) (context : Context)
    (d : Detector) :
  incidents d = Some reg -> reg !! "dayman-nightman-theme" = None ->
  checkDaymanNightmanTheme text context d = (ok tt, d).
Proof. intros Hreg Habs. unfold checkDaymanNightmanTheme. absent_rule Hreg Habs. Qed.

Lemma checkAlpineBaseImagePattern_absent (reg : Registry) (text : string) (context : Context)
    (d : Detector) :
  incidents d = Some reg -> reg !! "alpine-base-image" = None ->
  checkAlpineBaseImagePattern text context d = (ok tt, d).
Proof. intros Hreg Habs. unfold checkAlpineBaseImagePattern. absent_rule Hreg Habs. Qed.

Lemma checkDockerAmd64PlatformPattern_absent (reg : Registry) (text : string)
    (context : Context) (d : Detector) :
  incidents d = Some reg -> reg !! "docker-amd64-platform" = None ->
  checkDockerAmd64PlatformPattern text context d = (ok tt, d).
Proof. intros Hreg Habs. unfold checkDockerAmd64PlatformPattern. absent_rule Hreg Habs. Qed.

Lemma checkLiveDataLawPattern_absent (reg : Registry) (text : string) (context : Context)
    (d : Detector) :
  incidents d = Some reg -> reg !! "live-data-law" = None ->
  checkLiveDataLawPattern text context d = (ok tt, d).
Proof. intros Hreg Habs. unfold checkLiveDataLawPattern. absent_rule Hreg Habs. Qed.

Lemma checkGitDirectoryBreakout_absent (reg : Registry) (text : string) (context : Context)
    (d : Detector) :
  incidents d = Some reg -> reg !! "git-directory-breakout" = None ->
  checkGitDirectoryBreakout text context d = (ok tt, d).
Proof. intros Hreg Habs. unfold checkGitDirectoryBreakout. absent_rule Hreg Habs. Qed.

(** *** Checks that push no violation *)

Lemma pushWarning_quiet (reg : Registry) (vs : list Finding) (f : Finding) :
  heuristicWarning f ->
  triple (atViolations reg vs) (pushWarning f) (fun _ d => atViolations reg vs d).
Proof.
  intros Hf d (Hr & Hv & Hw). eexists tt, _. split; [reflexivity|].
  repeat split; simpl; auto.
  apply Forall_app. split; [exact Hw|]. apply List.Forall_cons; [exact Hf | apply List.Forall_nil].
Qed.

Lemma pushCommendation_quiet (reg : Registry) (vs : list Finding) (c : Commendation) :
  triple (atViolations reg vs) (pushCommendation c) (fun _ d => atViolations reg vs d).
Proof. intros d (Hr & Hv & Hw). eexists tt, _. split; [reflexivity|]. now repeat split. Qed.

Lemma ret_quiet (reg : Registry) (vs : list Finding) :
  triple (atViolations reg vs) (mret tt) (fun _ d => atViolations reg vs d).
Proof. apply triple_ret. Qed.

Lemma checkIssue41Pattern_quiet (reg : Registry) (vs : list Finding)
    (text : string) (context : Context) :
  triple (atViolations reg vs) (checkIssue41Pattern text context)
         (fun _ d => atViolations reg vs d).
Proof.
  unfold checkIssue41Pattern.
  repeat apply triple_if; auto using ret_quiet.
  apply pushWarning_quiet. now left.
Qed.

Lemma checkCostEfficiency_quiet (reg : Registry) (vs : list Finding)
    (text : string) (context : Context) (skipCostChecks : bool) :
  triple (atViolations reg vs) (checkCostEfficiency text context skipCostChecks)
         (fun _ d => atViolations reg vs d).
Proof.
  unfold checkCostEfficiency.
  repeat apply triple_if; auto using ret_quiet.
  apply pushWarning_quiet. now right.
Qed.

Lemma checkCommendations_quiet (reg : Registry) (vs : list Finding) (text : string) :
  triple (atViolations reg vs) (checkCommendations text)
         (fun _ d => atViolations reg vs d).
Proof.
  unfold checkCommendations.
  repeat (apply triple_seq || apply triple_if);
    auto using pushCommendation_quiet, ret_quiet.
Qed.

(** *** The infrastructure-keyword scan *)

Lemma sprawlLoop_run (entries : list (string * regex)) (text : string)
    (context : Context) (d : Detector) :
  sprawlLoop entries text context d =
  (ok tt,
   {| violations :=
        violations d ++
        map (fun e => sprawlViolation (fst e) context)
            (List.filter (fun e => test (snd e) text) entries);
      warnings := warnings d;
      commendations := commendations d;
      incidents := incidents d |}).
Proof.
  revert d. induction entries as [|[name pattern] rest IH]; intros d; simpl.
  - rewrite app_nil_r. destruct d; reflexivity.
  - rewrite bind_run. destruct (test pattern text); simpl.
    + rewrite IH. simpl. rewrite <- app_assoc. reflexivity.
    + rewrite IH. reflexivity.
Qed.

Lemma checkEnterpriseSprawl_run (text : string) (context : Context)
    (skipCostChecks : bool) (d : Detector) :
  checkEnterpriseSprawl text context skipCostChecks d =
  (ok tt,
   {| violations := violations d ++ sprawlFindings text context;
      warnings := warnings d;
      commendations := commendations d;
      incidents := incidents d |}).
Proof. apply sprawlLoop_run. Qed.

Lemma sprawlFindings_critical (text : string) (context : Context) :
  Forall (fun v => type v = "ENTERPRISE_SPRAWL" /\ severity v = CRITICAL /\
                   incident v = None)
         (sprawlFindings text context).
Proof.
  unfold sprawlFindings. apply List.Forall_forall. intros v Hv.
  apply in_map_iff in Hv. destruct Hv as (e & <- & _). now repeat split.
Qed.

Lemma sprawlFindings_at_most_five (text : string) (context : Context) :
  (length (sprawlFindings text context) <= 5)%nat.
Proof.
  unfold sprawlFindings. rewrite length_map.
  etransitivity; [apply filter_length_le|]. reflexivity.
Qed.

(** *** The registry is read-only for the checks *)

Lemma keeps_ret {A} (a : A) : keepsRegistry (mret a : M A).
Proof. intros d. reflexivity. Qed.

Lemma keeps_bind {A B} (m : M A) (k : A -> M B) :
  keepsRegistry m -> (forall a, keepsRegistry (k a)) -> keepsRegistry (m ≫= k).
Proof.
  intros Hm Hk d. rewrite bind_run. specialize (Hm d).
  destruct (m d) as [[e|a] d1]; simpl in *; [exact Hm|].
  rewrite Hk. exact Hm.
Qed.

Lemma keeps_liftR {A} (r : Result A) : keepsRegistry (liftR r).
Proof. intros d. reflexivity. Qed.

Lemma keeps_pushViolation (f : Finding) : keepsRegistry (pushViolation f).
Proof. intros d. reflexivity. Qed.

Lemma keeps_pushWarning (f : Finding) : keepsRegistry (pushWarning f).
Proof. intros d. reflexivity. Qed.

Lemma keeps_pushCommendation (c : Commendation) : keepsRegistry (pushCommendation c).
Proof. intros d. reflexivity. Qed.

Lemma keeps_getIncident (key : string) : keepsRegistry (getIncident key).
Proof. intros d. unfold getIncident. destruct (incidents d) eqn:E; simpl; congruence. Qed.

Lemma keeps_getResults : keepsRegistry getResults.
Proof. intros d. reflexivity. Qed.

Lemma keeps_resetFindings : keepsRegistry resetFindings.
Proof. intros d. reflexivity. Qed.

Lemma keeps_sprawlLoop (entries : list (string * regex)) (text : string) (context : Context) :
  keepsRegistry (sprawlLoop entries text context).
Proof. intros d. rewrite sprawlLoop_run. reflexivity. Qed.

Create HintDb keeps discriminated.
#[local] Hint Resolve keeps_ret keeps_liftR keeps_pushViolation keeps_pushWarning
  keeps_pushCommendation keeps_getIncident keeps_getResults keeps_resetFindings
  keeps_sprawlLoop : keeps.

(** Walks through a method of the detector, one construct at a time. *)
Ltac keeps_step :=
  match goal with
  | |- keepsRegistry (_ ≫= _) => apply keeps_bind; [|intros ?]
  | |- keepsRegistry (match ?x with _ => _ end) => destruct x
  | |- keepsRegistry _ => solve [auto with keeps]
  end.

Lemma keeps_checkIssue43Pattern text context : keepsRegistry (checkIssue43Pattern text context).
Proof. unfold checkIssue43Pattern. repeat keeps_step. Qed.

Lemma keeps_checkIssue32Pattern text context : keepsRegistry (checkIssue32Pattern text context).
Proof. unfold checkIssue32Pattern. repeat keeps_step. Qed.

Lemma keeps_checkIssue41Pattern text context : keepsRegistry (checkIssue41Pattern text context).
Proof. unfold checkIssue41Pattern. repeat keeps_step. Qed.

Lemma keeps_checkDaymanNightmanTheme text context :
  keepsRegistry (checkDaymanNightmanTheme text context).
Proof. unfold checkDaymanNightmanTheme. repeat keeps_step. Qed.

Lemma keeps_checkAlpineBaseImagePattern text context :
  keepsRegistry (checkAlpineBaseImagePattern text context).
Proof. unfold checkAlpineBaseImagePattern. repeat keeps_step. Qed.

Lemma keeps_checkDockerAmd64PlatformPattern text context :
  keepsRegistry (checkDockerAmd64PlatformPattern text context).
Proof. unfold checkDockerAmd64PlatformPattern. repeat keeps_step. Qed.

Lemma keeps_checkLiveDataLawPattern text context :
  keepsRegistry (checkLiveDataLawPattern text context).
Proof. unfold checkLiveDataLawPattern. repeat keeps_step. Qed.

Lemma keeps_checkGitDirectoryBreakout text context :
  keepsRegistry (checkGitDirectoryBreakout text context).
Proof. unfold checkGitDirectoryBreakout. repeat keeps_step. Qed.

Lemma keeps_checkEnterpriseSprawl text context skip :
  keepsRegistry (checkEnterpriseSprawl text context skip).
Proof. unfold checkEnterpriseSprawl. auto with keeps. Qed.

Lemma keeps_checkCostEfficiency text context skip :
  keepsRegistry (checkCostEfficiency text context skip).
Proof. unfold checkCostEfficiency. repeat keeps_step. Qed.

Lemma keeps_checkCommendations text : keepsRegistry (checkCommendations text).
Proof. unfold checkCommendations. repeat keeps_step. Qed.

#[local] Hint Resolve keeps_checkIssue43Pattern keeps_checkIssue32Pattern
  keeps_checkIssue41Pattern keeps_checkDaymanNightmanTheme
  keeps_checkAlpineBaseImagePattern keeps_checkDockerAmd64PlatformPattern
  keeps_checkLiveDataLawPattern keeps_checkGitDirectoryBreakout
  keeps_checkEnterpriseSprawl keeps_checkCostEfficiency keeps_checkCommendations
  : keeps.

(** *** Loading and the shape of [analyze] *)

Lemma resetFindings_run (d : Detector) :
  resetFindings d =
  (ok tt, {| violations := []; warnings := []; commendations := [];
             incidents := incidents d |}).
Proof. reflexivity. Qed.

(** A load always returns, and always leaves some registry in place. *)
Lemma loadIncidentPatterns_run (env : LoadEnv) (d : Detector) :
  exists b reg, loadIncidentPatterns env d = (ok b, setIncidents reg d).
Proof.
  unfold loadIncidentPatterns.
  destruct (tryLive env) as [live|]; [now exists true, live|].
  destruct (bindR _ _) as [e|reg]; [now exists false, ∅ | now exists true, reg].
Qed.

(** After [resetFindings], [ensureLoaded] ends in a detector that only holds
    a registry: the one already there, or the one just loaded. *)
Lemma ensureLoaded_run (env : LoadEnv) (o : option Registry) :
  exists reg,
    ensureLoaded env {| violations := []; warnings := []; commendations := [];
                        incidents := o |} = (ok tt, loaded reg) /\
    (forall r, o = Some r -> reg = r).
Proof.
  destruct o as [r|].
  - exists r. split; [reflexivity | congruence].
  - unfold ensureLoaded. simpl incidents. cbv iota.
    destruct (loadIncidentPatterns_run env
                {| violations := []; warnings := []; commendations := [];
                   incidents := None |}) as (b & reg & E).
    exists reg. split; [|discriminate].
    rewrite (bind_ok _ _ _ _ _ E). reflexivity.
Qed.

(** [analyze] starts from scratch: its outcome is that of a run on a detector
    that holds nothing but the registry in force, and it does not look at
    the outside world once a registry is there. *)
Lemma analyze_from_loaded (env : LoadEnv) (text : string) (context : Context)
    (d : Detector) :
  exists reg,
    (forall r, incidents d = Some r -> reg = r) /\
    forall env', analyze env text context d = analyze env' text context (loaded reg).
Proof.
  destruct (ensureLoaded_run env (incidents d)) as (reg & Eload & Hreg).
  exists reg. split; [exact Hreg|]. intros env'.
  unfold analyze.
  rewrite (bind_ok _ _ _ _ _ (resetFindings_run d)).
  rewrite (bind_ok _ _ _ _ _ (resetFindings_run (loaded reg))).
  rewrite (bind_ok _ _ _ _ _ Eload).
  assert (ensureLoaded env' (loaded reg) = (ok tt, loaded reg)) as Eload'
    by reflexivity.
  unfold loaded in Eload' at 1.
  change (incidents (loaded reg)) with (Some reg).
  rewrite (bind_ok _ _ _ _ _ Eload').
  reflexivity.
Qed.

Lemma analyze_keeps_loaded (env : LoadEnv) (text : string) (context : Context)
    (reg : Registry) :
  incidents (snd (analyze env text context (loaded reg))) = Some reg.
Proof.
  unfold analyze.
  rewrite (bind_ok _ _ _ _ _ (resetFindings_run (loaded reg))).
  change (incidents (loaded reg)) with (Some reg).
  assert (ensureLoaded env (loaded reg) = (ok tt, loaded reg)) as E by reflexivity.
  unfold loaded in E at 1. rewrite (bind_ok _ _ _ _ _ E).
  match goal with
  | |- incidents (snd (?m (loaded reg))) = _ =>
      assert (keepsRegistry m) as K
  end.
  { destruct (isDocumentation text); repeat keeps_step. }
  rewrite K. reflexivity.
Qed.

(** *** Analysis without rules *)

(** After the documentation test, on a registry that holds none of the rule
    identifiers, the checks of [analyze] push the infrastructure-keyword
    violations and nothing else as violation. *)
Lemma analyze_loaded_without_rules (env : LoadEnv) (text : string) (context : Context)
    (reg : Registry) :
  Forall (fun k => reg !! k = None) ruleIds ->
  isDocumentation text = false ->
  exists r d',
    analyze env text context (loaded reg) = (ok r, d') /\
    resViolations r = sprawlFindings text context /\
    Forall heuristicWarning (resWarnings r).
Proof.
  intros Habs Hdoc.
  apply List.Forall_forall with (x := "issue-43") in Habs as A43; [|simpl; tauto].
  apply List.Forall_forall with (x := "issue-32") in Habs as A32; [|simpl; tauto].
  apply List.Forall_forall with (x := "dayman-nightman-theme") in Habs as Ath; [|simpl; tauto].
  apply List.Forall_forall with (x := "alpine-base-image") in Habs as Aal; [|simpl; tauto].
  apply List.Forall_forall with (x := "docker-amd64-platform") in Habs as Ado; [|simpl; tauto].
  apply List.Forall_forall with (x := "live-data-law") in Habs as Ali; [|simpl; tauto].
  apply List.Forall_forall with (x := "git-directory-breakout") in Habs as Agi; [|simpl; tauto].
  unfold analyze.
  rewrite (bind_ok _ _ _ _ _ (resetFindings_run (loaded reg))).
  change (incidents (loaded reg)) with (Some reg).
  assert (ensureLoaded env (loaded reg) = (ok tt, loaded reg)) as E by reflexivity.
  unfold loaded in E at 1. rewrite (bind_ok _ _ _ _ _ E). rewrite Hdoc.
  match goal with
  | |- exists r d', ?m (loaded reg) = _ /\ _ =>
      assert (triple (atViolations reg []) m
                (fun r _ => resViolations r = sprawlFindings text context /\
                            Forall heuristicWarning (resWarnings r))) as T
  end.
  { apply triple_seq.
    { apply triple_if; [apply pushCommendation_quiet | apply ret_quiet]. }
    apply triple_seq.
    { apply triple_skip with (a := tt). intros d0 (Hr & _).
      now apply checkIssue43Pattern_absent with (reg := reg). }
    apply triple_seq.
    { apply triple_skip with (a := tt). intros d0 (Hr & _).
      now apply checkIssue32Pattern_absent with (reg := reg). }
    apply triple_seq. { apply checkIssue41Pattern_quiet. }
    apply triple_seq.
    { apply triple_skip with (a := tt). intros d0 (Hr & _).
      now apply checkDaymanNightmanTheme_absent with (reg := reg). }
    apply triple_seq.
    { apply triple_skip with (a := tt). intros d0 (Hr & _).
      now apply checkAlpineBaseImagePattern_absent with (reg := reg). }
    apply triple_seq.
    { apply triple_skip with (a := tt). intros d0 (Hr & _).
      now apply checkDockerAmd64PlatformPattern_absent with (reg := reg). }
    apply triple_seq.
    { apply triple_skip with (a := tt). intros d0 (Hr & _).
      now apply checkLiveDataLawPattern_absent with (reg := reg). }
    apply triple_seq.
    { apply triple_skip with (a := tt). intros d0 (Hr & _).
      now apply checkGitDirectoryBreakout_absent with (reg := reg). }
    apply triple_bind
      with (Q := fun _ d => atViolations reg (sprawlFindings text context) d).
    { intros d0 (Hr & Hv & Hw). rewrite checkEnterpriseSprawl_run.
      eexists tt, _. split; [reflexivity|]. repeat split; simpl; auto.
      rewrite Hv. reflexivity. }
    intros _.
    apply triple_seq.
    { apply triple_skip with (a := tt). intros d0 (Hr & _).
      now apply checkLiveDataLawPattern_absent with (reg := reg). }
    apply triple_seq. { apply checkCostEfficiency_quiet. }
    apply triple_seq. { apply checkCommendations_quiet. }
    intros d0 (Hr & Hv & Hw). eexists _, d0. split; [reflexivity|]. simpl. now split. }
  apply T. repeat split. apply List.Forall_nil.
Qed.

Lemma analyze_loaded_documentation (env : LoadEnv) (text : string) (context : Context)
    (reg : Registry) :
  isDocumentation text = true ->
  fst (analyze env text context (loaded reg)) = ok documentationResults.
Proof.
  intros Hdoc. unfold analyze.
  rewrite (bind_ok _ _ _ _ _ (resetFindings_run (loaded reg))).
  change (incidents (loaded reg)) with (Some reg).
  assert (ensureLoaded env (loaded reg) = (ok tt, loaded reg)) as E by reflexivity.
  unfold loaded in E at 1. rewrite (bind_ok _ _ _ _ _ E). rewrite Hdoc.
  reflexivity.
Qed.

Lemma analyze_without_rules (env : LoadEnv) (text : string) (context : Context)
    (reg : Registry) (d : Detector) :
  incidents d = Some reg ->
  Forall (fun k => reg !! k = None) ruleIds ->
  exists r,
    fst (analyze env text context d) = ok r /\
    resViolations r = (if isDocumentation text then [] else sprawlFindings text context) /\
    Forall heuristicWarning (resWarnings r).
Proof.
  intros Hreg Habs.
  destruct (analyze_from_loaded env text context d) as (reg' & Hr & E).
  pose proof (Hr reg Hreg) as ->. rewrite (E env).
  destruct (isDocumentation text) eqn:Hdoc.
  - exists documentationResults.
    split; [now apply analyze_loaded_documentation|].
    split; [reflexivity | apply List.Forall_nil].
  - destruct (analyze_loaded_without_rules env text context reg Habs Hdoc)
      as (r & d' & Er & Hv & Hw).
    exists r. rewrite Er. now repeat split.
Qed.

Lemma empty_registry_has_no_rule : Forall (fun k => (∅ : Registry) !! k = None) ruleIds.
Proof. apply List.Forall_forall. intros k _. apply lookup_empty. Qed.

(** C3. For every text that the documentation classifier accepts, every
    context, every detector state and every outside world, [analyze] returns
    no violation, no warning and exactly the one [DOCUMENTATION]
    commendation, whatever else the text matches. *)
Theorem analyze_documentation (env : LoadEnv) (text : string) (context : Context)
    (d : Detector) :
  isDocumentation text = true ->
  fst (analyze env text context d) = ok documentationResults.
Proof.
  intros Hdoc.
  destruct (analyze_from_loaded env text context d) as (reg & _ & E).
  rewrite (E env). now apply analyze_loaded_documentation.
Qed.

(** C4 (as amended). When the detector holds registry [reg]: each check that
    looks up a rule identifier leaves the detector as it is, and so emits
    nothing, when that identifier is absent from [reg]; and when all of them
    are absent (as in an empty registry), the violations of [analyze] are
    exactly the keyword findings of the infrastructure scan and its warnings
    come only from the two checks that consult no rule, the untested-deploy
    check of Issue #41 and the cost scan. *)
Theorem rule_lookup_gates_checks (env : LoadEnv) (text : string) (context : Context)
    (reg : Registry) (d : Detector) :
  incidents d = Some reg ->
  (reg !! "issue-43" = None -> checkIssue43Pattern text context d = (ok tt, d)) /\
  (reg !! "issue-32" = None -> checkIssue32Pattern text context d = (ok tt, d)) /\
  (reg !! "dayman-nightman-theme" = None ->
     checkDaymanNightmanTheme text context d = (ok tt, d)) /\
  (reg !! "alpine-base-image" = None ->
     checkAlpineBaseImagePattern text context d = (ok tt, d)) /\
  (reg !! "docker-amd64-platform" = None ->
     checkDockerAmd64PlatformPattern text context d = (ok tt, d)) /\
  (reg !! "live-data-law" = None ->
     checkLiveDataLawPattern text context d = (ok tt, d) /\
     checkHardcodedData text context d = (ok tt, d)) /\
  (reg !! "git-directory-breakout" = None ->
     checkGitDirectoryBreakout text context d = (ok tt, d)) /\
  (Forall (fun k => reg !! k = None) ruleIds ->
   exists r,
     fst (analyze env text context d) = ok r /\
     resViolations r = (if isDocumentation text then [] else sprawlFindings text context) /\
     Forall heuristicWarning (resWarnings r)).
Proof.
  intros Hreg.
  split; [now apply checkIssue43Pattern_absent|].
  split; [now apply checkIssue32Pattern_absent|].
  split; [now apply checkDaymanNightmanTheme_absent|].
  split; [now apply checkAlpineBaseImagePattern_absent|].
  split; [now apply checkDockerAmd64PlatformPattern_absent|].
  split.
  { intros Habs. split; [|unfold checkHardcodedData];
      now apply checkLiveDataLawPattern_absent with (reg := reg). }
  split; [now apply checkGitDirectoryBreakout_absent|].
  now apply analyze_without_rules.
Qed.

(** C9. Two calls of [analyze] in a row on one detector, with the same text
    and context, return the same outcome (the same findings, or the same
    exception), whatever the first call left behind and whatever the outside
    world gives the second call; and the outcome of a call does not depend
    on the findings that an earlier pass left in the detector. *)
Theorem analyze_idempotent (env env' : LoadEnv) (text : string) (context : Context)
    (d : Detector) :
  fst (analyze env' text context (snd (analyze env text context d))) =
  fst (analyze env text context d) /\
  (forall d' : Detector,
     incidents d' = incidents d ->
     analyze env text context d' = analyze env text context d).
Proof.
  split.
  - destruct (analyze_from_loaded env text context d) as (reg & _ & E).
    rewrite (E env').
    destruct (analyze_from_loaded env' text context
                (snd (analyze env' text context (loaded reg)))) as (reg1 & Hr1 & E1).
    rewrite (E1 env').
    rewrite (Hr1 reg (analyze_keeps_loaded env' text context reg)).
    reflexivity.
  - intros d' Hsame. unfold analyze.
    rewrite (bind_ok _ _ _ _ _ (resetFindings_run d')).
    rewrite (bind_ok _ _ _ _ _ (resetFindings_run d)).
    rewrite Hsame. reflexivity.
Qed.

(** C10. For a text that is not documentation, on a detector whose registry
    is empty: [checkEnterpriseSprawl], whatever its skip flag and whatever
    state it runs in, appends one violation for each of the five keyword
    categories whose pattern matches the text, all of them, in order; each is
    a CRITICAL [ENTERPRISE_SPRAWL] violation that names no rule; there are at
    most five; and the violations that [analyze] returns are exactly these,
    investor materials or not. *)
Theorem enterprise_sprawl_unconditional (env : LoadEnv) (text : string)
    (context : Context) (d : Detector) :
  isDocumentation text = false ->
  incidents d = Some ∅ ->
  (forall (skipCostChecks : bool) (d0 : Detector),
     checkEnterpriseSprawl text context skipCostChecks d0 =
     (ok tt,
      {| violations := violations d0 ++ sprawlFindings text context;
         warnings := warnings d0;
         commendations := commendations d0;
         incidents := incidents d0 |})) /\
  Forall (fun v => type v = "ENTERPRISE_SPRAWL" /\ severity v = CRITICAL /\
                   incident v = None)
         (sprawlFindings text context) /\
  (length (sprawlFindings text context) <= 5)%nat /\
  exists r,
    fst (analyze env text context d) = ok r /\
    resViolations r = sprawlFindings text context.
Proof.
  intros Hdoc Hreg.
  split; [intros; apply checkEnterpriseSprawl_run|].
  split; [apply sprawlFindings_critical|].
  split; [apply sprawlFindings_at_most_five|].
  destruct (analyze_without_rules env text context ∅ d Hreg empty_registry_has_no_rule)
    as (r & Er & Hv & _).
  exists r. rewrite Hdoc in Hv. now split.
Qed.

(** *** Well-formed rules *)

Lemma compile_all_ok (sources : list string) :
  forallb compiles sources = true ->
  exists ts,
    mapR (fun p => match newRegExp_i p with
                   | Some t => ok t
                   | None => throw SyntaxError
                   end) sources = ok ts.
Proof.
  induction sources as [|p ps IH]; simpl; intros Hall.
  - now exists [].
  - apply andb_true_iff in Hall as [Hp Hps].
    destruct (IH Hps) as [ts Ets]. unfold compiles in Hp.
    destruct (newRegExp_i p) as [t|]; [|discriminate].
    exists (t :: ts). simpl. rewrite Ets. reflexivity.
Qed.

Lemma compilePatterns_wf (needsImpact : bool) (incident : Incident) :
  wellFormedRule needsImpact (Some incident) = true ->
  exists ts, compilePatterns incident = ok ts.
Proof.
  unfold wellFormedRule, compilePatterns. intros Hwf.
  apply andb_true_iff in Hwf as [Hp _].
  destruct (textPatterns incident) as [ps|]; [|discriminate].
  now apply compile_all_ok.
Qed.

Lemma readImpact_wf (incident : Incident) :
  wellFormedRule true (Some incident) = true ->
  exists fi, readImpact incident = ok fi.
Proof.
  unfold wellFormedRule, readImpact. intros Hwf.
  apply andb_true_iff in Hwf as [_ Hi]. simpl in Hi.
  destruct (financialImpact incident) as [fi|]; [now exists fi | discriminate].
Qed.

Lemma liftR_ok {A} (r : Result A) (a : A) (d : Detector) :
  r = ok a -> liftR r d = (ok a, d).
Proof. intros ->. reflexivity. Qed.

(** The detector holds registry [reg]. *)
Abbreviation holding reg := (fun d : Detector => incidents d = Some reg).

(** Runs a pattern-reading check on a well-formed rule: the lookup, then the
    compilation of the patterns, then the loop and the reading of the
    financial impact. *)
Ltac run_compile Hwf :=
  let ts := fresh "ts" in
  let Ets := fresh "Ets" in
  destruct (compilePatterns_wf _ _ Hwf) as [ts Ets];
  rewrite (bind_ok _ _ _ _ _ (liftR_ok _ _ _ Ets)); cbv beta;
  match goal with
  | |- context [anyMatches ts ?t] => destruct (anyMatches ts t)
  end.

Ltac run_impact Hwf :=
  let fi := fresh "fi" in
  let Efi := fresh "Efi" in
  destruct (readImpact_wf _ Hwf) as [fi Efi];
  rewrite (bind_ok _ _ _ _ _ (liftR_ok _ _ _ Efi)); cbv beta.

Ltac finish_ok Hd := eexists tt, _; split; [reflexivity | exact Hd].

Lemma checkIssue43Pattern_ok (reg : Registry) (text : string) (context : Context) :
  wellFormedRule true (reg !! "issue-43") = true ->
  triple (holding reg) (checkIssue43Pattern text context) (fun _ d => holding reg d).
Proof.
  intros Hwf d Hd. unfold checkIssue43Pattern.
  rewrite (bind_ok _ _ _ _ _ (getIncident_loaded _ _ _ Hd)).
  destruct (reg !! "issue-43") as [inc|]; [|finish_ok Hd].
  run_compile Hwf; [|finish_ok Hd]. run_impact Hwf. finish_ok Hd.
Qed.

Lemma checkIssue32Pattern_ok (reg : Registry) (text : string) (context : Context) :
  wellFormedRule false (reg !! "issue-32") = true ->
  triple (holding reg) (checkIssue32Pattern text context) (fun _ d => holding reg d).
Proof.
  intros Hwf d Hd. unfold checkIssue32Pattern.
  rewrite (bind_ok _ _ _ _ _ (getIncident_loaded _ _ _ Hd)).
  destruct (reg !! "issue-32") as [inc|]; [|finish_ok Hd].
  run_compile Hwf; finish_ok Hd.
Qed.

Lemma checkAlpineBaseImagePattern_ok (reg : Registry) (text : string) (context : Context) :
  wellFormedRule true (reg !! "alpine-base-image") = true ->
  triple (holding reg) (checkAlpineBaseImagePattern text context)
         (fun _ d => holding reg d).
Proof.
  intros Hwf d Hd. unfold checkAlpineBaseImagePattern.
  rewrite (bind_ok _ _ _ _ _ (getIncident_loaded _ _ _ Hd)).
  destruct (reg !! "alpine-base-image") as [inc|]; [|finish_ok Hd].
  run_compile Hwf; [|finish_ok Hd]. run_impact Hwf. finish_ok Hd.
Qed.

Lemma checkDockerAmd64PlatformPattern_ok (reg : Registry) (text : string)
    (context : Context) :
  wellFormedRule true (reg !! "docker-amd64-platform") = true ->
  triple (holding reg) (checkDockerAmd64PlatformPattern text context)
         (fun _ d => holding reg d).
Proof.
  intros Hwf d Hd. unfold checkDockerAmd64PlatformPattern.
  rewrite (bind_ok _ _ _ _ _ (getIncident_loaded _ _ _ Hd)).
  destruct (reg !! "docker-amd64-platform") as [inc|]; [|finish_ok Hd].
  destruct (includes text "./build-and-push.sh" || includes text "--platform linux/amd64");
    [finish_ok Hd|].
  run_compile Hwf; [|finish_ok Hd]. run_impact Hwf. finish_ok Hd.
Qed.

Lemma checkLiveDataLawPattern_ok (reg : Registry) (text : string) (context : Context) :
  wellFormedRule true (reg !! "live-data-law") = true ->
  triple (holding reg) (checkLiveDataLawPattern text context)
         (fun _ d => holding reg d).
Proof.
  intros Hwf d Hd. unfold checkLiveDataLawPattern.
  rewrite (bind_ok _ _ _ _ _ (getIncident_loaded _ _ _ Hd)).
  destruct (reg !! "live-data-law") as [inc|]; [|finish_ok Hd].
  destruct (negb _); [finish_ok Hd|].
  destruct (existsb _ correctPatterns); [finish_ok Hd|].
  run_compile Hwf; [|finish_ok Hd]. run_impact Hwf. finish_ok Hd.
Qed.

(** The checks that read no rule record return whatever the registry holds. *)
Lemma triple_bind_inv {A B} (I : Detector -> Prop) (R : B -> Detector -> Prop)
    (m : M A) (k : A -> M B) :
  triple I m (fun _ d => I d) -> (forall a, triple I (k a) R) -> triple I (m ≫= k) R.
Proof. apply triple_bind. Qed.

Lemma holding_getIncident (reg : Registry) (key : string) :
  triple (holding reg) (getIncident key) (fun _ d => holding reg d).
Proof.
  intros d Hd. rewrite (getIncident_loaded _ _ _ Hd). eexists _, d. now split.
Qed.

Lemma holding_pushViolation (reg : Registry) (f : Finding) :
  triple (holding reg) (pushViolation f) (fun _ d => holding reg d).
Proof. intros d Hd. finish_ok Hd. Qed.

Lemma holding_pushWarning (reg : Registry) (f : Finding) :
  triple (holding reg) (pushWarning f) (fun _ d => holding reg d).
Proof. intros d Hd. finish_ok Hd. Qed.

Lemma holding_pushCommendation (reg : Registry) (c : Commendation) :
  triple (holding reg) (pushCommendation c) (fun _ d => holding reg d).
Proof. intros d Hd. finish_ok Hd. Qed.

Lemma holding_ret {A} (reg : Registry) (a : A) :
  triple (holding reg) (mret a) (fun _ d => holding reg d).
Proof. apply (triple_ret (holding reg)). Qed.

Lemma holding_sprawl (reg : Registry) (text : string) (context : Context) (skip : bool) :
  triple (holding reg) (checkEnterpriseSprawl text context skip)
         (fun _ d => holding reg d).
Proof.
  intros d Hd. rewrite checkEnterpriseSprawl_run. eexists tt, _. split; [reflexivity|].
  exact Hd.
Qed.

Create HintDb holds discriminated.
#[local] Hint Resolve holding_getIncident holding_pushViolation holding_pushWarning
  holding_pushCommendation holding_ret holding_sprawl : holds.

Ltac hold_step :=
  match goal with
  | |- triple _ (_ ≫= _) _ => apply triple_bind_inv; [|intros ?]
  | |- triple _ (match ?x with _ => _ end) _ => destruct x
  | |- triple _ _ _ => solve [auto with holds]
  end.

Lemma checkIssue41Pattern_ok (reg : Registry) (text : string) (context : Context) :
  triple (holding reg) (checkIssue41Pattern text context) (fun _ d => holding reg d).
Proof. unfold checkIssue41Pattern. repeat hold_step. Qed.

Lemma checkDaymanNightmanTheme_ok (reg : Registry) (text : string) (context : Context) :
  triple (holding reg) (checkDaymanNightmanTheme text context) (fun _ d => holding reg d).
Proof. unfold checkDaymanNightmanTheme. repeat hold_step. Qed.

Lemma checkGitDirectoryBreakout_ok (reg : Registry) (text : string) (context : Context) :
  triple (holding reg) (checkGitDirectoryBreakout text context) (fun _ d => holding reg d).
Proof. unfold checkGitDirectoryBreakout. repeat hold_step. Qed.

Lemma checkCostEfficiency_ok (reg : Registry) (text : string) (context : Context)
    (skip : bool) :
  triple (holding reg) (checkCostEfficiency text context skip) (fun _ d => holding reg d).
Proof. unfold checkCostEfficiency. repeat hold_step. Qed.

Lemma checkCommendations_ok (reg : Registry) (text : string) :
  triple (holding reg) (checkCommendations text) (fun _ d => holding reg d).
Proof. unfold checkCommendations. repeat hold_step. Qed.

(** *** A rule record without its pattern list *)

Lemma compilePatterns_missing (incident : Incident) :
  textPatterns incident = None -> compilePatterns incident = throw TypeError.
Proof. unfold compilePatterns. now intros ->. Qed.

Lemma checkIssue43Pattern_missing_patterns (reg : Registry) (text : string)
    (context : Context) (d : Detector) (inc : Incident) :
  incidents d = Some reg -> reg !! "issue-43" = Some inc -> textPatterns inc = None ->
  checkIssue43Pattern text context d = (throw TypeError, d).
Proof.
  intros Hd Hk Hp. unfold checkIssue43Pattern.
  rewrite (bind_ok _ _ _ _ _ (getIncident_loaded _ _ _ Hd)), Hk.
  rewrite bind_run. unfold liftR. rewrite (compilePatterns_missing _ Hp). reflexivity.
Qed.

Lemma checkAlpineBaseImagePattern_missing_patterns (reg : Registry) (text : string)
    (context : Context) (d : Detector) (inc : Incident) :
  incidents d = Some reg -> reg !! "alpine-base-image" = Some inc ->
  textPatterns inc = None ->
  checkAlpineBaseImagePattern text context d = (throw TypeError, d).
Proof.
  intros Hd Hk Hp. unfold checkAlpineBaseImagePattern.
  rewrite (bind_ok _ _ _ _ _ (getIncident_loaded _ _ _ Hd)), Hk.
  rewrite bind_run. unfold liftR. rewrite (compilePatterns_missing _ Hp). reflexivity.
Qed.

(** A registry whose [issue-43] record lacks its pattern list makes the pass
    over any text that is not documentation throw. *)
Lemma analyze_throws_on_missing_patterns (env : LoadEnv) (text : string)
    (context : Context) (reg : Registry) (d : Detector) (inc : Incident) :
  incidents d = Some reg -> reg !! "issue-43" = Some inc -> textPatterns inc = None ->
  isDocumentation text = false ->
  fst (analyze env text context d) = throw TypeError.
Proof.
  intros Hd Hk Hp Hdoc.
  destruct (analyze_from_loaded env text context d) as (reg' & Hr & E).
  pose proof (Hr reg Hd) as ->. rewrite (E env).
  unfold analyze.
  rewrite (bind_ok _ _ _ _ _ (resetFindings_run (loaded reg))).
  change (incidents (loaded reg)) with (Some reg).
  assert (ensureLoaded env (loaded reg) = (ok tt, loaded reg)) as El by reflexivity.
  unfold loaded in El at 1. rewrite (bind_ok _ _ _ _ _ El). rewrite Hdoc.
  destruct (isInvestorMaterials text).
  - erewrite bind_ok by reflexivity.
    erewrite bind_throw; [reflexivity|].
    now apply checkIssue43Pattern_missing_patterns with (reg := reg) (inc := inc).
  - erewrite bind_ok by reflexivity.
    erewrite bind_throw; [reflexivity|].
    now apply checkIssue43Pattern_missing_patterns with (reg := reg) (inc := inc).
Qed.

Lemma wellFormedRegistry_rule (reg : Registry) (key : string) (needsImpact : bool) :
  wellFormedRegistry reg = true -> In (key, needsImpact) patternRules ->
  wellFormedRule needsImpact (reg !! key) = true.
Proof.
  unfold wellFormedRegistry. rewrite forallb_forall. intros Hall Hin.
  apply (Hall (key, needsImpact) Hin).
Qed.


(** *** Reloading the registry *)

(** Every rule of a local load comes from a [.json] file of the directory,
    under its own identifier. *)
Lemma readLocal_sound (entries : list (string * Result Incident)) :
  forall (acc reg : Registry),
    readLocal entries acc = ok reg ->
    forall k inc, reg !! k = Some inc ->
      acc !! k = Some inc \/
      exists name, In (name, ok inc) entries /\ endsWith name ".json" = true /\ id inc = k.
Proof.
  induction entries as [|[name content] rest IH]; intros acc reg Hrun k inc Hk; simpl in Hrun.
  - injection Hrun as <-. now left.
  - destruct (endsWith name ".json") eqn:Hjson.
    + destruct content as [e|incident]; [discriminate|]. simpl in Hrun.
      destruct (IH _ _ Hrun k inc Hk) as [Hacc | (n & Hin & Hn & Hid)].
      * destruct (decide (id incident = k)) as [<-|Hne].
        -- rewrite lookup_insert_eq in Hacc. injection Hacc as <-.
           right. exists name. split; [now left | now split].
        -- rewrite lookup_insert_ne in Hacc by exact Hne. now left.
      * right. exists n. split; [now right | now split].
    + destruct (IH _ _ Hrun k inc Hk) as [Hacc | (n & Hin & Hn & Hid)]; [now left|].
      right. exists n. split; [now right | now split].
Qed.

(** The live rules are used only when the client is enabled and the fetch
    answers with a dictionary that is not empty. *)
Lemma tryLive_spec (env : LoadEnv) (live : Registry) :
  tryLive env = Some live ->
  CentralBrain.enabled (brain env) = true /\
  remote env = CentralBrain.Responded true (ok (Some live)) /\
  live <> ∅.
Proof.
  unfold tryLive, CentralBrain.fetchIncidentPatterns.
  destruct (CentralBrain.enabled (brain env)); [|discriminate]. simpl.
  destruct (remote env) as [|isOk [e|[m|]]]; simpl;
    try destruct isOk; simpl; try discriminate.
  - destruct (0 <? size m)%nat eqn:Hsize; [|discriminate].
    intros [= <-]. repeat split; try reflexivity.
    intros ->. rewrite map_size_empty in Hsize. discriminate.
Qed.


End DetectorFacts.

(** ** Worked examples of the detector *)

Section DetectorExamples.
Import JS Rules Detector Examples.

(** The policy text is exempt although the rules in force match it. *)
Lemma analyze_documentation_witness :
  fst (@analyze wordHost offlineEnv policyText emptyContext (loaded someRules)) =
  ok documentationResults.
Proof.
  apply (@analyze_documentation wordHost). reflexivity.
Defined.

(** C4, against the sentence of the specification. With an empty registry,
    a change to a workflow file without test evidence still gets the warning
    that names Issue #41. *)
Lemma empty_registry_still_warns :
  exists r w,
    fst (@analyze wordHost offlineEnv "bump the pipeline" workflowContext (loaded ∅)) = ok r /\
    resViolations r = [] /\
    resWarnings r = [w] /\
    type w = "UNTESTED_DEPLOY" /\
    incident w = Some "Issue #41" /\
    severity w = HIGH.
Proof.
  eexists _, _. split; [vm_compute; reflexivity|]. simpl. repeat split.
Qed.

(** With an empty registry, investor material on a workflow file path: all
    violations are keyword findings, all warnings heuristic ones. *)
Lemma rule_lookup_gates_checks_witness :
  exists r,
    fst (@analyze wordHost offlineEnv sprawlText workflowContext (loaded ∅)) = ok r /\
    resViolations r = sprawlFindings sprawlText workflowContext /\
    Forall heuristicWarning (resWarnings r).
Proof.
  destruct (@rule_lookup_gates_checks wordHost offlineEnv sprawlText workflowContext
              ∅ (loaded ∅) eq_refl)
    as (_ & _ & _ & _ & _ & _ & _ & Hall).
  apply (Hall empty_registry_has_no_rule).
Defined.




(** Investor material that names all five categories gets all five
    violations, with no rule in force. *)
Lemma enterprise_sprawl_unconditional_witness :
  isInvestorMaterials sprawlText = true /\
  length (sprawlFindings sprawlText emptyContext) = 5%nat /\
  exists r,
    fst (@analyze wordHost offlineEnv sprawlText emptyContext (loaded ∅)) = ok r /\
    resViolations r = sprawlFindings sprawlText emptyContext.
Proof.
  split; [reflexivity|]. split; [vm_compute; reflexivity|].
  destruct (@enterprise_sprawl_unconditional wordHost offlineEnv sprawlText emptyContext
              (loaded ∅) eq_refl eq_refl)
    as (_ & _ & _ & Hr).
  exact Hr.
Defined.

End DetectorExamples.

(* ===================================================================== *)
(** * Part III. Further properties of the code                            *)
(* ===================================================================== *)

(** ** Retries of the telemetry client *)

(** The step lemma of [sendEvents] under a name of its own. *)
Lemma sendEvents_step {E : Type} (s : CentralBrain.Sender)
    (post : nat -> CentralBrain.Response unit) (events : list E) (attempt : nat) :
  CentralBrain.sendEventsFrom s post events attempt =
  if negb (CentralBrain.enabled s) || (length events =? 0)%nat then ([], JS.ok tt)
  else match CentralBrain.postOnce (post attempt) with
       | inr _ => ([CentralBrain.Post attempt; CentralBrain.LogSent], JS.ok tt)
       | inl _ =>
           if (attempt <? CentralBrain.retryAttempts s)%nat then
             let rest := CentralBrain.sendEventsFrom s post events (attempt + 1) in
             (([CentralBrain.Post attempt;
                CentralBrain.WarnRetry attempt (CentralBrain.backoff s attempt);
                CentralBrain.Sleep (CentralBrain.backoff s attempt)] ++ fst rest)%list,
              snd rest)
           else ([CentralBrain.Post attempt;
                  CentralBrain.LogDropped (CentralBrain.retryAttempts s)], JS.ok tt)
       end.
Proof. apply sendEventsFrom_unfold. Qed.

Section RetryFacts.
Import JS CentralBrain Traces.
Context {E : Type}.

Lemma posts_app (t u : list Effect) : posts (t ++ u) = (posts t + posts u)%nat.
Proof. unfold posts. now rewrite List.filter_app, length_app. Qed.

Lemma waited_app (t u : list Effect) : waited (t ++ u) = (waited t + waited u)%nat.
Proof.
  induction t as [|e t IH]; [reflexivity|].
  destruct e; simpl; rewrite IH; lia.
Qed.

Lemma posts_retries (s : Sender) (n : nat) : forall first, posts (retries s first n) = n.
Proof.
  induction n as [|n IH]; intros first; [reflexivity|].
  simpl. change (posts (retries s (S first) n)) with (posts (retries s (S first) n)).
  unfold posts in *. simpl. now rewrite IH.
Qed.

(** The waits of [n] retries from attempt [first] add up to a geometric sum. *)
Lemma waited_retries (s : Sender) (n : nat) :
  forall first,
    (waited (retries s first n) + backoff s first = backoff s (first + n) + 0)%nat \/
    first = O.
Proof.
  induction n as [|n IH]; intros first.
  - left. simpl. now rewrite !Nat.add_0_r.
  - destruct first as [|f]; [now right|]. left.
    destruct (IH (S (S f))) as [H|H]; [|discriminate].
    simpl waited. unfold backoff in *.
    replace (S f + S n - 1)%nat with (S (S f) + n - 1)%nat by lia.
    replace (S (S f) - 1)%nat with (S (S f - 1)) in H by lia.
    rewrite Nat.pow_succ_r' in H. lia.
Qed.

(** The gate of [sendEvents] is open: the client is enabled and there is
    something to send. *)
Lemma gate_open (s : Sender) (events : list E) :
  enabled s = true -> events <> [] ->
  negb (enabled s) || (length events =? 0)%nat = false.
Proof. intros -> Hev. destruct events; [congruence | reflexivity]. Qed.

Lemma sendEventsFrom_retries (s : Sender) (post : nat -> Response unit)
    (events : list E) (n : nat) :
  enabled s = true -> events <> [] ->
  forall a,
    (forall i, (a <= i < a + n)%nat -> exists e, postOnce (post i) = inl e) ->
    (a + n <= retryAttempts s \/ n = 0)%nat ->
    sendEventsFrom s post events a =
    ((retries s a n ++ fst (sendEventsFrom s post events (a + n)))%list,
     snd (sendEventsFrom s post events (a + n))).
Proof.
  intros Hen Hev. induction n as [|n IH]; intros a Hfail Hle.
  - rewrite Nat.add_0_r. simpl. now destruct (sendEventsFrom s post events a).
  - rewrite sendEvents_step.
    rewrite (gate_open s events Hen Hev).
    destruct (Hfail a ltac:(lia)) as [e He]. rewrite He.
    assert ((a <? retryAttempts s)%nat = true) as -> by (apply Nat.ltb_lt; lia).
    cbv zeta. replace (a + 1)%nat with (S a) by lia.
    rewrite (IH (S a)); [|intros i Hi; apply Hfail; lia | lia].
    replace (S a + n)%nat with (a + S n)%nat by lia.
    reflexivity.
Qed.

(** X1. When the first [k - 1] POSTs fail and the [k]-th goes through, with
    [k] within the retry budget, [sendEvents] makes exactly [k] POSTs, logs
    the success, and has waited [retryDelay * (2^(k-1) - 1)] ms in all. *)
Theorem sendEvents_succeeds_at (s : Sender) (post : nat -> Response unit)
    (events : list E) (k : nat) :
  enabled s = true ->
  events <> [] ->
  (1 <= k)%nat ->
  (k <= retryAttempts s \/ k = 1)%nat ->
  (forall i, (1 <= i < k)%nat -> exists e, postOnce (post i) = inl e) ->
  postOnce (post k) = ok tt ->
  sendEvents s post events = ((retries s 1 (k - 1) ++ [Post k; LogSent])%list, ok tt) /\
  posts (fst (sendEvents s post events)) = k /\
  waited (fst (sendEvents s post events)) = (retryDelay s * (2 ^ (k - 1) - 1))%nat.
Proof.
  intros Hen Hev Hk Hle Hfail Hok.
  assert (Hrun : sendEvents s post events =
                 ((retries s 1 (k - 1) ++ [Post k; LogSent])%list, ok tt)).
  { unfold sendEvents.
    rewrite (sendEventsFrom_retries s post events (k - 1) Hen Hev 1%nat);
      [|intros i Hi; apply Hfail; lia | lia].
    replace (1 + (k - 1))%nat with k by lia.
    rewrite (sendEvents_step s post events k), (gate_open s events Hen Hev), Hok.
    reflexivity. }
  rewrite Hrun. split; [reflexivity|]. simpl fst. split.
  - rewrite posts_app, posts_retries. unfold posts. simpl. lia.
  - rewrite waited_app. simpl. rewrite Nat.add_0_r.
    destruct (waited_retries s (k - 1) 1) as [H|H]; [|discriminate].
    unfold backoff in H. replace (1 + (k - 1) - 1)%nat with (k - 1)%nat in H by lia.
    simpl in H. rewrite Nat.mul_sub_distr_l. lia.
Qed.

(** The POSTs and the waiting of [sendEvents] from attempt [a] on are bounded
    by those of the run in which every POST fails. *)
Lemma sendEventsFrom_bounded (s : Sender) (post : nat -> Response unit)
    (events : list E) (a : nat) :
  (1 <= a)%nat ->
  (posts (fst (sendEventsFrom s post events a)) <= Nat.max 1 (S (retryAttempts s) - a))%nat /\
  (waited (fst (sendEventsFrom s post events a)) + backoff s a
   <= backoff s (Nat.max a (retryAttempts s)))%nat.
Proof.
  remember (retryAttempts s - a)%nat as m eqn:Hm.
  revert a Hm. induction m as [m IH] using lt_wf_ind. intros a Hm Ha.
  rewrite sendEvents_step.
  assert (Hmono : (backoff s a <= backoff s (Nat.max a (retryAttempts s)))%nat).
  { unfold backoff. apply Nat.mul_le_mono_l, Nat.pow_le_mono_r; lia. }
  destruct (negb (enabled s) || (length events =? 0)%nat).
  { unfold posts; cbn [fst List.filter isPost length waited]. split; [lia | exact Hmono]. }
  destruct (postOnce (post a)).
  2:{ unfold posts; cbn [fst List.filter isPost length waited]. split; [lia | exact Hmono]. }
  destruct (a <? retryAttempts s)%nat eqn:Hlt.
  2:{ unfold posts; cbn [fst List.filter isPost length waited]. split; [lia | exact Hmono]. }
  apply Nat.ltb_lt in Hlt. cbv zeta. simpl fst.
  destruct (IH (retryAttempts s - (a + 1))%nat ltac:(lia) (a + 1)%nat eq_refl ltac:(lia))
    as [Hp Hw].
  split.
  - change (posts (?x :: ?y :: ?z :: ?t)) with (posts ([x; y; z] ++ t)%list).
    rewrite posts_app. unfold posts at 1. simpl List.filter. simpl length. lia.
  - simpl waited.
    replace (Nat.max (a + 1) (retryAttempts s)) with (Nat.max a (retryAttempts s)) in Hw by lia.
    assert (backoff s (a + 1) = 2 * backoff s a)%nat as Hb.
    { unfold backoff. replace (a + 1 - 1)%nat with (S (a - 1)) by lia.
      rewrite Nat.pow_succ_r'. lia. }
    lia.
Qed.

(** X2. Whatever the network does and whatever the retry settings are,
    [sendEvents] makes at most [max 1 retryAttempts] POSTs and waits at most
    [retryDelay * (2^(max 1 retryAttempts - 1) - 1)] ms; a client that is
    enabled and has events to send makes at least one POST, also with
    [retryAttempts = 0]. *)
Theorem sendEvents_bounded (s : Sender) (post : nat -> Response unit) (events : list E) :
  (posts (fst (sendEvents s post events)) <= Nat.max 1 (retryAttempts s))%nat /\
  (waited (fst (sendEvents s post events))
   <= retryDelay s * (2 ^ (Nat.max 1 (retryAttempts s) - 1) - 1))%nat /\
  (enabled s = true -> events <> [] ->
   (1 <= posts (fst (sendEvents s post events)))%nat).
Proof.
  destruct (sendEventsFrom_bounded s post events 1 ltac:(lia)) as [Hp Hw].
  unfold sendEvents. split; [|split].
  - replace (Nat.max 1 (retryAttempts s)) with (Nat.max 1 (S (retryAttempts s) - 1)) by lia.
    exact Hp.
  - unfold backoff in Hw. simpl in Hw. rewrite Nat.mul_sub_distr_l. lia.
  - intros Hen Hev. rewrite sendEvents_step, (gate_open s events Hen Hev).
    destruct (postOnce (post 1%nat)); [|unfold posts; simpl; lia].
    destruct (1 <? retryAttempts s)%nat; cbv zeta; unfold posts; simpl; lia.
Qed.

(** X3. When every POST fails, whatever the retry settings
    are, [sendEvents] makes exactly [max 1 retryAttempts] POSTs, waits
    [retryDelay * (2^(max 1 retryAttempts - 1) - 1)] ms between them in all,
    logs that the events are dropped and returns normally. *)
Theorem sendEvents_exhausts (s : Sender) (post : nat -> Response unit) (events : list E) :
  enabled s = true ->
  events <> [] ->
  (forall k, exists e, postOnce (post k) = inl e) ->
  sendEvents s post events =
    ((retries s 1 (Nat.max 1 (retryAttempts s) - 1) ++
      [Post (Nat.max 1 (retryAttempts s)); LogDropped (retryAttempts s)])%list, ok tt) /\
  posts (fst (sendEvents s post events)) = Nat.max 1 (retryAttempts s) /\
  waited (fst (sendEvents s post events))
    = (retryDelay s * (2 ^ (Nat.max 1 (retryAttempts s) - 1) - 1))%nat.
Proof.
  intros Hen Hev Hfail. set (n := Nat.max 1 (retryAttempts s)).
  assert (Hrun : sendEvents s post events =
                 ((retries s 1 (n - 1) ++ [Post n; LogDropped (retryAttempts s)])%list,
                  ok tt)).
  { unfold sendEvents.
    rewrite (sendEventsFrom_retries s post events (n - 1) Hen Hev 1%nat);
      [|intros i _; apply Hfail | subst n; lia].
    replace (1 + (n - 1))%nat with n by (subst n; lia).
    rewrite (sendEvents_step s post events n), (gate_open s events Hen Hev).
    destruct (Hfail n) as [e ->].
    assert ((n <? retryAttempts s)%nat = false) as -> by (apply Nat.ltb_ge; subst n; lia).
    reflexivity. }
  rewrite Hrun. split; [reflexivity|]. cbn [fst]. split.
  - rewrite posts_app, posts_retries. unfold posts. cbn [List.filter isPost length].
    subst n; lia.
  - rewrite waited_app. cbn [waited]. rewrite Nat.add_0_r.
    destruct (waited_retries s (n - 1) 1) as [Hw|Hw]; [|discriminate].
    unfold backoff in Hw. replace (1 + (n - 1) - 1)%nat with (n - 1)%nat in Hw by lia.
    simpl in Hw. rewrite Nat.mul_sub_distr_l. lia.
Qed.

(** X4. [configure] enables the client exactly when the
    configuration has an endpoint and an API key or an OAuth token, whatever
    the client was before; a client it leaves disabled keeps the endpoint and
    the key it had, sends nothing and fetches no rules. *)
Theorem configure_gates_network (config : option Config) (s : Sender) :
  (enabled (configure config s) = true <->
   exists c, config = Some c /\ truthy (cfgEndpoint c) = true /\
             (truthy (cfgApiKey c) = true \/ truthy (cfgOauthToken c) = true)) /\
  (enabled (configure config s) = false ->
   endpoint (configure config s) = endpoint s /\
   apiKey (configure config s) = apiKey s /\
   (forall (post : nat -> Response unit) (events : list E),
      sendEvents (configure config s) post events = ([], ok tt)) /\
   (forall get, fetchIncidentPatterns (configure config s) get = ok ∅)).
Proof.
  split.
  - unfold configure. destruct config as [c|]; [|split; [discriminate | intros (c & [=] & _)]].
    destruct (truthy (cfgEndpoint c)) eqn:He; simpl.
    2:{ split; [discriminate | intros (c' & [= <-] & He' & _); congruence]. }
    destruct (truthy (cfgApiKey c)) eqn:Hk, (truthy (cfgOauthToken c)) eqn:Ho; simpl;
      try (split; [intros _; exists c; auto | reflexivity]).
    split; [discriminate | intros (c' & [= <-] & _ & [Hk'|Ho']); congruence].
  - intros Hoff. split; [|split; [|split]].
    + revert Hoff. unfold configure. destruct config as [c|]; [|reflexivity].
      destruct (negb (truthy (cfgEndpoint c))); [reflexivity|].
      destruct (negb (truthy (cfgApiKey c)) && negb (truthy (cfgOauthToken c)));
        [reflexivity | discriminate].
    + revert Hoff. unfold configure. destruct config as [c|]; [|reflexivity].
      destruct (negb (truthy (cfgEndpoint c))); [reflexivity|].
      destruct (negb (truthy (cfgApiKey c)) && negb (truthy (cfgOauthToken c)));
        [reflexivity | discriminate].
    + intros post events. unfold sendEvents. rewrite sendEvents_step, Hoff. reflexivity.
    + intros get. unfold fetchIncidentPatterns. rewrite Hoff. reflexivity.
Qed.

End RetryFacts.

(** Worked instance: the default budget of three attempts, the third POST
    accepted. *)
Lemma sendEvents_succeeds_at_witness :
  CentralBrain.sendEvents
    {| CentralBrain.endpoint := Some "https://analytics.example";
       CentralBrain.apiKey := Some "key"; CentralBrain.enabled := true;
       CentralBrain.retryAttempts := 3; CentralBrain.retryDelay := 1000 |}
    (fun i => if (i <? 3)%nat then CentralBrain.Rejected
              else CentralBrain.Responded true (JS.ok tt)) [tt]
  = ([CentralBrain.Post 1; CentralBrain.WarnRetry 1 1000; CentralBrain.Sleep 1000;
      CentralBrain.Post 2; CentralBrain.WarnRetry 2 2000; CentralBrain.Sleep 2000;
      CentralBrain.Post 3; CentralBrain.LogSent], JS.ok tt).
Proof.
  refine (proj1 (sendEvents_succeeds_at
    {| CentralBrain.endpoint := Some "https://analytics.example";
       CentralBrain.apiKey := Some "key"; CentralBrain.enabled := true;
       CentralBrain.retryAttempts := 3; CentralBrain.retryDelay := 1000 |}
    (fun i => if (i <? 3)%nat then CentralBrain.Rejected
              else CentralBrain.Responded true (JS.ok tt)) [tt] 3 _ _ _ _ _ _)).
  - reflexivity.
  - discriminate.
  - lia.
  - left. simpl. lia.
  - intros i Hi. exists JS.IOError.
    destruct i as [|[|[|i]]]; [lia | reflexivity | reflexivity | lia].
  - reflexivity.
Defined.

(** Worked instance: a client with no retry budget at all still makes one
    POST. *)
Lemma sendEvents_exhausts_witness :
  CentralBrain.sendEvents
    {| CentralBrain.endpoint := Some "https://analytics.example";
       CentralBrain.apiKey := Some "key"; CentralBrain.enabled := true;
       CentralBrain.retryAttempts := 0; CentralBrain.retryDelay := 1000 |}
    (fun _ => CentralBrain.Rejected) [tt]
  = ([CentralBrain.Post 1; CentralBrain.LogDropped 0], JS.ok tt).
Proof.
  refine (proj1 (sendEvents_exhausts
    {| CentralBrain.endpoint := Some "https://analytics.example";
       CentralBrain.apiKey := Some "key"; CentralBrain.enabled := true;
       CentralBrain.retryAttempts := 0; CentralBrain.retryDelay := 1000 |}
    (fun _ => CentralBrain.Rejected) [tt] _ _ _)).
  - reflexivity.
  - discriminate.
  - intros k. exists JS.IOError. reflexivity.
Defined.

(** ** Telemetry events *)

Section TelemetryFacts.
Import JS Rules CentralBrain Detector Telemetry Traces.

(** [Math.round(n / 2)] on an integer [n] is the half of [n] rounded up. *)
Lemma Math_round_half (n : Z) : Math_round (inject_Z n / 2) = ((n + 1) / 2)%Z.
Proof.
  unfold Math_round.
  assert (Heq : inject_Z n / 2 + (1 # 2) == (n + 1) # 2).
  { unfold Qdiv. change (/ 2) with (1 # 2). unfold Qeq, Qplus, Qmult, inject_Z. cbn [Qnum Qden]. lia. }
  rewrite (Qfloor_comp _ _ Heq). reflexivity.
Qed.

(** X5. The cost an event reports for a violation with a financial risk
    whose range is in order, with bounds and a sum that are safe integers
    (below 2^53 in size, where the addition of the source is exact), is the
    midpoint of the range, rounded up to an integer; it lies within the
    range, and the measured return is its negation. *)
Theorem violation_event_cost (now : string) (v : Finding) (context : Context)
    (risk : FinancialImpact) :
  financialRisk v = Some risk ->
  safeRange risk = true ->
  (impactMin risk <= impactMax risk)%Z ->
  costOfViolation (mapViolationToEvent now v context)
    = ((impactMin risk + impactMax risk + 1) / 2)%Z /\
  (impactMin risk <= costOfViolation (mapViolationToEvent now v context)
                  <= impactMax risk)%Z /\
  isSafeInteger (costOfViolation (mapViolationToEvent now v context)) = true /\
  roiMeasured (mapViolationToEvent now v context)
    = (- costOfViolation (mapViolationToEvent now v context))%Z.
Proof.
  intros Hrisk Hsafe Hle. simpl. rewrite Hrisk. unfold extractCost.
  rewrite Math_round_half.
  assert (Hlo : (impactMin risk <= (impactMin risk + impactMax risk + 1) / 2)%Z)
    by (apply Z.div_le_lower_bound; lia).
  assert (Hhi : ((impactMin risk + impactMax risk + 1) / 2 < impactMax risk + 1)%Z)
    by (apply Z.div_lt_upper_bound; lia).
  split; [reflexivity|]. split; [lia|]. split; [|reflexivity].
  unfold safeRange, isSafeInteger in *.
  repeat (apply andb_prop in Hsafe as [Hsafe ?]).
  repeat match goal with
         | Hb : (_ <? _)%Z = true |- _ => apply Z.ltb_lt in Hb
         end.
  apply andb_true_intro. split; apply Z.ltb_lt; lia.
Qed.

(** Dropping a prefix. *)
Lemma substring_drop (p s : string) :
  String.substring (String.length p) (String.length (p ++ s) - String.length p) (p ++ s) = s.
Proof.
  induction p as [|c p IH]; simpl.
  - rewrite Nat.sub_0_r. induction s as [|c s IHs]; [reflexivity|].
    simpl. f_equal. destruct s; [reflexivity | exact IHs].
  - exact IH.
Qed.

Lemma prefix_append (p s : string) : String.prefix p (p ++ s) = true.
Proof.
  induction p as [|c p IH]; simpl; [now destruct s|].
  destruct (ascii_dec c c); [exact IH | congruence].
Qed.

(** [replace] removes a leading occurrence of the pattern. *)
Lemma removeFirst_prefix (p s : string) : removeFirst (p ++ s) p = s.
Proof.
  assert (Hu : forall t, removeFirst t p =
                 if String.prefix p t then
                   String.substring (String.length p) (String.length t - String.length p) t
                 else match t with
                      | EmptyString => EmptyString
                      | String c t' => String c (removeFirst t' p)
                      end) by (intros []; reflexivity).
  rewrite Hu, prefix_append. apply substring_drop.
Qed.

(** [replace] leaves a string without the pattern alone. *)
Lemma removeFirst_absent (s p : string) : includes s p = false -> removeFirst s p = s.
Proof.
  induction s as [|c s IH]; simpl; intros Hn.
  - apply orb_false_iff in Hn as [Hp _]. destruct p; [discriminate | reflexivity].
  - apply orb_false_iff in Hn as [Hp Hs]. rewrite Hp. f_equal. auto.
Qed.

(** X6. Sending the findings of a review cannot fail the
    review: the promises of [sendViolations] and [sendCommendations] are
    always fulfilled, each makes at most [max 1 retryAttempts] POSTs, and
    with no finding to report nothing is sent at all. *)
Theorem telemetry_never_throws (s : Sender) (post : nat -> Response unit)
    (clock : nat -> string) (vs : list Finding) (cs : list Commendation)
    (context : Context) :
  snd (sendViolations s post clock vs context) = ok tt /\
  snd (sendCommendations s post clock cs context) = ok tt /\
  (posts (fst (sendViolations s post clock vs context))
   <= Nat.max 1 (retryAttempts s))%nat /\
  (posts (fst (sendCommendations s post clock cs context))
   <= Nat.max 1 (retryAttempts s))%nat /\
  (vs = [] -> fst (sendViolations s post clock vs context) = []) /\
  (cs = [] -> fst (sendCommendations s post clock cs context) = []).
Proof.
  unfold sendViolations, sendCommendations, sendEvents.
  assert (Hmax : Nat.max 1 (S (retryAttempts s) - 1) = Nat.max 1 (retryAttempts s)) by lia.
  split; [|split; [|split; [|split; [|split]]]].
  - destruct (negb (enabled s) || (length vs =? 0)%nat); [reflexivity|].
    apply sendEventsFrom_never_throws.
  - destruct (negb (enabled s) || (length cs =? 0)%nat); [reflexivity|].
    apply sendEventsFrom_never_throws.
  - destruct (negb (enabled s) || (length vs =? 0)%nat); [unfold posts; simpl; lia|].
    rewrite <- Hmax. apply sendEventsFrom_bounded. lia.
  - destruct (negb (enabled s) || (length cs =? 0)%nat); [unfold posts; simpl; lia|].
    rewrite <- Hmax. apply sendEventsFrom_bounded. lia.
  - intros ->. simpl. rewrite orb_true_r. reflexivity.
  - intros ->. simpl. rewrite orb_true_r. reflexivity.
Qed.

End TelemetryFacts.

(** Worked instance: a risk of 5000 to 15001 is reported as 10001. *)
Lemma violation_event_cost_witness :
  Telemetry.costOfViolation
    (Telemetry.mapViolationToEvent "2025-01-01T00:00:00.000Z"
       (Detector.sprawlViolation "Private Link" Detector.emptyContext)
       Detector.emptyContext) = 0%Z /\
  Telemetry.costOfViolation
    (Telemetry.mapViolationToEvent "2025-01-01T00:00:00.000Z"
       {| Detector.type := "ALPINE_BASE_IMAGE"; Detector.severity := Detector.HIGH;
          Detector.incident := Some "Alpine Base Image";
          Detector.message := "BASE IMAGE LAW VIOLATED"; Detector.details := "";
          Detector.financialRisk :=
            Some {| Rules.impactMin := 5000; Rules.impactMax := 15001;
                    Rules.impactProven := true |};
          Detector.law := "BASE IMAGE LAW: DEBIAN ONLY, NEVER ALPINE";
          Detector.context := Detector.emptyContext |}
       Detector.emptyContext) = 10001%Z.
Proof.
  split; [reflexivity|].
  refine (proj1 (violation_event_cost "2025-01-01T00:00:00.000Z"
    {| Detector.type := "ALPINE_BASE_IMAGE"; Detector.severity := Detector.HIGH;
       Detector.incident := Some "Alpine Base Image";
       Detector.message := "BASE IMAGE LAW VIOLATED"; Detector.details := "";
       Detector.financialRisk :=
         Some {| Rules.impactMin := 5000; Rules.impactMax := 15001;
                 Rules.impactProven := true |};
       Detector.law := "BASE IMAGE LAW: DEBIAN ONLY, NEVER ALPINE";
       Detector.context := Detector.emptyContext |}
    Detector.emptyContext
    {| Rules.impactMin := 5000; Rules.impactMax := 15001; Rules.impactProven := true |}
    _ _ _)).
  - reflexivity.
  - reflexivity.
  - simpl. lia.
Defined.

(** ** The local rule files *)

Section LoadingFacts.
Import JS Rules Detector Loading.

Lemma readLocal_all (entries : list (string * Result Incident)) :
  Forall (fun e => endsWith (fst e) ".json" = true -> exists inc, snd e = ok inc) entries ->
  forall acc : Registry,
    readLocal entries acc = ok (list_to_map (rev (jsonRules entries)) ∪ acc).
Proof.
  induction 1 as [|[name content] rest Hhead _ IH]; intros acc.
  - simpl. now rewrite (left_id_L ∅ (∪)).
  - simpl in *.
    destruct (endsWith name ".json") eqn:Hjson; [|apply IH].
    destruct (Hhead eq_refl) as [inc ->]. simpl. rewrite IH.
    rewrite list_to_map_app. simpl.
    rewrite <- (assoc_L (∪)), (insert_union_singleton_l acc).
    rewrite insert_empty. reflexivity.
Qed.

(** X7. When the live rules are not available and every
    [.json] file of the local directory can be read, [loadIncidentPatterns]
    reports success and the registry holds, under each identifier, the rule
    of the last [.json] file of the listing that carries it; files of
    another extension are not read, whatever they hold. *)
Theorem loadIncidentPatterns_last_file_wins (env : LoadEnv)
    (entries : list (string * Result Incident)) (d : Detector) :
  tryLive env = None ->
  localDir env = ok entries ->
  Forall (fun e => endsWith (fst e) ".json" = true -> exists inc, snd e = ok inc) entries ->
  loadIncidentPatterns env d
    = (ok true, setIncidents (list_to_map (rev (jsonRules entries))) d) /\
  (forall pre name inc post,
     entries = (pre ++ (name, ok inc) :: post)%list ->
     endsWith name ".json" = true ->
     Forall (fun r => fst r <> id inc) (jsonRules post) ->
     (list_to_map (rev (jsonRules entries)) : Registry) !! id inc = Some inc).
Proof.
  intros Hlive Hdir Hall. split.
  - unfold loadIncidentPatterns. rewrite Hlive, Hdir. simpl.
    rewrite (readLocal_all entries Hall ∅), (right_id_L ∅ (∪)). reflexivity.
  - intros pre name inc post -> Hjson Hpost.
    unfold jsonRules. rewrite omap_app. simpl. rewrite Hjson.
    fold (jsonRules pre). fold (jsonRules post).
    rewrite rev_app_distr. simpl. rewrite <- app_assoc. simpl.
    rewrite list_to_map_app, lookup_union_r.
    + simpl. apply lookup_insert_eq.
    + apply not_elem_of_list_to_map_1.
      intros Hin. apply list_elem_of_fmap in Hin as (r & Hr & Hin').
      apply list_elem_of_In, in_rev in Hin'.
      rewrite List.Forall_forall in Hpost.
      apply (Hpost r); [exact Hin' | now symmetry].
Qed.

End LoadingFacts.

(** Worked instance: of two files with the rule [issue-43], the later one is
    the rule in force. *)
Lemma loadIncidentPatterns_last_file_wins_witness :
  Detector.incidents
    (snd (Detector.loadIncidentPatterns Scenarios.localEnv Detector.newDetector))
  = Some (list_to_map (rev (Loading.jsonRules Scenarios.localListing))) /\
  (list_to_map (rev (Loading.jsonRules Scenarios.localListing)) : Rules.Registry)
    !! "issue-43" = Some Examples.rule43.
Proof.
  assert (Hall : Forall (fun e => JS.endsWith (fst e) ".json" = true ->
                                  exists inc, snd e = JS.ok inc) Scenarios.localListing).
  { unfold Scenarios.localListing.
    apply List.Forall_cons; [intros _; eexists; reflexivity|].
    apply List.Forall_cons; [intros Hjson; vm_compute in Hjson; discriminate|].
    apply List.Forall_cons; [intros _; eexists; reflexivity|].
    apply List.Forall_cons; [intros _; eexists; reflexivity|].
    apply List.Forall_nil. }
  destruct (loadIncidentPatterns_last_file_wins Scenarios.localEnv Scenarios.localListing
              Detector.newDetector eq_refl eq_refl Hall) as [Hrun Hlast].
  split.
  - rewrite Hrun. reflexivity.
  - apply (Hlast [("issue-43.json", JS.ok Examples.malformed43);
                  ("NOTES.md", JS.throw JS.IOError);
                  ("issue-32.json", JS.ok Examples.rule32)]
                 "issue-43-v2.json" Examples.rule43 []).
    + reflexivity.
    + reflexivity.
    + apply List.Forall_nil.
Defined.

(** ** The verdict of a verification run *)

Section VerdictFacts.
Import JS Verifier Verdict Evidence.
Open Scope Q_scope.

(** The first dimension is a constant at the cap. *)
Lemma dimension1_at_cap : exists d, analyzeDimension1_Commits = ok d /\ score d == 95.
Proof. eexists. split; [reflexivity|]. simpl. reflexivity. Qed.

(** With one score at the cap and none above it, the spread of the scores is
    the distance of the lowest one from the cap. *)
Lemma anchored_drift (s1 s2 s3 s4 s5 : Q) :
  s1 == 95 ->
  Forall (fun s => s <= 95) [s2; s3; s4; s5] ->
  Math_max s1 [s2; s3; s4; s5] == 95 /\
  In (Math_min s1 [s2; s3; s4; s5]) [s1; s2; s3; s4; s5] /\
  (forall s, In s [s1; s2; s3; s4; s5] -> Math_min s1 [s2; s3; s4; s5] <= s).
Proof.
  intros H1 Hcap. split; [|split].
  - apply Qle_antisym.
    + pose proof (Math_max_In [s2; s3; s4; s5] s1) as Hin.
      destruct Hin as [<-|Hin]; [rewrite H1; apply Qle_refl|].
      rewrite List.Forall_forall in Hcap. apply Hcap, Hin.
    + rewrite <- H1. apply Math_max_upper. now left.
  - apply Math_min_In.
  - intros s Hs. apply Math_min_lower, Hs.
Qed.

(** The verdict of [correlate5D] when the first score is at the cap and the
    others are not above it. *)
Lemma anchored_verdict (d1 d2 d3 d4 d5 : DimensionResult) :
  score d1 == 95 ->
  Forall (fun d => score d <= 95) [d2; d3; d4; d5] ->
  overallStatus (correlate5D d1 d2 d3 d4 d5) <> INCONSISTENT /\
  (overallStatus (correlate5D d1 d2 d3 d4 d5) = GODEL_COMPLIANT <->
   Forall (fun d => 85 <= score d) [d1; d2; d3; d4; d5]).
Proof.
  intros H1 Hcap.
  assert (Hcap' : Forall (fun s => s <= 95) [score d2; score d3; score d4; score d5]).
  { inversion Hcap as [|? ? H2 Hc2]; subst. inversion Hc2 as [|? ? H3 Hc3]; subst.
    inversion Hc3 as [|? ? H4 Hc4]; subst. inversion Hc4 as [|? ? H5 _]; subst.
    repeat (apply List.Forall_cons; [assumption|]). apply List.Forall_nil. }
  destruct (anchored_drift _ _ _ _ _ H1 Hcap') as (Hmax & Hin & Hlow).
  unfold correlate5D. cbv zeta. cbn [overallStatus].
  set (mx := Math_max (score d1) [score d2; score d3; score d4; score d5]) in *.
  set (mn := Math_min (score d1) [score d2; score d3; score d4; score d5]) in *.
  destruct (Qltb 10 (mx - mn)) eqn:Hdrift.
  - apply Qltb_lt in Hdrift. split; [discriminate|].
    split; [discriminate|]. intros Hall. exfalso.
    rewrite List.Forall_forall in Hall.
    assert (85 <= mn).
    { simpl in Hin. destruct Hin as [E|[E|[E|[E|[E|[]]]]]]; rewrite <- E;
        apply Hall; simpl; auto 10. }
    lra.
  - apply Qltb_ge in Hdrift.
    assert (Hall : forall s, In s [score d1; score d2; score d3; score d4; score d5] ->
                             85 <= s).
    { intros s Hs. specialize (Hlow s Hs). lra. }
    assert (Havg : 85 <= average [score d1; score d2; score d3; score d4; score d5]).
    { rewrite average_five.
      pose proof (Hall (score d1) ltac:(simpl; auto 10)).
      pose proof (Hall (score d2) ltac:(simpl; auto 10)).
      pose proof (Hall (score d3) ltac:(simpl; auto 10)).
      pose proof (Hall (score d4) ltac:(simpl; auto 10)).
      pose proof (Hall (score d5) ltac:(simpl; auto 10)).
      unfold Qdiv. change (/ 5) with (1 # 5). lra. }
    apply Qltb_ge in Havg. rewrite Havg. split; [discriminate|].
    split; [intros _|reflexivity].
    repeat (apply List.Forall_cons; [apply Hall; simpl; auto 10|]). apply List.Forall_nil.
Qed.

(** One [verify()], unfolded: each analyzer returns, within the cap. *)
Lemma verify_run (w : World) :
  exists d1 d2 d3 d4 d5,
    analyzeDimension1_Commits = ok d1 /\
    analyzeDimension2_Corpus w = ok d2 /\
    analyzeDimension3_Evidence w = ok d3 /\
    analyzeDimension4_Temporal w = ok d4 /\
    analyzeDimension5_Financial w = ok d5 /\
    score d1 == 95 /\
    Forall withinCap [d2; d3; d4; d5] /\
    verify w = ok (correlate5D d1 d2 d3 d4 d5).
Proof.
  destruct dimension1_at_cap as (d1 & E1 & H1).
  destruct (dimension2_withinCap w) as (d2 & E2 & H2).
  destruct (dimension3_withinCap w) as (d3 & E3 & H3).
  destruct (dimension4_withinCap w) as (d4 & E4 & H4).
  destruct (dimension5_withinCap w) as (d5 & E5 & H5).
  exists d1, d2, d3, d4, d5. repeat (split; [assumption|]).
  split; [repeat (apply List.Forall_cons; [assumption|]); apply List.Forall_nil|].
  unfold verify. rewrite E1, E2, E3, E4, E5. reflexivity.
Qed.

Lemma withinCap_le (ds : list DimensionResult) :
  Forall withinCap ds -> Forall (fun d => score d <= 95) ds.
Proof. apply List.Forall_impl. intros d [_ H]. exact H. Qed.

(** X8. Every [verify()] returns, and its verdict is never
    INCONSISTENT: it is GODEL_COMPLIANT when every dimension scores at least
    85 and DRIFT_DETECTED otherwise. So [dredd 4d] exits with 0 or 1, and
    with 0 exactly when every dimension scores at least 85. *)
Theorem verify_verdict (w : World) :
  exists r,
    verify w = ok r /\
    overallStatus r <> INCONSISTENT /\
    (overallStatus r = GODEL_COMPLIANT <-> Forall (fun d => 85 <= score d) (dimensions r)) /\
    (overallStatus r = DRIFT_DETECTED <-> Exists (fun d => score d < 85) (dimensions r)) /\
    (exitCode4d (verify w) = 0%Z \/ exitCode4d (verify w) = 1%Z) /\
    (exitCode4d (verify w) = 0%Z <-> Forall (fun d => 85 <= score d) (dimensions r)).
Proof.
  destruct (verify_run w) as (d1 & d2 & d3 & d4 & d5 & _ & _ & _ & _ & _ & H1 & Hcap & Hv).
  destruct (anchored_verdict d1 d2 d3 d4 d5 H1 (withinCap_le _ Hcap)) as [Hnot Hiff].
  exists (correlate5D d1 d2 d3 d4 d5). split; [exact Hv|]. rewrite Hv.
  change (dimensions (correlate5D d1 d2 d3 d4 d5)) with [d1; d2; d3; d4; d5].
  unfold exitCode4d, ok. cbv beta iota.
  split; [exact Hnot|]. split; [exact Hiff|].
  destruct (overallStatus (correlate5D d1 d2 d3 d4 d5)) eqn:Est.
  - destruct Hiff as [Hall _]. specialize (Hall eq_refl).
    split; [|split; [now left | split; [intros _; exact Hall | reflexivity]]].
    split; [discriminate|]. intros Hex. exfalso.
    apply List.Exists_exists in Hex as (d & Hd & Hlt).
    rewrite List.Forall_forall in Hall. specialize (Hall d Hd). lra.
  - assert (Hnall : ~ Forall (fun d => 85 <= score d) [d1; d2; d3; d4; d5]).
    { intros Hall. apply Hiff in Hall. discriminate. }
    split; [|split; [now right | split; [discriminate | intros Hall; contradiction]]].
    split; [intros _|reflexivity].
    apply List.neg_Forall_Exists_neg in Hnall.
    + revert Hnall. apply List.Exists_impl. intros d Hd. lra.
    + intros d. destruct (Qlt_le_dec (score d) 85); [right; lra | now left].
  - contradiction.
Qed.

(** X9. In the result of every [verify()] the cap on the final
    score cuts nothing: the final score is the rounded average, at most 95;
    and the banner of [displayResults] reads that the law is upheld only for
    a GODEL_COMPLIANT run in which every dimension scores at least 92.5. *)
Theorem verify_final_score (w : World) :
  exists r,
    verify w = ok r /\
    finalScore r = avgScore r /\
    (finalScore r <= 95)%Z /\
    (lawUpheld r = true ->
     overallStatus r = GODEL_COMPLIANT /\
     Forall (fun d => 925 # 10 <= score d) (dimensions r)).
Proof.
  destruct (verify_run w) as (d1 & d2 & d3 & d4 & d5 & _ & _ & _ & _ & _ & H1 & Hcap & Hv).
  pose proof (withinCap_le _ Hcap) as Hle.
  destruct (anchored_verdict d1 d2 d3 d4 d5 H1 Hle) as [_ Hiff].
  inversion Hle as [|? ? L2 Hle2]; subst. inversion Hle2 as [|? ? L3 Hle3]; subst.
  inversion Hle3 as [|? ? L4 Hle4]; subst. inversion Hle4 as [|? ? L5 _]; subst.
  exists (correlate5D d1 d2 d3 d4 d5). split; [exact Hv|].
  pose proof (average_five (score d1) (score d2) (score d3) (score d4) (score d5)) as Havg.
  set (avg := average [score d1; score d2; score d3; score d4; score d5]) in *.
  assert (Hbound : avg <= 95).
  { rewrite Havg. unfold Qdiv. change (/ 5) with (1 # 5). lra. }
  assert (Hmin : Qmin avg (inject_Z EPISTEMIC_CAP) == avg).
  { apply Q.min_l. exact Hbound. }
  assert (Hfinal : finalScore (correlate5D d1 d2 d3 d4 d5) = Math_round avg).
  { unfold correlate5D. cbv zeta. cbn [finalScore]. fold avg.
    apply Math_round_comp, Hmin. }
  split; [rewrite Hfinal; reflexivity|].
  pose proof (Math_round_spec avg) as [Hlo Hhi].
  split.
  - rewrite Hfinal.
    assert (inject_Z (Math_round avg) < inject_Z 96) as Hlt.
    { change (inject_Z 96) with 96. lra. }
    rewrite <- Zlt_Qlt in Hlt. lia.
  - unfold lawUpheld. rewrite Hfinal. intros Hup. apply Z.leb_le in Hup.
    unfold EPISTEMIC_CAP in Hup. rewrite Zle_Qle in Hup.
    change (inject_Z 95) with 95 in Hup.
    assert (Hsum : 945 # 10 <= avg) by lra.
    rewrite Havg in Hsum. unfold Qdiv in Hsum. change (/ 5) with (1 # 5) in Hsum.
    assert (Hall : Forall (fun d => 925 # 10 <= score d) [d1; d2; d3; d4; d5]).
    { repeat (apply List.Forall_cons; [lra|]). apply List.Forall_nil. }
    split; [|exact Hall].
    apply Hiff. revert Hall. apply List.Forall_impl. intros d Hd. lra.
Qed.

(** The mocked time of the last commit is always one day back. *)
Lemma calculateTemporalDecay_mock (w : World) :
  calculateTemporalDecay w
  = ok {| lastCommitAge := 1; cveExposure := 1; decayPercent := 0 |}.
Proof.
  unfold calculateTemporalDecay, temporalSince. simpl tryCatch.
  replace (dateNow w - (dateNow w - dayMs))%Z with dayMs by ring.
  change (dayMs / dayMs)%Z with 1%Z. reflexivity.
Qed.

(** X10. Whatever the clock reads, the temporal dimension
    of [verify()] finds the last commit one day old (the time of the last
    commit is a mock), so no decay band is ever entered: the result is always
    a score of 95 with status PASSED. *)
Theorem temporal_dimension_is_constant (w : World) :
  calculateTemporalDecay w
  = ok {| lastCommitAge := 1; cveExposure := 1; decayPercent := 0 |} /\
  exists d,
    analyzeDimension4_Temporal w = ok d /\
    score d == 95 /\ status d = DimStatus.PASSED /\ confidence d = 95%Z /\
    d <> dimension4Estimated.
Proof.
  split; [apply calculateTemporalDecay_mock|].
  unfold analyzeDimension4_Temporal. rewrite calculateTemporalDecay_mock.
  eexists. split; [reflexivity|].
  split; [vm_compute; reflexivity|]. split; [reflexivity|]. split; [reflexivity|].
  discriminate.
Qed.

(** [validateCorpusAlignment] always returns; its score is at most 95 and
    [aligned] says that it is at least 90. *)
Lemma validateCorpusAlignment_aligned (w : World) :
  exists c,
    validateCorpusAlignment w = ok c /\
    (0 <= checksScore c <= 95)%Z /\
    aligned c = (90 <=? checksScore c)%Z.
Proof.
  destruct (validateCorpusAlignment_ok w) as (c & Ec & Hc).
  exists c. split; [exact Ec|]. revert Ec Hc.
  unfold validateCorpusAlignment.
  destruct (corpusFile w) as [| |content]; simpl.
  - intros [= <-] _. simpl. split; [lia | reflexivity].
  - intros [= <-] _. simpl. split; [lia | reflexivity].
  - intros [= <-] Hc. cbn [checksScore aligned] in *. split; [lia | reflexivity].
Qed.

(** X11. The corpus dimension never takes its error result:
    without a corpus file it is FAILED with score 0 and confidence 0;
    otherwise it has confidence 95 and is either PASSED with score 95 (every
    corpus score from 90 on is reported as 95) or DRIFT_DETECTED with a score
    between 0 and 89; a corpus file that cannot be read gives DRIFT_DETECTED
    with score 0. No score from 90 to 94 is ever reported. *)
Theorem corpus_dimension_scores (w : World) :
  exists d,
    analyzeDimension2_Corpus w = ok d /\
    d <> dimension2Error /\
    (corpusFile w = NoFile -> d = dimension2Failed) /\
    (corpusFile w <> NoFile ->
     confidence d = 95%Z /\
     (status d = DimStatus.PASSED /\ score d == 95 \/
      status d = DimStatus.DRIFT_DETECTED /\ 0 <= score d /\ score d <= 89)) /\
    (corpusFile w = BadFile -> status d = DimStatus.DRIFT_DETECTED /\ score d == 0) /\
    ~ (89 < score d /\ score d < 95).
Proof.
  destruct (validateCorpusAlignment_aligned w) as (c & Ec & Hrange & Hal).
  unfold analyzeDimension2_Corpus.
  assert (Hbody :
    forall s : Z, (0 <= s <= 95)%Z -> forall al : bool, al = (90 <=? s)%Z ->
      let d := {| dimension := 2; name := "Corpus Alignment";
                  score := inject_Z (Z.min (if al then 95%Z else s) EPISTEMIC_CAP);
                  confidence := 95;
                  status := if (corpus thresholds <=? (if al then 95%Z else s))%Z
                            then DimStatus.PASSED else DimStatus.DRIFT_DETECTED |} in
      (status d = DimStatus.PASSED /\ score d == 95 \/
       status d = DimStatus.DRIFT_DETECTED /\ 0 <= score d /\ score d <= 89)).
  { intros s Hs al ->. cbv zeta. cbn [status score]. unfold EPISTEMIC_CAP.
    destruct (90 <=? s)%Z eqn:H90.
    - left. split; reflexivity.
    - right. apply Z.leb_gt in H90.
      assert ((corpus thresholds <=? s)%Z = false) as -> by (apply Z.leb_gt; simpl; lia).
      split; [reflexivity|]. rewrite Z.min_l by lia.
      split; [change 0 with (inject_Z 0) | change 89 with (inject_Z 89)];
        rewrite <- Zle_Qle; lia. }
  destruct (corpusFile w) as [| |content] eqn:Efile.
  - exists dimension2Failed. simpl. split; [reflexivity|]. split; [discriminate|].
    split; [reflexivity|]. split; [congruence|]. split; [discriminate|].
    intros [H _]. vm_compute in H. discriminate.
  - rewrite Ec. simpl. eexists. split; [reflexivity|]. split; [discriminate|].
    split; [discriminate|].
    pose proof (Hbody (checksScore c) Hrange (aligned c) Hal) as Hb. cbv zeta in Hb.
    split; [intros _; split; [reflexivity | exact Hb]|].
    split.
    + intros _. revert Ec. unfold validateCorpusAlignment. rewrite Efile. simpl.
      intros [= <-]. split; [reflexivity | vm_compute; reflexivity].
    + cbn [score]. cbn [status score] in Hb. intros [Hlo Hhi].
      destruct Hb as [[_ Hb]|[_ [_ Hb]]]; lra.
  - rewrite Ec. simpl. eexists. split; [reflexivity|]. split; [discriminate|].
    split; [discriminate|].
    pose proof (Hbody (checksScore c) Hrange (aligned c) Hal) as Hb. cbv zeta in Hb.
    split; [intros _; split; [reflexivity | exact Hb]|].
    split; [discriminate|].
    cbn [score]. cbn [status score] in Hb. intros [Hlo Hhi].
    destruct Hb as [[_ Hb]|[_ [_ Hb]]]; lra.
Qed.

(** The health score counts the healthy endpoints in steps of 25. *)
Lemma fetchProductionEvidence_steps (w : World) :
  exists e,
    fetchProductionEvidence w = ok e /\
    In (healthScore e) [0; 25; 50; 75; 100]%Z /\
    (allHealthy e = true -> healthScore e = 100%Z).
Proof.
  unfold fetchProductionEvidence, endpoints. cbn [map].
  eexists. split; [reflexivity|]. cbn [healthScore allHealthy List.filter].
  destruct (isHealthy (axiosGet w "/api/incidents")),
           (isHealthy (axiosGet w "/api/patents")),
           (isHealthy (axiosGet w "/api/cloudflare-bypass-evidence")),
           (isHealthy (axiosGet w "/health"));
    vm_compute; (split; [tauto | congruence]).
Qed.

(** The analytics score is 95 with data and 50 without. *)
Lemma checkCloudflareAnalytics_two (w : World) :
  exists e,
    checkCloudflareAnalytics w = ok e /\
    (hasData e = true /\ analyticsScore e = 95%Z \/
     hasData e = false /\ analyticsScore e = 50%Z).
Proof.
  unfold checkCloudflareAnalytics.
  destruct (cfDir w) as [| |entries]; simpl;
    try (eexists; split; [reflexivity | right; split; reflexivity]).
  destruct (rev _) as [|[n latest] rest]; simpl;
    try (eexists; split; [reflexivity | right; split; reflexivity]).
  destruct latest as [e|views]; simpl;
    try (eexists; split; [reflexivity | right; split; reflexivity]).
  destruct (0 <? views)%Z; eexists; (split; [reflexivity|]);
    [left | right]; split; reflexivity.
Qed.

(** The security score is at most 95; a clean record has 95. *)
Lemma checkVirusTotalEvidence_range (w : World) :
  countsNotNegative w ->
  exists e,
    checkVirusTotalEvidence w = ok e /\
    (0 <= securityScore e <= 95)%Z /\
    (allClean e = true -> securityScore e = 95%Z) /\
    (hasMalicious e = true -> (securityScore e <= 85)%Z /\ allClean e = false).
Proof.
  unfold checkVirusTotalEvidence, countsNotNegative.
  destruct (vtDir w) as [| |entries]; simpl;
    try (intros _; eexists; split; [reflexivity |
           split; [simpl; lia | split; discriminate]]).
  fold (vtTotals entries). intros [Hm Hs].
  destruct (length _ =? 0)%nat;
    try (eexists; split; [reflexivity | split; [simpl; lia | split; discriminate]]).
  set (t := vtTotals entries) in *.
  destruct (scans t =? 0)%nat eqn:Hsc.
  - eexists. split; [reflexivity|]. cbn [securityScore allClean hasMalicious].
    apply Nat.eqb_eq in Hsc. rewrite Hsc. simpl. rewrite andb_false_r.
    split; [destruct (0 <? skippedScans t)%nat; lia|]. split; [discriminate|].
    intros Hmal. split; [destruct (0 <? skippedScans t)%nat; lia | reflexivity].
  - destruct ((totalMalicious t =? 0)%Z && (0 <? scans t)%nat) eqn:Hc.
    + eexists. split; [reflexivity|]. cbn [securityScore allClean hasMalicious].
      split; [lia|]. split; [reflexivity|].
      apply andb_true_iff in Hc as [Hz _]. apply Z.eqb_eq in Hz. rewrite Hz.
      discriminate.
    + eexists. split; [reflexivity|]. cbn [securityScore allClean hasMalicious].
      split; [lia|]. split; [discriminate|].
      intros Hmal. apply Z.ltb_lt in Hmal. split; [lia | reflexivity].
Qed.

(** Dimension 3, from the three pieces of evidence. *)
Lemma dimension3_run (w : World) (api : ApiEvidence) (vt : VtEvidence) (cf : CfEvidence) :
  fetchProductionEvidence w = ok api ->
  checkVirusTotalEvidence w = ok vt ->
  checkCloudflareAnalytics w = ok cf ->
  exists d,
    analyzeDimension3_Evidence w = ok d /\
    score d = inject_Z (Z.min (evidenceScore api vt cf) EPISTEMIC_CAP) /\
    status d = (if hasMalicious vt then DimStatus.MALICIOUS_DETECTED
                else if (evidenceScore api vt cf <? evidence thresholds)%Z
                     then DimStatus.DEGRADED else DimStatus.PASSED) /\
    confidence d = 95%Z.
Proof.
  intros Ea Ev Ec. unfold analyzeDimension3_Evidence. rewrite Ea, Ev, Ec.
  eexists. split; [reflexivity|]. split; [reflexivity|]. split; reflexivity.
Qed.

(** The weighted score when some detection is malicious. *)
Lemma evidenceScore_malicious (api : ApiEvidence) (vt : VtEvidence) (cf : CfEvidence) :
  In (healthScore api) [0; 25; 50; 75; 100]%Z ->
  (securityScore vt <= 85)%Z -> allClean vt = false ->
  (analyticsScore cf <= 95)%Z ->
  (evidenceScore api vt cf <= 94)%Z.
Proof.
  intros Hh Hv Hc Ha. unfold evidenceScore. rewrite Hc, andb_false_r. simpl andb. cbv iota.
  set (x := (inject_Z (healthScore api) * (4 # 10) + inject_Z (securityScore vt) * (3 # 10)
             + inject_Z (analyticsScore cf) * (3 # 10))%Q).
  pose proof (Math_round_spec x) as [Hlo _].
  assert (Hx : x <= 94).
  { subst x.
    assert (inject_Z (healthScore api) <= 100).
    { change 100 with (inject_Z 100). rewrite <- Zle_Qle. simpl in Hh.
      destruct Hh as [<-|[<-|[<-|[<-|[<-|[]]]]]]; lia. }
    assert (inject_Z (securityScore vt) <= 85).
    { change 85 with (inject_Z 85). rewrite <- Zle_Qle. exact Hv. }
    assert (inject_Z (analyticsScore cf) <= 95).
    { change 95 with (inject_Z 95). rewrite <- Zle_Qle. exact Ha. }
    lra. }
  assert (Hr : inject_Z (Math_round x) < inject_Z 95).
  { change (inject_Z 95) with 95. lra. }
  rewrite <- Zlt_Qlt in Hr. lia.
Qed.

(** X12. With at least one completed VirusTotal scan on file and
    detection totals that are not negative: suspicious detections alone cost
    nothing (without a malicious detection the security score is 95 and the
    record counts as clean), while any malicious detection brings the
    security score to [max 0 (95 - min 100 (10 * malicious + 5 * suspicious))],
    at most 85, and makes dimension 3 MALICIOUS_DETECTED with a score of at
    most 94. *)
Theorem virustotal_detections (w : World) (entries : list (string * Result VtFile)) :
  vtDir w = Listing entries ->
  (1 <= scans (vtTotals entries))%nat ->
  (0 <= totalMalicious (vtTotals entries))%Z ->
  (0 <= totalSuspicious (vtTotals entries))%Z ->
  exists e d,
    checkVirusTotalEvidence w = ok e /\
    analyzeDimension3_Evidence w = ok d /\
    (totalMalicious (vtTotals entries) = 0%Z ->
     securityScore e = 95%Z /\ allClean e = true /\
     status d <> DimStatus.MALICIOUS_DETECTED) /\
    ((0 < totalMalicious (vtTotals entries))%Z ->
     securityScore e
       = Z.max 0 (95 - Z.min 100 (totalMalicious (vtTotals entries) * 10
                                  + totalSuspicious (vtTotals entries) * 5)) /\
     (securityScore e <= 85)%Z /\
     status d = DimStatus.MALICIOUS_DETECTED /\
     score d <= 94).
Proof.
  intros Hdir Hscans Hm Hs.
  destruct (fetchProductionEvidence_steps w) as (api & Ea & Hsteps & _).
  destruct (checkCloudflareAnalytics_two w) as (cf & Ec & Hcf).
  assert (Hev : exists e,
    checkVirusTotalEvidence w = ok e /\
    hasMalicious e = (0 <? totalMalicious (vtTotals entries))%Z /\
    allClean e = (totalMalicious (vtTotals entries) =? 0)%Z /\
    securityScore e
      = if (totalMalicious (vtTotals entries) =? 0)%Z then 95%Z
        else Z.max 0 (95 - Z.min 100 (totalMalicious (vtTotals entries) * 10
                                      + totalSuspicious (vtTotals entries) * 5))).
  { unfold checkVirusTotalEvidence. rewrite Hdir. simpl tryCatch.
    fold (vtTotals entries).
    destruct (length _ =? 0)%nat eqn:Hlen.
    { exfalso. apply Nat.eqb_eq, length_zero_iff_nil in Hlen.
      unfold vtTotals in Hscans. rewrite Hlen in Hscans. simpl in Hscans. lia. }
    assert ((scans (vtTotals entries) =? 0)%nat = false) as -> by (apply Nat.eqb_neq; lia).
    assert ((0 <? scans (vtTotals entries))%nat = true) as -> by (apply Nat.ltb_lt; lia).
    rewrite andb_true_r.
    destruct (totalMalicious (vtTotals entries) =? 0)%Z;
      eexists; (split; [reflexivity|]); cbn [hasMalicious allClean securityScore];
      split; try reflexivity; split; reflexivity. }
  destruct Hev as (e & Ee & Hmal & Hclean & Hscore).
  destruct (dimension3_run w api e cf Ea Ee Ec) as (d & Ed & Hd & Hst & _).
  exists e, d. split; [exact Ee|]. split; [exact Ed|]. split.
  - intros Hz. rewrite Hz in *. simpl in Hmal, Hclean, Hscore.
    split; [exact Hscore|]. split; [exact Hclean|].
    rewrite Hst, Hmal. change (0 <? 0)%Z with false. cbv iota.
    destruct (evidenceScore api e cf <? evidence thresholds)%Z; discriminate.
  - intros Hpos.
    assert ((totalMalicious (vtTotals entries) =? 0)%Z = false) as Hnz
      by (apply Z.eqb_neq; lia).
    rewrite Hnz in *. apply Z.ltb_lt in Hpos as Hpos'. rewrite Hpos' in Hmal.
    assert (Hle : (securityScore e <= 85)%Z) by (rewrite Hscore; lia).
    split; [exact Hscore|]. split; [exact Hle|].
    split; [rewrite Hst, Hmal; reflexivity|].
    rewrite Hd.
    assert (Hcf95 : (analyticsScore cf <= 95)%Z) by (destruct Hcf as [[_ ->]|[_ ->]]; lia).
    pose proof (evidenceScore_malicious api e cf Hsteps Hle Hclean Hcf95) as H94.
    change 94 with (inject_Z 94). rewrite <- Zle_Qle. unfold EPISTEMIC_CAP. lia.
Qed.

(** The financial score is 95 with a positive total of avoided cost on file
    and 50 otherwise. *)
Lemma checkFinancialEfficiency_two (w : World) :
  exists fin,
    checkFinancialEfficiency w = ok fin /\
    (financialScore fin = 95%Z /\ (0 < totalAvoidedCost fin)%Z \/
     financialScore fin = 50%Z).
Proof.
  unfold checkFinancialEfficiency.
  destruct (financialDir w) as [| |entries]; simpl;
    try (eexists; split; [reflexivity | right; reflexivity]).
  destruct (length _ =? 0)%nat;
    try (eexists; split; [reflexivity | right; reflexivity]).
  eexists. split; [reflexivity|]. cbn [financialScore totalAvoidedCost].
  destruct (0 <? _)%Z eqn:Hpos; [left | right; reflexivity].
  split; [reflexivity | now apply Z.ltb_lt].
Qed.

(** What a score of dimension 3 of at least 85 takes. *)
Lemma evidenceScore_passing (api : ApiEvidence) (vt : VtEvidence) (cf : CfEvidence) :
  In (healthScore api) [0; 25; 50; 75; 100]%Z ->
  (allHealthy api = true -> healthScore api = 100%Z) ->
  (0 <= securityScore vt <= 95)%Z ->
  (allClean vt = true -> securityScore vt = 95%Z) ->
  (hasData cf = true /\ analyticsScore cf = 95%Z \/
   hasData cf = false /\ analyticsScore cf = 50%Z) ->
  (85 <= evidenceScore api vt cf)%Z ->
  (75 <= healthScore api)%Z /\ (54 <= securityScore vt)%Z /\ hasData cf = true.
Proof.
  intros Hh Hall Hv Hclean Hcf. unfold evidenceScore.
  destruct (allHealthy api && allClean vt && hasData cf) eqn:Hflag.
  - intros _. apply andb_true_iff in Hflag as [Hflag Hdata].
    apply andb_true_iff in Hflag as [Hhealthy Hcl].
    rewrite (Hall Hhealthy), (Hclean Hcl). split; [lia|]. split; [lia | exact Hdata].
  - set (x := (inject_Z (healthScore api) * (4 # 10) + inject_Z (securityScore vt) * (3 # 10)
               + inject_Z (analyticsScore cf) * (3 # 10))%Q).
    intros Hge. pose proof (Math_round_spec x) as [Hlo _].
    assert (Hx : 845 # 10 <= x).
    { rewrite Zle_Qle in Hge. change (inject_Z 85) with 85 in Hge.
      revert Hlo Hge. generalize (inject_Z (Math_round x)). intros rz Hlo Hge. lra. }
    destruct Hv as [Hv0 Hv95]. rewrite Zle_Qle in Hv0, Hv95.
    change (inject_Z 0) with 0 in Hv0. change (inject_Z 95) with 95 in Hv95.
    subst x.
    assert (Hsec : (securityScore vt < 54)%Z -> inject_Z (securityScore vt) <= 53).
    { intros Hlt. change 53 with (inject_Z 53). rewrite <- Zle_Qle. lia. }
    destruct (Z_lt_le_dec (securityScore vt) 54) as [Hlow|Hok].
    + exfalso. specialize (Hsec Hlow).
      simpl in Hh.
      destruct Hcf as [[_ Ec]|[_ Ec]]; rewrite Ec in Hx;
        destruct Hh as [E|[E|[E|[E|[E|[]]]]]]; rewrite <- E in Hx;
        change (inject_Z 0) with 0 in Hx; change (inject_Z 25) with 25 in Hx;
        change (inject_Z 50) with 50 in Hx; change (inject_Z 75) with 75 in Hx;
        change (inject_Z 100) with 100 in Hx; change (inject_Z 95) with 95 in Hx; lra.
    + simpl in Hh.
      destruct Hcf as [[Hdata Ec]|[_ Ec]]; rewrite Ec in Hx;
        destruct Hh as [E|[E|[E|[E|[E|[]]]]]]; rewrite <- E in Hx |- *;
        change (inject_Z 0) with 0 in Hx; change (inject_Z 25) with 25 in Hx;
        change (inject_Z 50) with 50 in Hx; change (inject_Z 75) with 75 in Hx;
        change (inject_Z 100) with 100 in Hx; change (inject_Z 95) with 95 in Hx;
        try (exfalso; lra); (split; [lia | split; [exact Hok | exact Hdata]]).
Qed.

(** A health score of at least 75 takes three healthy endpoints. *)
Lemma fetchProductionEvidence_count (w : World) (api : ApiEvidence) :
  fetchProductionEvidence w = ok api ->
  (75 <= healthScore api)%Z ->
  (3 <= length (List.filter isHealthy (map (axiosGet w) endpoints)))%nat.
Proof.
  unfold fetchProductionEvidence, endpoints. cbn [map]. intros [= <-].
  cbn [healthScore List.filter].
  destruct (isHealthy (axiosGet w "/api/incidents")),
           (isHealthy (axiosGet w "/api/patents")),
           (isHealthy (axiosGet w "/api/cloudflare-bypass-evidence")),
           (isHealthy (axiosGet w "/health"));
    vm_compute; intros Hscore; first [lia | contradiction Hscore; reflexivity | idtac].
Qed.

(** A security score above the neutral one takes an evidence file. *)
Lemma checkVirusTotalEvidence_files (w : World) (vt : VtEvidence) :
  checkVirusTotalEvidence w = ok vt ->
  (54 <= securityScore vt)%Z ->
  exists entries name content,
    vtDir w = Listing entries /\ In (name, content) entries /\
    endsWith name ".json" = true.
Proof.
  unfold checkVirusTotalEvidence.
  destruct (vtDir w) as [| |entries]; simpl.
  - intros [= <-]. simpl. lia.
  - intros [= <-]. simpl. lia.
  - destruct (List.filter _ entries) as [|[name content] rest] eqn:Hfiles.
    + simpl. intros [= <-]. simpl. lia.
    + intros _ _. exists entries, name, content. split; [reflexivity|].
      assert (Hin : In (name, content)
                       (List.filter (fun e => endsWith (fst e) ".json") entries))
        by (rewrite Hfiles; now left).
      apply List.filter_In in Hin. exact Hin.
Qed.

(** X13. A [verify()] whose detection counts are not negative is
    GODEL_COMPLIANT only with all of this in place: a corpus file that reads;
    a health score of at least 75, so at least three of the four production
    endpoints answer 200; a security score of at least 54, so a VirusTotal
    evidence file on record; Cloudflare analytics with page views; and
    financial evidence with a positive total of avoided cost. *)
Theorem compliance_needs_evidence (w : World) (r : CorrelationResult) :
  countsNotNegative w ->
  verify w = ok r ->
  overallStatus r = GODEL_COMPLIANT ->
  (exists content, corpusFile w = Contents content) /\
  (exists api, fetchProductionEvidence w = ok api /\ (75 <= healthScore api)%Z) /\
  (3 <= length (List.filter isHealthy (map (axiosGet w) endpoints)))%nat /\
  (exists vt, checkVirusTotalEvidence w = ok vt /\ (54 <= securityScore vt)%Z) /\
  (exists entries name content,
     vtDir w = Listing entries /\ In (name, content) entries /\
     endsWith name ".json" = true) /\
  (exists cf, checkCloudflareAnalytics w = ok cf /\ hasData cf = true) /\
  (exists fin, checkFinancialEfficiency w = ok fin /\ (0 < totalAvoidedCost fin)%Z).
Proof.
  intros Hcounts Hv Hst.
  destruct (verify_run w) as (d1 & d2 & d3 & d4 & d5 & _ & E2 & E3 & _ & E5 & H1 & Hcap & Hv').
  rewrite Hv' in Hv. injection Hv as <-.
  destruct (anchored_verdict d1 d2 d3 d4 d5 H1 (withinCap_le _ Hcap)) as [_ Hiff].
  apply Hiff in Hst.
  inversion Hst as [|? ? _ Hst2]; subst. inversion Hst2 as [|? ? S2 Hst3]; subst.
  inversion Hst3 as [|? ? S3 Hst4]; subst. inversion Hst4 as [|? ? _ Hst5]; subst.
  inversion Hst5 as [|? ? S5 _]; subst.
  destruct (fetchProductionEvidence_steps w) as (api & Ea & Hsteps & Hall).
  destruct (checkVirusTotalEvidence_range w Hcounts) as (vt & Ev & Hrange & Hclean & _).
  destruct (checkCloudflareAnalytics_two w) as (cf & Ec & Hcf).
  destruct (dimension3_run w api vt cf Ea Ev Ec) as (d & Ed & Hd & _).
  rewrite E3 in Ed. injection Ed as <-.
  rewrite Hd in S3. change 85 with (inject_Z 85) in S3. rewrite <- Zle_Qle in S3.
  assert (H85 : (85 <= evidenceScore api vt cf)%Z) by (unfold EPISTEMIC_CAP in S3; lia).
  destruct (evidenceScore_passing api vt cf Hsteps Hall Hrange Hclean Hcf H85)
    as (Hh & Hs & Hdata).
  split; [|split; [|split; [|split; [|split; [|split]]]]].
  - revert E2. unfold analyzeDimension2_Corpus, validateCorpusAlignment.
    destruct (corpusFile w) as [| |content]; simpl.
    + intros [= <-]. vm_compute in S2. contradiction S2. reflexivity.
    + intros [= <-]. vm_compute in S2. contradiction S2. reflexivity.
    + intros _. now exists content.
  - exists api. split; [exact Ea | exact Hh].
  - exact (fetchProductionEvidence_count w api Ea Hh).
  - exists vt. split; [exact Ev | exact Hs].
  - exact (checkVirusTotalEvidence_files w vt Ev Hs).
  - exists cf. split; [exact Ec | exact Hdata].
  - destruct (checkFinancialEfficiency_two w) as (fin & Ef & Hfin).
    exists fin. split; [exact Ef|].
    revert E5. unfold analyzeDimension5_Financial. rewrite Ef. simpl.
    intros [= <-]. cbn [score] in S5.
    destruct Hfin as [[_ Hpos]|E50]; [exact Hpos|].
    rewrite E50 in S5. vm_compute in S5. contradiction S5. reflexivity.
Qed.

End VerdictFacts.

(** Worked instance: the world with all evidence in place is compliant. *)
Lemma compliance_needs_evidence_witness :
  (exists r, Verifier.verify Evidence.healthyWorld = JS.ok r /\
             Verifier.overallStatus r = Verifier.GODEL_COMPLIANT) /\
  exists cf, Verifier.checkCloudflareAnalytics Evidence.healthyWorld = JS.ok cf /\
             Verifier.hasData cf = true.
Proof.
  assert (Hrun : exists r, Verifier.verify Evidence.healthyWorld = JS.ok r /\
                           Verifier.overallStatus r = Verifier.GODEL_COMPLIANT).
  { eexists. split; [vm_compute; reflexivity | reflexivity]. }
  split; [exact Hrun|].
  destruct Hrun as (r & Hv & Hst).
  refine (proj1 (proj2 (proj2 (proj2 (proj2 (proj2
            (compliance_needs_evidence Evidence.healthyWorld r _ Hv Hst))))))).
  vm_compute. split; discriminate.
Defined.

(** Worked instances: two suspicious detections leave the record clean; one
    malicious detection among them costs twenty points. *)
Lemma virustotal_detections_witness :
  (exists e, Verifier.checkVirusTotalEvidence Evidence.healthyWorld = JS.ok e /\
             Verifier.securityScore e = 95%Z) /\
  (exists e, Verifier.checkVirusTotalEvidence Evidence.infectedWorld = JS.ok e /\
             Verifier.securityScore e = 75%Z).
Proof.
  split.
  - destruct (virustotal_detections Evidence.healthyWorld
                [("api-virustotal-evidence.json",
                  JS.ok {| Verifier.scan_skipped := false; Verifier.malicious := 0;
                           Verifier.suspicious := 2; Verifier.scanStatus := "CLEAN" |})]
                eq_refl) as (e & d & He & _ & Hclean & _).
    + vm_compute. lia.
    + vm_compute. discriminate.
    + vm_compute. discriminate.
    + exists e. split; [exact He|]. apply Hclean. reflexivity.
  - destruct (virustotal_detections Evidence.infectedWorld
                [("api-virustotal-evidence.json",
                  JS.ok {| Verifier.scan_skipped := false; Verifier.malicious := 1;
                           Verifier.suspicious := 2; Verifier.scanStatus := "MALICIOUS" |})]
                eq_refl) as (e & d & He & _ & _ & Hmal).
    + vm_compute. lia.
    + vm_compute. discriminate.
    + vm_compute. discriminate.
    + exists e. split; [exact He|]. apply Hmal. reflexivity.
Defined.

(** ** The scores that a run correlates *)

Section WholeFacts.
Import JS Verifier Scores.
Local Open Scope Q_scope.

(** A score that is an integer within the cap is a whole score. *)
Lemma whole_within_cap (d : DimensionResult) (z : Z) :
  score d = inject_Z z -> withinCap d -> wholeScore d = true.
Proof.
  intros Hz [H0 H95]. unfold wholeScore. rewrite Hz in *. rewrite Qfloor_Z.
  apply andb_true_intro. split.
  - apply Qeq_bool_iff. reflexivity.
  - apply Z.leb_le. change 0 with (inject_Z 0) in H0.
    rewrite <- Zle_Qle in H0, H95. unfold EPISTEMIC_CAP in H95.
    change (2 ^ 31)%Z with 2147483648%Z. lia.
Qed.

Lemma analyzers_return_integers (w : World) (a : World -> Result DimensionResult)
    (d : DimensionResult) :
  In a analyzers -> a w = ok d -> exists z, score d = inject_Z z.
Proof.
  unfold analyzers. intros [<-|[<-|[<-|[<-|[<-|[]]]]]].
  - intros [= <-]. now exists 95%Z.
  - unfold analyzeDimension2_Corpus.
    destruct (validateCorpusAlignment_ok w) as (c & Hc & _).
    destruct (corpusFile w); simpl; [intros [= <-]; now exists 0%Z| |];
      rewrite Hc; simpl; intros [= <-]; eexists; reflexivity.
  - unfold analyzeDimension3_Evidence.
    destruct (fetchProductionEvidence_ok w) as (x & -> & _).
    destruct (checkVirusTotalEvidence_ok w) as (v & -> & _).
    destruct (checkCloudflareAnalytics_ok w) as (c & -> & _).
    simpl. intros [= <-]. eexists; reflexivity.
  - unfold analyzeDimension4_Temporal. rewrite calculateTemporalDecay_mock.
    simpl. intros [= <-]. now exists 95%Z.
  - unfold analyzeDimension5_Financial.
    destruct (checkFinancialEfficiency_ok w) as (f & -> & _).
    simpl. intros [= <-]. eexists; reflexivity.
Qed.

(** The five scores that [verify()] hands to [correlate5D] are whole. *)
Lemma verify_scores_whole (w : World) :
  exists d1 d2 d3 d4 d5,
    verify w = ok (correlate5D d1 d2 d3 d4 d5) /\
    Forall (fun d => wholeScore d = true) [d1; d2; d3; d4; d5].
Proof.
  destruct (verify_run w)
    as (d1 & d2 & d3 & d4 & d5 & E1 & E2 & E3 & E4 & E5 & H1 & Hcap & Hv).
  exists d1, d2, d3, d4, d5. split; [exact Hv|].
  inversion Hcap as [|? ? C2 Hcap3]; subst. inversion Hcap3 as [|? ? C3 Hcap4]; subst.
  inversion Hcap4 as [|? ? C4 Hcap5]; subst. inversion Hcap5 as [|? ? C5 _]; subst.
  assert (C1 : withinCap d1).
  { unfold withinCap. rewrite H1. split; vm_compute; discriminate. }
  assert (Hw : forall a d, In a analyzers -> a w = ok d -> withinCap d ->
                           wholeScore d = true).
  { intros a d Ha Hd Hc. destruct (analyzers_return_integers w a d Ha Hd) as [z Hz].
    exact (whole_within_cap d z Hz Hc). }
  repeat apply List.Forall_cons; [| | | | |apply List.Forall_nil].
  - apply (Hw (fun _ => analyzeDimension1_Commits)); [simpl; auto|exact E1|exact C1].
  - apply (Hw analyzeDimension2_Corpus); [simpl; auto|exact E2|exact C2].
  - apply (Hw analyzeDimension3_Evidence); [simpl; auto|exact E3|exact C3].
  - apply (Hw analyzeDimension4_Temporal); [simpl; auto 6|exact E4|exact C4].
  - apply (Hw analyzeDimension5_Financial); [simpl; auto 6|exact E5|exact C5].
Qed.
End WholeFacts.

(** ** The order of the evidence files *)

Section SortingFacts.
Import JS Verifier Ordering.

Lemma ascii_compare_refl (c : ascii) : Ascii.compare c c = Eq.
Proof. unfold Ascii.compare. apply N.compare_refl. Qed.

Lemma string_leb_refl (s : string) : String.leb s s = true.
Proof.
  unfold String.leb. induction s as [|c s IH]; [reflexivity|].
  simpl. rewrite ascii_compare_refl. exact IH.
Qed.

Lemma string_leb_trans (a : string) :
  forall b c, String.leb a b = true -> String.leb b c = true -> String.leb a c = true.
Proof.
  unfold String.leb.
  induction a as [|x a IH]; intros [|y b] [|z c]; simpl; try congruence.
  unfold Ascii.compare.
  destruct (N.compare_spec (N_of_ascii x) (N_of_ascii y)) as [Exy|Lxy|Gxy];
    destruct (N.compare_spec (N_of_ascii y) (N_of_ascii z)) as [Eyz|Lyz|Gyz];
    try congruence.
  - rewrite Exy, Eyz, N.compare_refl. apply IH.
  - intros _ _. rewrite Exy. apply N.compare_lt_iff in Lyz. now rewrite Lyz.
  - intros _ _. rewrite <- Eyz. apply N.compare_lt_iff in Lxy. now rewrite Lxy.
  - intros _ _. assert (H : (N_of_ascii x < N_of_ascii z)%N) by lia.
    apply N.compare_lt_iff in H. now rewrite H.
Qed.

Lemma insertByName_In {A} (e x : string * A) (l : list (string * A)) :
  In x (insertByName e l) <-> x = e \/ In x l.
Proof.
  induction l as [|y l IH]; simpl; [intuition congruence|].
  destruct (String.leb (fst e) (fst y)); simpl; [intuition congruence|].
  rewrite IH. intuition congruence.
Qed.

Lemma sortByName_In {A} (x : string * A) (l : list (string * A)) :
  In x (sortByName l) <-> In x l.
Proof.
  induction l as [|y l IH]; simpl; [tauto|].
  rewrite insertByName_In, IH. intuition congruence.
Qed.

Lemma insertByName_ascending {A} (e : string * A) (l : list (string * A)) :
  ascending l -> ascending (insertByName e l).
Proof.
  induction l as [|y l IH]; simpl.
  - intros _. split; [constructor | exact I].
  - intros [Hy Hs]. destruct (String.leb (fst e) (fst y)) eqn:Hle; simpl.
    + split; [|split; assumption].
      constructor; [exact Hle|].
      revert Hy. apply List.Forall_impl. intros z Hz.
      unfold nameLe in *. eapply string_leb_trans; eassumption.
    + split; [|now apply IH].
      apply List.Forall_forall. intros z Hz. apply insertByName_In in Hz as [->|Hz].
      * unfold nameLe. destruct (String.leb_total (fst y) (fst e)) as [H|H]; congruence.
      * rewrite List.Forall_forall in Hy. now apply Hy.
Qed.

Lemma sortByName_ascending {A} (l : list (string * A)) : ascending (sortByName l).
Proof.
  induction l as [|y l IH]; simpl; [exact I|]. now apply insertByName_ascending.
Qed.

(** The first of an ascending list taken in reverse is its greatest element. *)
Lemma ascending_rev_head {A} (l : list (string * A)) :
  ascending l ->
  forall e rest, rev l = e :: rest -> In e l /\ forall x, In x l -> nameLe x e.
Proof.
  induction l as [|y l IH]; intros Hs e rest Hrev; [discriminate|].
  destruct Hs as [Hy Hs].
  simpl in Hrev. destruct (rev l) as [|e' rest'] eqn:Erev.
  - simpl in Hrev. injection Hrev as <- <-.
    assert (l = []) as ->
      by (apply (f_equal (@rev _)) in Erev; now rewrite rev_involutive in Erev).
    split; [now left|]. intros x [<-|[]]. apply string_leb_refl.
  - simpl in Hrev. injection Hrev as <- <-.
    destruct (IH Hs e' rest' eq_refl) as [Hin Hmax].
    split; [now right|]. intros x [<-|Hx]; [|now apply Hmax].
    rewrite List.Forall_forall in Hy. now apply Hy.
Qed.

(** [names.sort().reverse()[0]] is the greatest name. *)
Lemma latest_is_greatest {A} (l : list (string * A)) (e : string * A)
    (rest : list (string * A)) :
  rev (sortByName l) = e :: rest ->
  In e l /\ forall x, In x l -> String.leb (fst x) (fst e) = true.
Proof.
  intros Hrev.
  destruct (ascending_rev_head _ (sortByName_ascending l) e rest Hrev) as [Hin Hmax].
  split; [now apply sortByName_In|].
  intros x Hx. apply Hmax. now apply sortByName_In.
Qed.

(** X14. Of the Cloudflare analytics files on record only
    the one whose name is greatest in the order of [sort()] is looked at: its
    page views decide the result, whatever the other files hold; when it
    cannot be read or parsed the result is the neutral one, also when older
    files have data. *)
Theorem cloudflare_latest_file_decides (w : World) (entries : list (string * Result Z))
    (name : string) (content : Result Z) :
  cfDir w = Listing entries ->
  In (name, content) entries ->
  startsWith name "cloudflare-analytics-" && endsWith name ".json" = true ->
  (forall n c,
     In (n, c) entries ->
     startsWith n "cloudflare-analytics-" && endsWith n ".json" = true ->
     String.leb n name = true /\ (n = name -> c = content)) ->
  checkCloudflareAnalytics w
  = ok (match content with
        | inr totalPageviews =>
            if (0 <? totalPageviews)%Z
            then {| hasData := true; analyticsScore := 95 |}
            else {| hasData := false; analyticsScore := 50 |}
        | inl _ => {| hasData := false; analyticsScore := 50 |}
        end).
Proof.
  intros Hdir Hin Hname Hmax. unfold checkCloudflareAnalytics. rewrite Hdir.
  set (matching := List.filter _ entries).
  assert (Hmem : In (name, content) matching).
  { apply List.filter_In. split; [exact Hin | exact Hname]. }
  destruct (rev (sortByName matching)) as [|[n c] rest] eqn:Hrev.
  - exfalso. apply (f_equal (@rev _)) in Hrev. rewrite rev_involutive in Hrev.
    simpl in Hrev. apply (sortByName_In (name, content)) in Hmem.
    rewrite Hrev in Hmem. exact Hmem.
  - destruct (latest_is_greatest matching (n, c) rest Hrev) as [Hlatest Hge].
    apply List.filter_In in Hlatest as [Hlin Hlname].
    destruct (Hmax n c Hlin Hlname) as [Hle Hsame].
    specialize (Hge (name, content) Hmem). simpl in Hge.
    assert (n = name) as En by (apply String.leb_antisym; assumption).
    rewrite (Hsame En).
    destruct content as [e|views]; simpl; [reflexivity|].
    destruct (0 <? views)%Z; reflexivity.
Qed.

End SortingFacts.

(** Worked instance: the newest analytics file does not parse, so the page
    views of the older one are not counted. *)
Lemma cloudflare_latest_file_decides_witness :
  Verifier.checkCloudflareAnalytics Evidence.staleWorld
  = JS.ok {| Verifier.hasData := false; Verifier.analyticsScore := 50 |}.
Proof.
  apply (cloudflare_latest_file_decides Evidence.staleWorld Evidence.staleAnalytics
           "cloudflare-analytics-2025-10.json" (JS.throw JS.SyntaxError)).
  - reflexivity.
  - right. left. reflexivity.
  - reflexivity.
  - intros n c [E|[E|[E|[]]]]; injection E as <- <-; intros Hmatch.
    + split; [reflexivity | discriminate].
    + split; [reflexivity | reflexivity].
    + vm_compute in Hmatch. discriminate.
Defined.

(** ** What a run of the detector reports *)

Section ReportFacts.
Import JS Rules Regex Detector Report.
Context `{RegExpHost}.

Lemma appendTo_nil (d : Detector) : appendTo d [] [] [] = d.
Proof. destruct d. unfold appendTo. simpl. now rewrite !app_nil_r. Qed.

Lemma appendTo_appendTo (d : Detector) vs ws cs vs' ws' cs' :
  appendTo (appendTo d vs ws cs) vs' ws' cs'
  = appendTo d (vs ++ vs') (ws ++ ws') (cs ++ cs').
Proof. unfold appendTo. simpl. now rewrite !app_assoc. Qed.

Lemma appends_ret {A} (reg : Registry) (a : A) : appends reg (mret a) (ok a) [] [] [].
Proof. intros d _. now rewrite appendTo_nil. Qed.

Lemma appends_bind_ok {A B} (reg : Registry) (m : M A) (k : A -> M B) (a : A)
    (r : Result B) vs ws cs vs' ws' cs' :
  appends reg m (ok a) vs ws cs -> appends reg (k a) r vs' ws' cs' ->
  appends reg (m ≫= k) r (vs ++ vs') (ws ++ ws') (cs ++ cs').
Proof.
  intros Hm Hk d Hd. rewrite (bind_ok _ _ _ _ _ (Hm d Hd)).
  rewrite (Hk (appendTo d vs ws cs) Hd). now rewrite appendTo_appendTo.
Qed.

Lemma appends_bind_throw {A B} (reg : Registry) (m : M A) (k : A -> M B) (e : Exn)
    vs ws cs :
  appends reg m (throw e) vs ws cs -> appends reg (m ≫= k) (throw e) vs ws cs.
Proof. intros Hm d Hd. now rewrite (bind_throw _ _ _ _ _ (Hm d Hd)). Qed.

Lemma framedAt_bind {A B} (reg : Registry) Pv Pw Pc (m : M A) (k : A -> M B) :
  framedAt reg Pv Pw Pc m -> (forall a, framedAt reg Pv Pw Pc (k a)) ->
  framedAt reg Pv Pw Pc (m ≫= k).
Proof.
  intros (r & vs & ws & cs & Hm & Hv & Hw & Hc) Hk.
  destruct r as [e|a].
  - exists (throw e), vs, ws, cs. split; [now apply appends_bind_throw | auto].
  - destruct (Hk a) as (r' & vs' & ws' & cs' & Hk' & Hv' & Hw' & Hc').
    exists r', (vs ++ vs')%list, (ws ++ ws')%list, (cs ++ cs')%list.
    split; [now apply (appends_bind_ok reg m k a)|].
    split; [|split]; apply List.Forall_app; auto.
Qed.

Lemma framedAt_ret {A} (reg : Registry) Pv Pw Pc (a : A) :
  framedAt reg Pv Pw Pc (mret a).
Proof. exists (ok a), [], [], []. split; [apply appends_ret | auto]. Qed.

(** The rule looked up is the one of the registry. *)
Lemma framedAt_getIncident {B} (reg : Registry) Pv Pw Pc (key : string)
    (k : option Incident -> M B) :
  framedAt reg Pv Pw Pc (k (reg !! key)) ->
  framedAt reg Pv Pw Pc (getIncident key ≫= k).
Proof.
  intros (r & vs & ws & cs & Hk & Hs). exists r, vs, ws, cs. split; [|exact Hs].
  intros d Hd. rewrite (bind_ok _ _ _ _ _ (getIncident_loaded reg key d Hd)).
  now apply Hk.
Qed.

Lemma framedAt_liftR {A B} (reg : Registry) Pv Pw Pc (r0 : Result A) (k : A -> M B) :
  (forall a, r0 = ok a -> framedAt reg Pv Pw Pc (k a)) ->
  framedAt reg Pv Pw Pc (liftR r0 ≫= k).
Proof.
  intros Hk. destruct r0 as [e|a].
  - exists (throw e), [], [], []. split; [|auto].
    intros d Hd. rewrite appendTo_nil. reflexivity.
  - destruct (Hk a eq_refl) as (r & vs & ws & cs & Hk' & Hs).
    exists r, vs, ws, cs. split; [|exact Hs].
    intros d Hd. rewrite (bind_ok _ _ _ _ _ (liftR_ok _ a d eq_refl)). now apply Hk'.
Qed.

Lemma framedAt_pushViolation (reg : Registry) Pv Pw Pc (f : Finding) :
  Pv f -> framedAt reg Pv Pw Pc (pushViolation f).
Proof.
  intros Hf. exists (ok tt), [f], [], []. split; [|auto].
  intros d _. unfold pushViolation, appendTo. now rewrite !app_nil_r.
Qed.

Lemma framedAt_pushWarning (reg : Registry) Pv Pw Pc (f : Finding) :
  Pw f -> framedAt reg Pv Pw Pc (pushWarning f).
Proof.
  intros Hf. exists (ok tt), [], [f], []. split; [|auto].
  intros d _. unfold pushWarning, appendTo. now rewrite !app_nil_r.
Qed.

Lemma framedAt_pushCommendation (reg : Registry) Pv Pw Pc (c : Commendation) :
  Pc c -> framedAt reg Pv Pw Pc (pushCommendation c).
Proof.
  intros Hc. exists (ok tt), [], [], [c]. split; [|auto].
  intros d _. unfold pushCommendation, appendTo. now rewrite !app_nil_r.
Qed.

Lemma framedAt_weaken {A} (reg : Registry)
    (Pv Pw Pv' Pw' : Finding -> Prop) (Pc Pc' : Commendation -> Prop) (m : M A) :
  framedAt reg Pv Pw Pc m ->
  (forall f, Pv f -> Pv' f) -> (forall f, Pw f -> Pw' f) -> (forall c, Pc c -> Pc' c) ->
  framedAt reg Pv' Pw' Pc' m.
Proof.
  intros (r & vs & ws & cs & Hm & Hv & Hw & Hc) Iv Iw Ic.
  exists r, vs, ws, cs. split; [exact Hm|].
  split; [|split]; eapply List.Forall_impl; eauto.
Qed.

Lemma mapR_In {A B} (f : A -> Result B) (l : list A) :
  forall ys, mapR f l = ok ys -> forall y, In y ys -> exists x, In x l /\ f x = ok y.
Proof.
  induction l as [|x l IH]; simpl; intros ys Hys y Hy.
  - injection Hys as <-. destruct Hy.
  - destruct (f x) as [e|y0] eqn:Hx; [discriminate|]. simpl in Hys.
    destruct (mapR f l) as [e|ys0]; [discriminate|]. simpl in Hys.
    injection Hys as <-. destruct Hy as [<-|Hy].
    + exists x. split; [now left | exact Hx].
    + destruct (IH ys0 eq_refl y Hy) as (x' & Hin & Hfx).
      exists x'. split; [now right | exact Hfx].
Qed.

(** The loop over the compiled patterns fires only on a match of a pattern
    of the rule. *)
Lemma compilePatterns_match (rule : Incident) (ts : list (string -> bool)) (text : string) :
  compilePatterns rule = ok ts -> anyMatches ts text = true -> ruleMatches rule text.
Proof.
  unfold compilePatterns, anyMatches. destruct (textPatterns rule) as [sources|] eqn:Hs;
    [|discriminate].
  intros Hts Hany. apply existsb_exists in Hany as (t & Hin & Ht).
  destruct (mapR_In _ _ _ Hts t Hin) as (p & Hp & Hc).
  exists sources, p, t. split; [exact Hs|]. split; [exact Hp|].
  split; [|exact Ht]. destruct (newRegExp_i p); [now injection Hc as -> | discriminate].
Qed.

Lemma readImpact_ok (rule : Incident) (risk : FinancialImpact) :
  readImpact rule = ok risk -> financialImpact rule = Some risk.
Proof. unfold readImpact. destruct (financialImpact rule); [now intros [= ->] | discriminate]. Qed.

(** One step through the body of a check. *)
Ltac frame_step :=
  match goal with
  | |- framedAt _ _ _ _ (getIncident _ ≫= _) => apply framedAt_getIncident
  | |- framedAt _ _ _ _ (liftR _ ≫= _) => apply framedAt_liftR; intros ? ?
  | |- framedAt _ _ _ _ (_ ≫= _) => apply framedAt_bind; [|intros ?]
  | |- framedAt _ _ _ _ (mret _) => apply framedAt_ret
  | |- framedAt _ _ _ _ (pushViolation _) => apply framedAt_pushViolation
  | |- framedAt _ _ _ _ (pushWarning _) => apply framedAt_pushWarning
  | |- framedAt _ _ _ _ (pushCommendation _) => apply framedAt_pushCommendation
  | |- framedAt _ _ _ _ (match ?x with _ => _ end) => destruct x eqn:?
  end.

(** A violation of a rule-backed kind, as the check builds it. *)
Ltac rule_violation :=
  unfold violationOf; cbn [type severity incident context financialRisk
    kindType kindSeverity kindIncident kindRule kindGate kindReadsPatterns kindReportsImpact];
  repeat (split; [solve [reflexivity | auto]|]);
  match goal with
  | Hr : _ !! _ = Some ?rule |- _ =>
      exists rule; split; [exact Hr|];
      split; [first [ intros _; eapply compilePatterns_match; eassumption
                    | discriminate ]|];
      first [ split; [reflexivity | discriminate]
            | split; [symmetry; apply readImpact_ok; assumption
                     | intros _; erewrite readImpact_ok by eassumption; discriminate] ]
  end.

Lemma checkIssue43Pattern_framed (reg : Registry) (text : string) (context : Context) :
  framedAt reg (violationOf reg text context SecurityControlRemoval) never never
           (checkIssue43Pattern text context).
Proof. unfold checkIssue43Pattern. repeat frame_step. rule_violation. Qed.

Lemma checkIssue32Pattern_framed (reg : Registry) (text : string) (context : Context) :
  framedAt reg (violationOf reg text context NoNginxLaw) never never
           (checkIssue32Pattern text context).
Proof. unfold checkIssue32Pattern. repeat frame_step. rule_violation. Qed.

Lemma checkAlpineBaseImagePattern_framed (reg : Registry) (text : string)
    (context : Context) :
  framedAt reg (violationOf reg text context AlpineBaseImage) never never
           (checkAlpineBaseImagePattern text context).
Proof. unfold checkAlpineBaseImagePattern. repeat frame_step. rule_violation. Qed.

Lemma checkDockerAmd64PlatformPattern_framed (reg : Registry) (text : string)
    (context : Context) :
  framedAt reg (violationOf reg text context DockerAmd64Platform) never never
           (checkDockerAmd64PlatformPattern text context).
Proof.
  unfold checkDockerAmd64PlatformPattern. repeat frame_step.
  match goal with
  | Hex : _ || _ = false |- _ => apply orb_false_iff in Hex as [Hex1 Hex2]
  end.
  rule_violation.
Qed.

Lemma checkLiveDataLawPattern_framed (reg : Registry) (text : string) (context : Context) :
  framedAt reg (violationOf reg text context HardcodedLiveData) never never
           (checkLiveDataLawPattern text context).
Proof.
  unfold checkLiveDataLawPattern. repeat frame_step.
  match goal with
  | Hfile : negb _ = false |- _ => apply negb_false_iff in Hfile
  end.
  rule_violation.
Qed.

Lemma checkGitDirectoryBreakout_framed (reg : Registry) (text : string) (context : Context) :
  framedAt reg (violationOf reg text context GitDirectoryBreakout) never never
           (checkGitDirectoryBreakout text context).
Proof. unfold checkGitDirectoryBreakout. repeat frame_step. rule_violation. Qed.

Lemma sprawlFindings_shape (reg : Registry) (text : string) (context : Context) :
  Forall (violationOf reg text context EnterpriseSprawl) (sprawlFindings text context).
Proof.
  unfold sprawlFindings. apply List.Forall_forall. intros v Hv.
  apply in_map_iff in Hv as ([name pattern] & <- & Hin).
  apply List.filter_In in Hin as [Hin Hmatch]. simpl in Hmatch.
  unfold violationOf. simpl.
  repeat (split; [reflexivity|]). split; [|reflexivity].
  exists name, pattern. split; [exact Hin | exact Hmatch].
Qed.

Lemma checkEnterpriseSprawl_framed (reg : Registry) (text : string) (context : Context)
    (skipCostChecks : bool) :
  framedAt reg (violationOf reg text context EnterpriseSprawl) never never
           (checkEnterpriseSprawl text context skipCostChecks).
Proof.
  exists (ok tt), (sprawlFindings text context), [], [].
  split; [|split; [apply sprawlFindings_shape | auto]].
  intros d _. rewrite checkEnterpriseSprawl_run. unfold appendTo. now rewrite !app_nil_r.
Qed.

(** A warning, as the check builds it. *)
Ltac heuristic_warning :=
  unfold warningOf, warningGate; cbn [type severity incident context financialRisk
    details warningType warningSeverity warningIncident];
  repeat match goal with
         | |- _ /\ _ => split
         end;
  solve [reflexivity | auto | congruence].

Lemma checkIssue41Pattern_framed (reg : Registry) (text : string) (context : Context)
    (skipCostChecks : bool) :
  framedAt reg never (warningOf reg text context skipCostChecks UntestedDeploy) never
           (checkIssue41Pattern text context).
Proof.
  unfold checkIssue41Pattern. cbv zeta.
  change (fileSatisfies context _) with (fileSatisfies context workflowFile).
  change (negb _) with (negb (hasTestEvidence text)).
  repeat frame_step.
  match goal with
  | Hnone : negb _ = true |- _ => apply negb_true_iff in Hnone
  end.
  heuristic_warning.
Qed.

Lemma checkDaymanNightmanTheme_framed (reg : Registry) (text : string) (context : Context)
    (skipCostChecks : bool) :
  framedAt reg never (warningOf reg text context skipCostChecks MissingThemeSystem) never
           (checkDaymanNightmanTheme text context).
Proof.
  unfold checkDaymanNightmanTheme. cbv zeta.
  change (fileSatisfies context _) with (fileSatisfies context customerFacingFile).
  change (0 <? length _)%nat with (0 <? length (missingElements text))%nat.
  change (join ", " _) with (join ", " (missingElements text)).
  repeat frame_step.
  match goal with
  | Hfile : negb _ = false |- _ => apply negb_false_iff in Hfile
  end.
  match goal with
  | Hsome : (0 <? length (missingElements text))%nat = true |- _ =>
      assert (Hmissing : missingElements text <> [])
        by (intros Hnil; rewrite Hnil in Hsome; discriminate)
  end.
  heuristic_warning.
Qed.

Lemma checkCostEfficiency_framed (reg : Registry) (text : string) (context : Context)
    (skipCostChecks : bool) :
  framedAt reg never (warningOf reg text context skipCostChecks CostInefficiency) never
           (checkCostEfficiency text context skipCostChecks).
Proof. unfold checkCostEfficiency. repeat frame_step. heuristic_warning. Qed.

Lemma checkCommendations_framed (reg : Registry) (text : string) :
  framedAt reg never never textCommendation (checkCommendations text).
Proof.
  unfold checkCommendations. cbv zeta.
  repeat frame_step; unfold textCommendation; simpl; auto 6.
Qed.

(** Every check of [analyze] appends, in the shapes of the report. *)
Lemma checks_framed (reg : Registry) (text : string) (context : Context) :
  Forall (framedAt reg (reportedViolation reg text context)
                   (reportedWarning reg text context)
                   (reportedCommendation text))
         (checks text context (isInvestorMaterials text)).
Proof.
  unfold checks.
  repeat (apply List.Forall_cons; [|]); try apply List.Forall_nil.
  - eapply framedAt_weaken; [apply checkIssue43Pattern_framed | | |];
      [intros f Hf; eexists; exact Hf | intros f [] | intros c []].
  - eapply framedAt_weaken; [apply checkIssue32Pattern_framed | | |];
      [intros f Hf; eexists; exact Hf | intros f [] | intros c []].
  - eapply framedAt_weaken; [apply checkIssue41Pattern_framed | | |];
      [intros f [] | intros f Hf; eexists; exact Hf | intros c []].
  - eapply framedAt_weaken; [apply checkDaymanNightmanTheme_framed | | |];
      [intros f [] | intros f Hf; eexists; exact Hf | intros c []].
  - eapply framedAt_weaken; [apply checkAlpineBaseImagePattern_framed | | |];
      [intros f Hf; eexists; exact Hf | intros f [] | intros c []].
  - eapply framedAt_weaken; [apply checkDockerAmd64PlatformPattern_framed | | |];
      [intros f Hf; eexists; exact Hf | intros f [] | intros c []].
  - eapply framedAt_weaken; [apply checkLiveDataLawPattern_framed | | |];
      [intros f Hf; eexists; exact Hf | intros f [] | intros c []].
  - eapply framedAt_weaken; [apply checkGitDirectoryBreakout_framed | | |];
      [intros f Hf; eexists; exact Hf | intros f [] | intros c []].
  - eapply framedAt_weaken; [apply checkEnterpriseSprawl_framed | | |];
      [intros f Hf; eexists; exact Hf | intros f [] | intros c []].
  - eapply framedAt_weaken; [apply checkLiveDataLawPattern_framed | | |];
      [intros f Hf; eexists; exact Hf | intros f [] | intros c []].
  - eapply framedAt_weaken; [apply checkCostEfficiency_framed | | |];
      [intros f [] | intros f Hf; eexists; exact Hf | intros c []].
  - eapply framedAt_weaken; [apply checkCommendations_framed | | |];
      [intros f [] | intros f [] | intros c Hc; right; exact Hc].
Qed.

(** A run of framed checks that ends in [getResults] and returns. *)
Lemma runChecks_report (reg : Registry) Pv Pw Pc (ms : list (M unit)) :
  Forall (framedAt reg Pv Pw Pc) ms ->
  forall d r d',
    incidents d = Some reg ->
    runChecks ms getResults d = (ok r, d') ->
    r = resultsOf d' /\
    exists vs ws cs,
      d' = appendTo d vs ws cs /\ Forall Pv vs /\ Forall Pw ws /\ Forall Pc cs.
Proof.
  induction 1 as [|m ms Hm _ IH]; intros d r d' Hd Hrun.
  - simpl in Hrun. unfold getResults in Hrun. injection Hrun as <- <-.
    split; [reflexivity|]. exists [], [], []. rewrite appendTo_nil. auto.
  - destruct Hm as (rm & vs & ws & cs & Hm & Hv & Hw & Hc).
    cbn [runChecks] in Hrun. rewrite bind_run, (Hm d Hd) in Hrun.
    destruct rm as [e|[]]; [discriminate|].
    destruct (IH (appendTo d vs ws cs) r d' Hd Hrun)
      as (Hr & vs' & ws' & cs' & Hd' & Hv' & Hw' & Hc').
    split; [exact Hr|].
    exists (vs ++ vs')%list, (ws ++ ws')%list, (cs ++ cs')%list.
    rewrite Hd', appendTo_appendTo.
    split; [reflexivity|]. split; [|split]; apply List.Forall_app; auto.
Qed.

(** [analyze] on a loaded detector and a text that is not documentation. *)
Lemma analyze_checks (env : LoadEnv) (text : string) (context : Context) (reg : Registry) :
  isDocumentation text = false ->
  analyze env text context (loaded reg)
  = ((if isInvestorMaterials text
      then pushCommendation
             {| ctype := "INVESTOR_MATERIALS";
                cmessage := "Investor materials - describing market opportunity" |}
      else mret tt) ;;
     runChecks (checks text context (isInvestorMaterials text)) getResults) (loaded reg).
Proof. intros Hdoc. unfold analyze. rewrite Hdoc. reflexivity. Qed.

(** The report of a run that returns, on a text that is not documentation. *)
Lemma analyze_report (env : LoadEnv) (text : string) (context : Context)
    (d : Detector) (r : Results) :
  isDocumentation text = false ->
  fst (analyze env text context d) = ok r ->
  exists reg,
    (forall reg0, incidents d = Some reg0 -> reg = reg0) /\
    incidents (snd (analyze env text context d)) = Some reg /\
    r = resultsOf (snd (analyze env text context d)) /\
    Forall (reportedViolation reg text context) (resViolations r) /\
    Forall (reportedWarning reg text context) (resWarnings r) /\
    Forall (reportedCommendation text) (resCommendations r).
Proof.
  intros Hdoc Hrun.
  destruct (analyze_from_loaded env text context d) as (reg & Hreg & Hsame).
  exists reg. split; [exact Hreg|].
  set (inv := {| ctype := "INVESTOR_MATERIALS";
                 cmessage := "Investor materials - describing market opportunity" |}).
  assert (Hfirst : exists cs0,
    (if isInvestorMaterials text then pushCommendation inv else mret tt) (loaded reg)
      = (ok tt, appendTo (loaded reg) [] [] cs0) /\
    Forall (reportedCommendation text) cs0).
  { destruct (isInvestorMaterials text) eqn:Hinv.
    - exists [inv]. split; [reflexivity|].
      apply List.Forall_cons; [left; split; [reflexivity | exact Hinv] | apply List.Forall_nil].
    - exists []. split; [reflexivity | apply List.Forall_nil]. }
  rewrite (Hsame env) in Hrun |- *. rewrite (analyze_checks env text context reg Hdoc) in *.
  fold inv in Hrun |- *.
  rewrite bind_run in Hrun |- *.
  destruct Hfirst as (cs0 & Hfirst & Hcs0). rewrite Hfirst in Hrun |- *.
  destruct (runChecks _ getResults _) as [r' d'] eqn:Hchecks.
  simpl in Hrun. subst r'.
  destruct (runChecks_report reg _ _ _ _ (checks_framed reg text context)
              (appendTo (loaded reg) [] [] cs0) r d' eq_refl Hchecks)
    as (Hr & vs & ws & cs & Hd' & Hv & Hw & Hc).
  cbn [snd]. rewrite Hd', appendTo_appendTo in *.
  split; [reflexivity|]. split; [exact Hr|]. rewrite Hr. cbn.
  split; [exact Hv|]. split; [exact Hw|].
  apply List.Forall_app. split; assumption.
Qed.

(** The report of any run that returns: documentation gives no finding. *)
Lemma analyze_findings (env : LoadEnv) (text : string) (context : Context)
    (d : Detector) (r : Results) :
  fst (analyze env text context d) = ok r ->
  exists reg,
    (forall reg0, incidents d = Some reg0 -> reg = reg0) /\
    incidents (snd (analyze env text context d)) = Some reg /\
    hasCritical r = existsb (fun v => Severity_eqb (severity v) CRITICAL) (resViolations r) /\
    hasViolations r = (0 <? length (resViolations r))%nat /\
    Forall (reportedViolation reg text context) (resViolations r) /\
    Forall (reportedWarning reg text context) (resWarnings r).
Proof.
  intros Hrun. destruct (isDocumentation text) eqn:Hdoc.
  - destruct (analyze_from_loaded env text context d) as (reg & Hreg & Hsame).
    exists reg. split; [exact Hreg|].
    rewrite (Hsame env) in Hrun |- *.
    rewrite (analyze_loaded_documentation env text context reg Hdoc) in Hrun.
    injection Hrun as <-.
    split; [apply analyze_keeps_loaded|].
    split; [reflexivity|]. split; [reflexivity|]. split; apply List.Forall_nil.
  - destruct (analyze_report env text context d r Hdoc Hrun)
      as (reg & Hreg & Hinc & Hr & Hv & Hw & _).
    exists reg. split; [exact Hreg|]. split; [exact Hinc|].
    split; [rewrite Hr; reflexivity|]. split; [rewrite Hr; reflexivity|].
    split; assumption.
Qed.

(** X15. Every finding of an [analyze] that returns can be traced:
    each violation is of one of the seven kinds, with the type, severity and
    incident label of its kind and the context of the call; a violation of a
    rule-backed kind has its rule in the registry of the detector, is
    reported only when a pattern of that rule matches the text (or, for the
    directory check, one of the built-in shapes), and carries the financial
    impact of that rule or none, by its kind; each warning is of one of the
    three kinds, with the type, severity and label of its kind, the context
    of the call and no financial risk, and is reported only when the whole
    gate of its check holds: UNTESTED_DEPLOY for a workflow or deploy file
    and a text without evidence of a local test; MISSING_THEME_SYSTEM with
    the theme rule in the registry, a customer-facing HTML file and a theme
    element missing from the text, its details listing the missing elements;
    COST_INEFFICIENCY for a text that is not investor material and matches
    one of the two patterns of a high monthly cost. *)
Theorem findings_have_provenance (env : LoadEnv) (text : string) (context : Context)
    (d : Detector) (r : Results) :
  fst (analyze env text context d) = ok r ->
  exists reg,
    incidents (snd (analyze env text context d)) = Some reg /\
    (forall reg0, incidents d = Some reg0 -> reg = reg0) /\
    Forall (fun v => exists k, violationOf reg text context k v) (resViolations r) /\
    Forall (fun w => exists k,
              warningOf reg text context (isInvestorMaterials text) k w)
           (resWarnings r).
Proof.
  intros Hrun.
  destruct (analyze_findings env text context d r Hrun)
    as (reg & Hreg & Hinc & _ & _ & Hv & Hw).
  exists reg. split; [exact Hinc|]. split; [exact Hreg|]. split; [exact Hv | exact Hw].
Qed.

Lemma fileSatisfies_no_file (context : Context) (p : string -> bool) :
  file context = None -> fileSatisfies context p = false.
Proof. unfold fileSatisfies. now intros ->. Qed.

(** Without a [file] in the context the checks that look at the file report
    nothing. *)
Lemma warnings_without_file (reg : Registry) (text : string) (context : Context)
    (ws : list Finding) :
  file context = None ->
  Forall (reportedWarning reg text context) ws ->
  Forall (fun w => type w = "COST_INEFFICIENCY" /\ isInvestorMaterials text = false) ws.
Proof.
  intros Hfile. apply List.Forall_impl. intros w [k (Hty & _ & _ & _ & _ & Hgate & _)].
  destruct k; simpl in Hgate.
  - destruct Hgate as [Hgate _].
    rewrite (fileSatisfies_no_file _ _ Hfile) in Hgate. discriminate.
  - destruct Hgate as (_ & Hgate & _).
    rewrite (fileSatisfies_no_file _ _ Hfile) in Hgate. discriminate.
  - split; [exact Hty | apply Hgate].
Qed.

Lemma violations_without_file (reg : Registry) (text : string) (context : Context)
    (vs : list Finding) :
  file context = None ->
  Forall (reportedViolation reg text context) vs ->
  Forall (fun v => type v <> "HARDCODED_LIVE_DATA") vs.
Proof.
  intros Hfile. apply List.Forall_impl. intros v [k (Hty & _ & _ & _ & Hgate & _)].
  rewrite Hty. destruct k; simpl; try discriminate.
  destruct Hgate as [Hgate _].
  rewrite (fileSatisfies_no_file _ _ Hfile) in Hgate. discriminate.
Qed.

(** The critical kinds are the security-control removal and the enterprise
    sprawl. *)
Lemma critical_kinds (reg : Registry) (text : string) (context : Context)
    (vs : list Finding) :
  Forall (reportedViolation reg text context) vs ->
  existsb (fun v => Severity_eqb (severity v) CRITICAL) vs = true <->
  Exists (fun v => type v = "SECURITY_CONTROL_REMOVAL" \/ type v = "ENTERPRISE_SPRAWL") vs.
Proof.
  intros Hv. rewrite existsb_exists, List.Exists_exists.
  rewrite List.Forall_forall in Hv.
  split; intros (v & Hin & Hsev); exists v; (split; [exact Hin|]);
    destruct (Hv v Hin) as [k (Hty & Hs & _)]; rewrite Hty in *; rewrite Hs in *;
    destruct k; simpl in *; try discriminate; auto;
    destruct Hsev as [Hsev|Hsev]; discriminate.
Qed.

(** X16. When the context names no [file], as the contexts of every
    caller in the command line tool do, an [analyze] that returns reports no
    UNTESTED_DEPLOY and no MISSING_THEME_SYSTEM warning and no
    HARDCODED_LIVE_DATA violation, whatever the text and the rules: every
    warning is a COST_INEFFICIENCY one, and there is none at all for investor
    material. *)
Theorem context_without_file (env : LoadEnv) (text : string) (context : Context)
    (d : Detector) (r : Results) :
  file context = None ->
  fst (analyze env text context d) = ok r ->
  Forall (fun w => type w = "COST_INEFFICIENCY") (resWarnings r) /\
  Forall (fun v => type v <> "HARDCODED_LIVE_DATA") (resViolations r) /\
  (isInvestorMaterials text = true -> resWarnings r = []).
Proof.
  intros Hfile Hrun.
  destruct (analyze_findings env text context d r Hrun)
    as (reg & _ & _ & _ & _ & Hv & Hw).
  pose proof (warnings_without_file reg text context _ Hfile Hw) as Hcost.
  split; [|split].
  - revert Hcost. apply List.Forall_impl. intros w [Hw' _]. exact Hw'.
  - exact (violations_without_file reg text context _ Hfile Hv).
  - intros Hinv. destruct (resWarnings r) as [|w ws]; [reflexivity|].
    inversion Hcost as [|? ? [_ Hno] _]. congruence.
Qed.

(** X17. In the result of an [analyze] that returns, [hasCritical]
    is set exactly when some violation is a SECURITY_CONTROL_REMOVAL or an
    ENTERPRISE_SPRAWL, and [hasViolations] exactly when there is a violation;
    so [dredd review] exits with 1 exactly when [analyze] throws or reports
    one of these two: violations of the other kinds, all of HIGH or MEDIUM
    severity, do not fail the review. *)
Theorem critical_findings (env : LoadEnv) (text : string) (context : Context)
    (d : Detector) (r : Results) :
  fst (analyze env text context d) = ok r ->
  (hasCritical r = true <->
   Exists (fun v => type v = "SECURITY_CONTROL_REMOVAL" \/ type v = "ENTERPRISE_SPRAWL")
          (resViolations r)) /\
  (hasViolations r = true <-> resViolations r <> []) /\
  (reviewExitCode (fst (analyze env text context d)) = 1%Z <-> hasCritical r = true) /\
  (reviewExitCode (fst (analyze env text context d)) = 0%Z <-> hasCritical r = false).
Proof.
  intros Hrun.
  destruct (analyze_findings env text context d r Hrun)
    as (reg & _ & _ & Hcrit & Hany & Hv & _).
  split; [|split; [|split]].
  - rewrite Hcrit. exact (critical_kinds reg text context _ Hv).
  - rewrite Hany. destruct (resViolations r) as [|v vs]; cbn.
    + split; [discriminate | intros Hne; now contradiction Hne].
    + split; [discriminate | reflexivity].
  - rewrite Hrun. unfold reviewExitCode. unfold ok. cbv beta iota.
    destruct (hasCritical r); split; congruence.
  - rewrite Hrun. unfold reviewExitCode. unfold ok. cbv beta iota.
    destruct (hasCritical r); split; congruence.
Qed.

(** X18. Each check of the detector only appends: on all detectors that
    hold the same registry it has one and the same outcome (returning or
    throwing) and records one and the same findings after those already
    recorded, which it neither drops nor reorders, and it leaves the registry
    as it is. *)
Theorem checks_only_append (reg : Registry) (text : string) (context : Context)
    (skipCostChecks : bool) :
  Forall (fun check : M unit =>
            exists r vs ws cs,
              forall d, incidents d = Some reg ->
                check d = (r, appendTo d vs ws cs))
         (checks text context skipCostChecks).
Proof.
  assert (Hdrop : forall Pv Pw Pc (m : M unit),
            framedAt reg Pv Pw Pc m ->
            exists r vs ws cs,
              forall d, incidents d = Some reg -> m d = (r, appendTo d vs ws cs)).
  { intros Pv Pw Pc m (r & vs & ws & cs & Hm & _). now exists r, vs, ws, cs. }
  unfold checks.
  repeat (apply List.Forall_cons; [|]); try apply List.Forall_nil.
  - eapply Hdrop, checkIssue43Pattern_framed.
  - eapply Hdrop, checkIssue32Pattern_framed.
  - eapply Hdrop, (checkIssue41Pattern_framed reg text context skipCostChecks).
  - eapply Hdrop, (checkDaymanNightmanTheme_framed reg text context skipCostChecks).
  - eapply Hdrop, checkAlpineBaseImagePattern_framed.
  - eapply Hdrop, checkDockerAmd64PlatformPattern_framed.
  - eapply Hdrop, checkLiveDataLawPattern_framed.
  - eapply Hdrop, checkGitDirectoryBreakout_framed.
  - eapply Hdrop, checkEnterpriseSprawl_framed.
  - eapply Hdrop, checkLiveDataLawPattern_framed.
  - eapply Hdrop, checkCostEfficiency_framed.
  - eapply Hdrop, checkCommendations_framed.
Qed.

(** A run of framed checks that returns, before any continuation. *)
Lemma runChecks_framed {B} (reg : Registry) Pv Pw Pc (ms : list (M unit)) (k : M B) :
  Forall (framedAt reg Pv Pw Pc) ms ->
  forall d r d',
    incidents d = Some reg ->
    runChecks ms k d = (ok r, d') ->
    exists vs ws cs,
      k (appendTo d vs ws cs) = (ok r, d') /\
      Forall Pv vs /\ Forall Pw ws /\ Forall Pc cs.
Proof.
  induction 1 as [|m ms Hm _ IH]; intros d r d' Hd Hrun.
  - exists [], [], []. rewrite appendTo_nil. auto.
  - destruct Hm as (rm & vs & ws & cs & Hm & Hv & Hw & Hc).
    cbn [runChecks] in Hrun. rewrite bind_run, (Hm d Hd) in Hrun.
    destruct rm as [e|[]]; [discriminate|].
    destruct (IH (appendTo d vs ws cs) r d' Hd Hrun)
      as (vs' & ws' & cs' & Hk & Hv' & Hw' & Hc').
    exists (vs ++ vs')%list, (ws ++ ws')%list, (cs ++ cs')%list.
    rewrite <- appendTo_appendTo.
    split; [exact Hk|]. split; [|split]; apply List.Forall_app; auto.
Qed.

Lemma runChecks_app {B} (ms1 ms2 : list (M unit)) (k : M B) :
  runChecks (ms1 ++ ms2) k = runChecks ms1 (runChecks ms2 k).
Proof. induction ms1 as [|m ms1 IH]; simpl; [reflexivity | now rewrite IH]. Qed.

Lemma never_nil {A} (l : list A) : Forall never l -> l = [].
Proof. destruct l as [|a l]; [reflexivity|]. intros Hl. inversion Hl as [|? ? []]. Qed.

Lemma appends_pushCommendation (reg : Registry) (c : Commendation) :
  appends reg (pushCommendation c) (ok tt) [] [] [c].
Proof. intros d _. unfold pushCommendation, appendTo. now rewrite !app_nil_r. Qed.

Lemma appends_commend_then {B} (reg : Registry) (b : bool) (c : Commendation)
    (k : M B) (r : Result B) (cs : list Commendation) :
  appends reg k r [] [] cs ->
  appends reg ((if b then pushCommendation c else mret tt) ;; k) r [] []
          ((if b then [c] else []) ++ cs).
Proof.
  intros Hk. destruct b.
  - apply (appends_bind_ok reg _ _ tt r [] [] [c] [] [] cs);
      [apply appends_pushCommendation | exact Hk].
  - apply (appends_bind_ok reg _ _ tt r [] [] [] [] [] cs);
      [apply appends_ret | exact Hk].
Qed.

(** [checkCommendations] returns, and what it records is read off the text
    alone. *)
Lemma checkCommendations_run (text : string) (reg : Registry) :
  appends reg (checkCommendations text) (ok tt) [] [] (textCommendations text).
Proof.
  assert (Hall : exists cs, forall reg0,
            appends reg0 (checkCommendations text) (ok tt) [] [] cs).
  { unfold checkCommendations. cbv zeta. eexists. intros reg0.
    apply appends_commend_then, appends_commend_then, appends_commend_then.
    match goal with
    | |- appends _ (if ?b then pushCommendation ?c else _) _ _ _ _ =>
        instantiate (1 := if b then [c] else []); destruct b
    end; [apply appends_pushCommendation | apply appends_ret]. }
  destruct Hall as (cs & Hcs).
  assert (textCommendations text = cs) as ->.
  { unfold textCommendations. rewrite (Hcs ∅ (loaded ∅) eq_refl). reflexivity. }
  apply Hcs.
Qed.

(** The commendations of a run that returns, on a text that is not
    documentation. *)
Lemma analyze_commendations (env : LoadEnv) (text : string) (context : Context)
    (d : Detector) (r : Results) :
  isDocumentation text = false ->
  fst (analyze env text context d) = ok r ->
  resCommendations r
  = ((if isInvestorMaterials text
      then [{| ctype := "INVESTOR_MATERIALS";
               cmessage := "Investor materials - describing market opportunity" |}]
      else []) ++ textCommendations text)%list.
Proof.
  intros Hdoc Hrun.
  destruct (analyze_from_loaded env text context d) as (reg & Hreg & Hsame).
  rewrite (Hsame env), (analyze_checks env text context reg Hdoc) in Hrun.
  set (inv := {| ctype := "INVESTOR_MATERIALS";
                 cmessage := "Investor materials - describing market opportunity" |}) in *.
  set (investor := isInvestorMaterials text) in *.
  assert (Hfirst :
    (if investor then pushCommendation inv else mret tt) (loaded reg)
    = (ok tt, appendTo (loaded reg) [] [] (if investor then [inv] else []))).
  { destruct investor; reflexivity. }
  rewrite bind_run, Hfirst in Hrun.
  destruct (runChecks _ getResults _) as [r' d'] eqn:Hchecks.
  simpl in Hrun. subst r'.
  change (checks text context investor)
    with ([ checkIssue43Pattern text context;
            checkIssue32Pattern text context;
            checkIssue41Pattern text context;
            checkDaymanNightmanTheme text context;
            checkAlpineBaseImagePattern text context;
            checkDockerAmd64PlatformPattern text context;
            checkLiveDataLawPattern text context;
            checkGitDirectoryBreakout text context;
            checkEnterpriseSprawl text context investor;
            checkLiveDataLawPattern text context;
            checkCostEfficiency text context investor ]
          ++ [checkCommendations text])%list in Hchecks.
  rewrite runChecks_app in Hchecks.
  assert (Hquiet : Forall (framedAt reg (fun _ => True) (fun _ => True) never)
    [ checkIssue43Pattern text context;
      checkIssue32Pattern text context;
      checkIssue41Pattern text context;
      checkDaymanNightmanTheme text context;
      checkAlpineBaseImagePattern text context;
      checkDockerAmd64PlatformPattern text context;
      checkLiveDataLawPattern text context;
      checkGitDirectoryBreakout text context;
      checkEnterpriseSprawl text context investor;
      checkLiveDataLawPattern text context;
      checkCostEfficiency text context investor ]).
  { repeat (apply List.Forall_cons; [|]); try apply List.Forall_nil.
    - eapply framedAt_weaken; [apply checkIssue43Pattern_framed | | |]; auto.
    - eapply framedAt_weaken; [apply checkIssue32Pattern_framed | | |]; auto.
    - eapply framedAt_weaken;
        [apply (checkIssue41Pattern_framed reg text context investor) | | |]; auto.
    - eapply framedAt_weaken;
        [apply (checkDaymanNightmanTheme_framed reg text context investor) | | |]; auto.
    - eapply framedAt_weaken; [apply checkAlpineBaseImagePattern_framed | | |]; auto.
    - eapply framedAt_weaken; [apply checkDockerAmd64PlatformPattern_framed | | |]; auto.
    - eapply framedAt_weaken; [apply checkLiveDataLawPattern_framed | | |]; auto.
    - eapply framedAt_weaken; [apply checkGitDirectoryBreakout_framed | | |]; auto.
    - eapply framedAt_weaken; [apply checkEnterpriseSprawl_framed | | |]; auto.
    - eapply framedAt_weaken; [apply checkLiveDataLawPattern_framed | | |]; auto.
    - eapply framedAt_weaken; [apply checkCostEfficiency_framed | | |]; auto. }
  destruct (runChecks_framed reg _ _ _ _ _ Hquiet
              (appendTo (loaded reg) [] [] (if investor then [inv] else [])) r d'
              eq_refl Hchecks) as (vs & ws & cs & Hlast & _ & _ & Hcs).
  apply never_nil in Hcs. subst cs.
  cbn [runChecks] in Hlast. rewrite bind_run in Hlast.
  rewrite (checkCommendations_run text reg
             (appendTo (appendTo (loaded reg) [] [] (if investor then [inv] else []))
                       vs ws []) eq_refl) in Hlast.
  unfold getResults in Hlast. injection Hlast as <- _.
  cbn. now rewrite app_nil_r.
Qed.

(** A method that appends at most one violation and nothing else. *)
Lemma single_getIncident {B} (reg : Registry) (key : string) (k : option Incident -> M B) :
  (exists r vs, appends reg (k (reg !! key)) r vs [] [] /\ (length vs <= 1)%nat) ->
  exists r vs, appends reg (getIncident key ≫= k) r vs [] [] /\ (length vs <= 1)%nat.
Proof.
  intros (r & vs & Hk & Hlen). exists r, vs. split; [|exact Hlen].
  intros d Hd. rewrite (bind_ok _ _ _ _ _ (getIncident_loaded reg key d Hd)). now apply Hk.
Qed.

Lemma single_liftR {A B} (reg : Registry) (r0 : Result A) (k : A -> M B) :
  (forall a, r0 = ok a ->
     exists r vs, appends reg (k a) r vs [] [] /\ (length vs <= 1)%nat) ->
  exists r vs, appends reg (liftR r0 ≫= k) r vs [] [] /\ (length vs <= 1)%nat.
Proof.
  intros Hk. destruct r0 as [e|a].
  - exists (throw e), []. split; [|simpl; lia].
    intros d Hd. rewrite appendTo_nil. reflexivity.
  - destruct (Hk a eq_refl) as (r & vs & Hk' & Hlen). exists r, vs. split; [|exact Hlen].
    intros d Hd. rewrite (bind_ok _ _ _ _ _ (liftR_ok _ a d eq_refl)). now apply Hk'.
Qed.

Lemma single_ret (reg : Registry) :
  exists r vs, appends reg (mret tt : M unit) r vs [] [] /\ (length vs <= 1)%nat.
Proof. exists (ok tt), []. split; [apply appends_ret | simpl; lia]. Qed.

Lemma single_pushViolation (reg : Registry) (f : Finding) :
  exists r vs, appends reg (pushViolation f) r vs [] [] /\ (length vs <= 1)%nat.
Proof.
  exists (ok tt), [f]. split; [|simpl; lia].
  intros d _. unfold pushViolation, appendTo. now rewrite !app_nil_r.
Qed.

Lemma checkLiveDataLawPattern_single (reg : Registry) (text : string) (context : Context) :
  exists r vs,
    appends reg (checkLiveDataLawPattern text context) r vs [] [] /\
    (length vs <= 1)%nat.
Proof.
  unfold checkLiveDataLawPattern. apply single_getIncident.
  destruct (reg !! "live-data-law") as [rule|]; [|apply single_ret].
  cbv zeta. destruct (negb _); [apply single_ret|].
  destruct (existsb _ correctPatterns); [apply single_ret|].
  apply single_liftR. intros ts _.
  destruct (anyMatches ts text); [|apply single_ret].
  apply single_liftR. intros risk _. apply single_pushViolation.
Qed.

Lemma countType_app (ty : string) (l1 l2 : list Finding) :
  countType ty (l1 ++ l2) = (countType ty l1 + countType ty l2)%nat.
Proof. unfold countType. now rewrite List.filter_app, length_app. Qed.

Lemma countType_none (ty : string) (l : list Finding) :
  Forall (fun v => type v <> ty) l -> countType ty l = 0%nat.
Proof.
  unfold countType. induction 1 as [|v l Hv _ IH]; [reflexivity|].
  simpl. apply String.eqb_neq in Hv. now rewrite Hv.
Qed.

Lemma countType_at_most (ty : string) (l : list Finding) :
  (countType ty l <= length l)%nat.
Proof. unfold countType. apply List.filter_length_le. Qed.

(** A check that appears twice among checks that do not report its type. *)
Lemma runChecks_twice (reg : Registry) (ty : string) (seg1 seg2 seg3 : list (M unit))
    (twice : M unit) (r0 : Result unit) (vs0 : list Finding) :
  Forall (framedAt reg (fun v => type v <> ty) (fun _ => True) (fun _ => True))
         (seg1 ++ seg2 ++ seg3) ->
  appends reg twice r0 vs0 [] [] ->
  forall d r d',
    incidents d = Some reg ->
    runChecks (seg1 ++ twice :: seg2 ++ twice :: seg3) getResults d = (ok r, d') ->
    countType ty (resViolations r)
    = (countType ty (violations d) + 2 * countType ty vs0)%nat.
Proof.
  intros Hsegs Htwice d r d' Hd Hrun.
  apply List.Forall_app in Hsegs as [Hseg1 Hsegs].
  apply List.Forall_app in Hsegs as [Hseg2 Hseg3].
  rewrite runChecks_app in Hrun.
  destruct (runChecks_framed reg _ _ _ _ _ Hseg1 d r d' Hd Hrun)
    as (v1 & w1 & c1 & Hrun1 & Hv1 & _).
  cbn [runChecks] in Hrun1.
  rewrite bind_run, (Htwice (appendTo d v1 w1 c1) Hd) in Hrun1.
  destruct r0 as [e|[]]; [discriminate|].
  rewrite runChecks_app in Hrun1.
  destruct (runChecks_framed reg _ _ _ _ _ Hseg2
              (appendTo (appendTo d v1 w1 c1) vs0 [] []) r d' Hd Hrun1)
    as (v2 & w2 & c2 & Hrun2 & Hv2 & _).
  cbn [runChecks] in Hrun2.
  rewrite bind_run,
    (Htwice (appendTo (appendTo (appendTo d v1 w1 c1) vs0 [] []) v2 w2 c2) Hd) in Hrun2.
  destruct (runChecks_report reg _ _ _ _ Hseg3
              (appendTo (appendTo (appendTo (appendTo d v1 w1 c1) vs0 [] []) v2 w2 c2)
                        vs0 [] []) r d' Hd Hrun2)
    as (Hr & v3 & w3 & c3 & Hd' & Hv3 & _).
  rewrite Hr, Hd'. cbn [resViolations resultsOf violations appendTo].
  rewrite !countType_app.
  rewrite (countType_none ty v1 Hv1), (countType_none ty v2 Hv2),
          (countType_none ty v3 Hv3).
  lia.
Qed.

(** X20. In the result of an [analyze] that returns the
    HARDCODED_LIVE_DATA violation is never reported once: the deprecated
    [checkHardcodedData] runs the Live Data check a second time, so the
    violation is either absent or reported twice. *)
Theorem live_data_reported_twice (env : LoadEnv) (text : string) (context : Context)
    (d : Detector) (r : Results) :
  fst (analyze env text context d) = ok r ->
  countType "HARDCODED_LIVE_DATA" (resViolations r) = 0%nat \/
  countType "HARDCODED_LIVE_DATA" (resViolations r) = 2%nat.
Proof.
  intros Hrun. destruct (isDocumentation text) eqn:Hdoc.
  { destruct (analyze_from_loaded env text context d) as (reg & _ & Hsame).
    rewrite (Hsame env), (analyze_loaded_documentation env text context reg Hdoc) in Hrun.
    unfold ok in Hrun. injection Hrun as <-. now left. }
  destruct (analyze_from_loaded env text context d) as (reg & Hreg & Hsame).
  rewrite (Hsame env), (analyze_checks env text context reg Hdoc) in Hrun.
  set (investor := isInvestorMaterials text) in *.
  rewrite bind_run in Hrun.
  assert (Hfirst : exists cs0,
    (if investor
     then pushCommendation
            {| ctype := "INVESTOR_MATERIALS";
               cmessage := "Investor materials - describing market opportunity" |}
     else mret tt) (loaded reg) = (ok tt, appendTo (loaded reg) [] [] cs0)).
  { destruct investor; eexists; reflexivity. }
  destruct Hfirst as (cs0 & Hfirst). rewrite Hfirst in Hrun.
  destruct (runChecks _ getResults _) as [r' d'] eqn:Hchecks.
  simpl in Hrun. subst r'.
  destruct (checkLiveDataLawPattern_single reg text context) as (r0 & vs0 & Hlive & Hlen).
  set (seg1 := [ checkIssue43Pattern text context;
                 checkIssue32Pattern text context;
                 checkIssue41Pattern text context;
                 checkDaymanNightmanTheme text context;
                 checkAlpineBaseImagePattern text context;
                 checkDockerAmd64PlatformPattern text context ]).
  set (seg2 := [ checkGitDirectoryBreakout text context;
                 checkEnterpriseSprawl text context investor ]).
  set (seg3 := [ checkCostEfficiency text context investor; checkCommendations text ]).
  change (checks text context investor)
    with (seg1 ++ checkLiveDataLawPattern text context
          :: seg2 ++ checkLiveDataLawPattern text context :: seg3)%list in Hchecks.
  assert (Hother : forall k v,
            k <> HardcodedLiveData -> violationOf reg text context k v ->
            type v <> "HARDCODED_LIVE_DATA").
  { intros k v Hk (Hty & _). rewrite Hty. destruct k; simpl; congruence. }
  assert (Hsegs : Forall (framedAt reg (fun v => type v <> "HARDCODED_LIVE_DATA")
                                   (fun _ => True) (fun _ => True))
                         (seg1 ++ seg2 ++ seg3)).
  { subst seg1 seg2 seg3. simpl.
    repeat (apply List.Forall_cons; [|]); try apply List.Forall_nil.
    - eapply framedAt_weaken; [apply checkIssue43Pattern_framed | | |]; auto; intros v; apply Hother; discriminate.
    - eapply framedAt_weaken; [apply checkIssue32Pattern_framed | | |]; auto; intros v; apply Hother; discriminate.
    - eapply framedAt_weaken;
        [apply (checkIssue41Pattern_framed reg text context investor) | | |]; auto; intros v [].
    - eapply framedAt_weaken;
        [apply (checkDaymanNightmanTheme_framed reg text context investor) | | |]; auto; intros v [].
    - eapply framedAt_weaken; [apply checkAlpineBaseImagePattern_framed | | |]; auto; intros v; apply Hother; discriminate.
    - eapply framedAt_weaken; [apply checkDockerAmd64PlatformPattern_framed | | |]; auto; intros v; apply Hother; discriminate.
    - eapply framedAt_weaken; [apply checkGitDirectoryBreakout_framed | | |]; auto; intros v; apply Hother; discriminate.
    - eapply framedAt_weaken; [apply checkEnterpriseSprawl_framed | | |]; auto; intros v; apply Hother; discriminate.
    - eapply framedAt_weaken; [apply checkCostEfficiency_framed | | |]; auto; intros v [].
    - eapply framedAt_weaken; [apply checkCommendations_framed | | |]; auto; intros v []. }
  pose proof (runChecks_twice reg "HARDCODED_LIVE_DATA" seg1 seg2 seg3
                (checkLiveDataLawPattern text context) r0 vs0 Hsegs Hlive
                (appendTo (loaded reg) [] [] cs0) r d' eq_refl Hchecks) as Hcount.
  rewrite Hcount. cbn [violations appendTo loaded app].
  change (countType "HARDCODED_LIVE_DATA" []) with 0%nat.
  pose proof (countType_at_most "HARDCODED_LIVE_DATA" vs0). lia.
Qed.

End ReportFacts.

(** X19. The commendations of an [analyze] that returns depend
    on the text alone: two runs on the same text return the same
    commendations, whatever their rules, their contexts, their detectors and
    the regular expressions of their hosts. *)
Theorem commendations_depend_on_text_only (host1 host2 : Detector.RegExpHost)
    (env1 env2 : Detector.LoadEnv) (text : string)
    (context1 context2 : Detector.Context) (d1 d2 : Detector.Detector)
    (r1 r2 : Detector.Results) :
  fst (@Detector.analyze host1 env1 text context1 d1) = JS.ok r1 ->
  fst (@Detector.analyze host2 env2 text context2 d2) = JS.ok r2 ->
  Detector.resCommendations r1 = Detector.resCommendations r2.
Proof.
  intros Hrun1 Hrun2. destruct (Detector.isDocumentation text) eqn:Hdoc.
  - destruct (@analyze_from_loaded host1 env1 text context1 d1) as (reg1 & _ & Hsame1).
    destruct (@analyze_from_loaded host2 env2 text context2 d2) as (reg2 & _ & Hsame2).
    rewrite (Hsame1 env1), (@analyze_loaded_documentation host1 _ _ _ _ Hdoc) in Hrun1.
    rewrite (Hsame2 env2), (@analyze_loaded_documentation host2 _ _ _ _ Hdoc) in Hrun2.
    unfold JS.ok in Hrun1, Hrun2. injection Hrun1 as <-. injection Hrun2 as <-.
    reflexivity.
  - rewrite (@analyze_commendations host1 env1 text context1 d1 r1 Hdoc Hrun1).
    rewrite (@analyze_commendations host2 env2 text context2 d2 r2 Hdoc Hrun2).
    reflexivity.
Qed.

(** ** When a check throws *)

Section ThrowFacts.
Import JS Rules Regex Detector Report.
Context `{RegExpHost}.

(** Compiling a list with a source that is no regular expression throws,
    wherever the source stands in the list. *)
Lemma compilePatterns_invalid (rule : Incident) (sources : list string) (p : string) :
  textPatterns rule = Some sources -> In p sources -> newRegExp_i p = None ->
  compilePatterns rule = throw SyntaxError.
Proof.
  intros Hs Hin Hp. unfold compilePatterns. rewrite Hs. clear Hs.
  induction sources as [|q sources IH]; [destruct Hin|].
  simpl. destruct Hin as [->|Hin].
  - rewrite Hp. reflexivity.
  - destruct (newRegExp_i q); [|reflexivity]. simpl. rewrite (IH Hin). reflexivity.
Qed.

(** The first steps of a pattern-reading check on a rule that is there. *)
Lemma check_reads_rule {B} (reg : Registry) (key : string) (rule : Incident)
    (k : option Incident -> M B) (d : Detector) :
  incidents d = Some reg -> reg !! key = Some rule ->
  (getIncident key ≫= k) d = k (Some rule) d.
Proof.
  intros Hd Hr. rewrite (bind_ok _ _ _ _ _ (getIncident_loaded reg key d Hd)), Hr.
  reflexivity.
Qed.

Lemma liftR_throw {A B} (e : Exn) (k : A -> M B) (d : Detector) :
  (liftR (throw e) ≫= k) d = (throw e, d).
Proof. reflexivity. Qed.

(** X21. The patterns of a rule are all compiled before any
    is tried: when the rule that a pattern-reading check looks up holds a
    source that is not a regular expression, the check throws a SyntaxError
    and records nothing, also when another pattern of the rule matches the
    text (the Docker and Live Data checks only when their exemptions do not
    apply); for the rule [issue-43] the whole [analyze] of a text that is not
    documentation throws it. *)
Theorem invalid_pattern_throws (env : LoadEnv) (text : string) (context : Context)
    (reg : Registry) (d : Detector) (rule : Incident) (sources : list string) (p : string) :
  incidents d = Some reg ->
  textPatterns rule = Some sources ->
  In p sources ->
  newRegExp_i p = None ->
  (reg !! "issue-43" = Some rule ->
   checkIssue43Pattern text context d = (throw SyntaxError, d) /\
   (isDocumentation text = false ->
    fst (analyze env text context d) = throw SyntaxError)) /\
  (reg !! "issue-32" = Some rule ->
   checkIssue32Pattern text context d = (throw SyntaxError, d)) /\
  (reg !! "alpine-base-image" = Some rule ->
   checkAlpineBaseImagePattern text context d = (throw SyntaxError, d)) /\
  (reg !! "docker-amd64-platform" = Some rule ->
   includes text "./build-and-push.sh" || includes text "--platform linux/amd64" = false ->
   checkDockerAmd64PlatformPattern text context d = (throw SyntaxError, d)) /\
  (reg !! "live-data-law" = Some rule ->
   fileSatisfies context liveDataFile = true ->
   existsb (fun correct => test correct text) correctPatterns = false ->
   checkLiveDataLawPattern text context d = (throw SyntaxError, d)).
Proof.
  intros Hd Hs Hin Hp.
  pose proof (compilePatterns_invalid rule sources p Hs Hin Hp) as Hc.
  split; [|split; [|split; [|split]]].
  - intros Hr.
    assert (Hcheck : forall d0, incidents d0 = Some reg ->
              checkIssue43Pattern text context d0 = (throw SyntaxError, d0)).
    { intros d0 Hd0. unfold checkIssue43Pattern.
      rewrite (check_reads_rule reg _ rule _ d0 Hd0 Hr), Hc. reflexivity. }
    split; [now apply Hcheck|].
    intros Hdoc.
    destruct (analyze_from_loaded env text context d) as (reg' & Hreg & Hsame).
    rewrite (Hsame env), (Hreg reg Hd).
    rewrite (analyze_checks env text context reg Hdoc).
    rewrite bind_run.
    assert (Hfirst : exists d1,
      (if isInvestorMaterials text
       then pushCommendation
              {| ctype := "INVESTOR_MATERIALS";
                 cmessage := "Investor materials - describing market opportunity" |}
       else mret tt) (loaded reg) = (ok tt, d1) /\ incidents d1 = Some reg).
    { destruct (isInvestorMaterials text); eexists; split; reflexivity. }
    destruct Hfirst as (d1 & -> & Hd1).
    unfold checks. cbn [runChecks]. rewrite bind_run, (Hcheck d1 Hd1). reflexivity.
  - intros Hr. unfold checkIssue32Pattern.
    rewrite (check_reads_rule reg _ rule _ d Hd Hr), Hc. reflexivity.
  - intros Hr. unfold checkAlpineBaseImagePattern.
    rewrite (check_reads_rule reg _ rule _ d Hd Hr), Hc. reflexivity.
  - intros Hr Hex. unfold checkDockerAmd64PlatformPattern.
    rewrite (check_reads_rule reg _ rule _ d Hd Hr), Hex, Hc. reflexivity.
  - intros Hr Hfile Hcorrect. unfold checkLiveDataLawPattern. cbv zeta.
    rewrite (check_reads_rule reg _ rule _ d Hd Hr).
    change (fileSatisfies context _) with (fileSatisfies context liveDataFile).
    rewrite Hfile, Hcorrect, Hc. reflexivity.
Qed.

(** X22. The financial impact of a rule is read only once a
    pattern has matched: with a rule whose patterns compile but whose
    financial impact is missing, the checks that report the impact return
    without a finding on a text that no pattern matches and throw a TypeError
    on a text that one matches, and the nginx check, which does not report
    it, never throws. *)
Theorem impact_is_read_on_match_only (text : string) (context : Context)
    (reg : Registry) (d : Detector) (rule : Incident) (ts : list (string -> bool)) :
  incidents d = Some reg ->
  compilePatterns rule = ok ts ->
  financialImpact rule = None ->
  (reg !! "issue-43" = Some rule ->
   checkIssue43Pattern text context d
   = (if anyMatches ts text then throw TypeError else ok tt, d)) /\
  (reg !! "alpine-base-image" = Some rule ->
   checkAlpineBaseImagePattern text context d
   = (if anyMatches ts text then throw TypeError else ok tt, d)) /\
  (reg !! "issue-32" = Some rule ->
   fst (checkIssue32Pattern text context d) = ok tt /\
   length (violations (snd (checkIssue32Pattern text context d)))
   = (length (violations d) + (if anyMatches ts text then 1 else 0))%nat).
Proof.
  intros Hd Hc Hfi.
  assert (Himpact : readImpact rule = throw TypeError).
  { unfold readImpact. now rewrite Hfi. }
  split; [|split].
  - intros Hr. unfold checkIssue43Pattern.
    rewrite (check_reads_rule reg _ rule _ d Hd Hr), Hc.
    rewrite (bind_ok _ _ _ _ _ (liftR_ok _ ts d eq_refl)).
    destruct (anyMatches ts text); [|reflexivity].
    rewrite Himpact. reflexivity.
  - intros Hr. unfold checkAlpineBaseImagePattern.
    rewrite (check_reads_rule reg _ rule _ d Hd Hr), Hc.
    rewrite (bind_ok _ _ _ _ _ (liftR_ok _ ts d eq_refl)).
    destruct (anyMatches ts text); [|reflexivity].
    rewrite Himpact. reflexivity.
  - intros Hr. unfold checkIssue32Pattern.
    rewrite (check_reads_rule reg _ rule _ d Hd Hr), Hc.
    rewrite (bind_ok _ _ _ _ _ (liftR_ok _ ts d eq_refl)).
    destruct (anyMatches ts text); simpl.
    + split; [reflexivity|]. rewrite length_app. simpl. lia.
    + split; [reflexivity | lia].
Qed.

Lemma triple_returns {A} (reg : Registry) (m : M A) (d : Detector) :
  triple (fun d0 => incidents d0 = Some reg) m (fun _ d0 => incidents d0 = Some reg) ->
  incidents d = Some reg -> exists a, fst (m d) = ok a.
Proof. intros Ht Hd. destruct (Ht d Hd) as (a & d' & -> & _). now exists a. Qed.

(** X23. On a detector with a registry, whatever the shape of its
    rules, six of the checks never throw: the deployment, theme, directory,
    sprawl, cost and commendation checks do not read the contents of a rule.
    The Docker check does not read its rule either when the text names the
    build script or the platform flag, and the Live Data check (and
    [checkHardcodedData]) when the context names no file it looks at: they
    return and record nothing. *)
Theorem checks_that_never_throw (text : string) (context : Context) (reg : Registry)
    (d : Detector) (skipCostChecks : bool) :
  incidents d = Some reg ->
  fst (checkIssue41Pattern text context d) = ok tt /\
  fst (checkDaymanNightmanTheme text context d) = ok tt /\
  fst (checkGitDirectoryBreakout text context d) = ok tt /\
  fst (checkEnterpriseSprawl text context skipCostChecks d) = ok tt /\
  fst (checkCostEfficiency text context skipCostChecks d) = ok tt /\
  fst (checkCommendations text d) = ok tt /\
  (includes text "./build-and-push.sh" || includes text "--platform linux/amd64" = true ->
   checkDockerAmd64PlatformPattern text context d = (ok tt, d)) /\
  (fileSatisfies context liveDataFile = false ->
   checkLiveDataLawPattern text context d = (ok tt, d) /\
   checkHardcodedData text context d = (ok tt, d)).
Proof.
  intros Hd.
  assert (Hunit : forall m : M unit,
            triple (fun d0 => incidents d0 = Some reg) m
                   (fun _ d0 => incidents d0 = Some reg) ->
            fst (m d) = ok tt).
  { intros m Ht. destruct (triple_returns reg m d Ht Hd) as ([] & Ha). exact Ha. }
  split; [apply Hunit, checkIssue41Pattern_ok|].
  split; [apply Hunit, checkDaymanNightmanTheme_ok|].
  split; [apply Hunit, checkGitDirectoryBreakout_ok|].
  split; [rewrite checkEnterpriseSprawl_run; reflexivity|].
  split; [apply Hunit, checkCostEfficiency_ok|].
  split; [apply Hunit, checkCommendations_ok|].
  split.
  - intros Hex. unfold checkDockerAmd64PlatformPattern.
    rewrite (bind_ok _ _ _ _ _ (getIncident_loaded reg _ d Hd)).
    destruct (reg !! "docker-amd64-platform"); [|reflexivity].
    rewrite Hex. reflexivity.
  - intros Hfile.
    assert (Hlive : checkLiveDataLawPattern text context d = (ok tt, d)).
    { unfold checkLiveDataLawPattern. cbv zeta.
      rewrite (bind_ok _ _ _ _ _ (getIncident_loaded reg _ d Hd)).
      destruct (reg !! "live-data-law"); [|reflexivity].
      change (fileSatisfies context _) with (fileSatisfies context liveDataFile).
      rewrite Hfile. reflexivity. }
    split; [exact Hlive | exact Hlive].
Qed.

End ThrowFacts.

(** ** When a violation is due *)

Section DueFacts.
Import JS Rules Regex Detector Report Due.
Context `{RegExpHost}.

Lemma mapR_complete {A B} (f : A -> Result B) (l : list A) :
  forall ys, mapR f l = ok ys -> forall x, In x l -> exists y, In y ys /\ f x = ok y.
Proof.
  induction l as [|x0 l IH]; simpl; intros ys Hys x Hx; [destruct Hx|].
  destruct (f x0) as [e|y0] eqn:Hx0; [discriminate|]. simpl in Hys.
  destruct (mapR f l) as [e|ys0]; [discriminate|]. simpl in Hys.
  injection Hys as <-. destruct Hx as [<-|Hx].
  - exists y0. split; [now left | exact Hx0].
  - destruct (IH ys0 eq_refl x Hx) as (y & Hin & Hfx).
    exists y. split; [now right | exact Hfx].
Qed.

(** A pattern of the rule that matches makes the loop over the compiled
    patterns fire. *)
Lemma ruleMatches_any (rule : Incident) (ts : list (string -> bool)) (text : string) :
  compilePatterns rule = ok ts -> ruleMatches rule text -> anyMatches ts text = true.
Proof.
  unfold compilePatterns. intros Hts (sources & p & t & Hs & Hp & Hc & Ht).
  rewrite Hs in Hts.
  destruct (mapR_complete _ _ _ Hts p Hp) as (t' & Hin & Hfp).
  rewrite Hc in Hfp. unfold ok in Hfp. injection Hfp as <-.
  unfold anyMatches. apply existsb_exists. exists t. split; assumption.
Qed.

(** A check that returns under the conditions of its kind has recorded a
    violation. *)
Lemma check_fires (reg : Registry) (text : string) (context : Context) (investor : bool)
    (k : Kind) (d d' : Detector) :
  fires reg text context k ->
  incidents d = Some reg ->
  checkOf text context investor k d = (ok tt, d') ->
  exists v vs, violations d' = (violations d ++ v :: vs)%list /\ type v = kindType k.
Proof.
  intros [Hgate Hrule] Hd.
  destruct k; cbn [checkOf kindRule kindGate kindReadsPatterns] in *.
  - destruct Hrule as (rule & Hr & Hm). unfold checkIssue43Pattern.
    rewrite (check_reads_rule _ _ _ _ _ Hd Hr).
    destruct (compilePatterns rule) as [?|ts] eqn:Ec; [discriminate|].
    rewrite (bind_ok _ _ _ _ _ (liftR_ok _ ts _ eq_refl)).
    rewrite (ruleMatches_any rule ts _ Ec (Hm eq_refl)).
    destruct (readImpact rule) as [?|?]; [discriminate|].
    rewrite (bind_ok _ _ _ _ _ (liftR_ok _ _ _ eq_refl)).
    intros [= <-]. eexists. eexists. split; [cbn [violations]; reflexivity | reflexivity].
  - destruct Hrule as (rule & Hr & Hm). unfold checkIssue32Pattern.
    rewrite (check_reads_rule _ _ _ _ _ Hd Hr).
    destruct (compilePatterns rule) as [?|ts] eqn:Ec; [discriminate|].
    rewrite (bind_ok _ _ _ _ _ (liftR_ok _ ts _ eq_refl)).
    rewrite (ruleMatches_any rule ts _ Ec (Hm eq_refl)).
    intros [= <-]. eexists. eexists. split; [cbn [violations]; reflexivity | reflexivity].
  - destruct Hrule as (rule & Hr & Hm). unfold checkAlpineBaseImagePattern.
    rewrite (check_reads_rule _ _ _ _ _ Hd Hr).
    destruct (compilePatterns rule) as [?|ts] eqn:Ec; [discriminate|].
    rewrite (bind_ok _ _ _ _ _ (liftR_ok _ ts _ eq_refl)).
    rewrite (ruleMatches_any rule ts _ Ec (Hm eq_refl)).
    destruct (readImpact rule) as [?|?]; [discriminate|].
    rewrite (bind_ok _ _ _ _ _ (liftR_ok _ _ _ eq_refl)).
    intros [= <-]. eexists. eexists. split; [cbn [violations]; reflexivity | reflexivity].
  - destruct Hrule as (rule & Hr & Hm). destruct Hgate as [Hg1 Hg2].
    unfold checkDockerAmd64PlatformPattern.
    rewrite (check_reads_rule _ _ _ _ _ Hd Hr), Hg1, Hg2. cbn [orb].
    destruct (compilePatterns rule) as [?|ts] eqn:Ec; [discriminate|].
    rewrite (bind_ok _ _ _ _ _ (liftR_ok _ ts _ eq_refl)).
    rewrite (ruleMatches_any rule ts _ Ec (Hm eq_refl)).
    destruct (readImpact rule) as [?|?]; [discriminate|].
    rewrite (bind_ok _ _ _ _ _ (liftR_ok _ _ _ eq_refl)).
    intros [= <-]. eexists. eexists. split; [cbn [violations]; reflexivity | reflexivity].
  - destruct Hrule as (rule & Hr & Hm). destruct Hgate as [Hg1 Hg2].
    unfold checkLiveDataLawPattern. cbv zeta.
    rewrite (check_reads_rule _ _ _ _ _ Hd Hr).
    change (fileSatisfies context _) with (fileSatisfies context liveDataFile).
    rewrite Hg1, Hg2. cbn [negb].
    destruct (compilePatterns rule) as [?|ts] eqn:Ec; [discriminate|].
    rewrite (bind_ok _ _ _ _ _ (liftR_ok _ ts _ eq_refl)).
    rewrite (ruleMatches_any rule ts _ Ec (Hm eq_refl)).
    destruct (readImpact rule) as [?|?]; [discriminate|].
    rewrite (bind_ok _ _ _ _ _ (liftR_ok _ _ _ eq_refl)).
    intros [= <-]. eexists. eexists. split; [cbn [violations]; reflexivity | reflexivity].
  - destruct Hrule as (rule & Hr & _). unfold checkGitDirectoryBreakout.
    rewrite (check_reads_rule _ _ _ _ _ Hd Hr), Hgate.
    intros [= <-]. eexists. eexists. split; [cbn [violations]; reflexivity | reflexivity].
  - destruct Hgate as (name & pattern & Hin & Hmatch).
    rewrite checkEnterpriseSprawl_run. intros [= <-]. cbn [violations].
    assert (Hv : In (sprawlViolation name context) (sprawlFindings text context)).
    { unfold sprawlFindings. apply in_map_iff. exists (name, pattern).
      split; [reflexivity|]. apply List.filter_In. split; [exact Hin | exact Hmatch]. }
    pose proof (sprawlFindings_critical text context) as Hall.
    destruct (sprawlFindings text context) as [|v vs]; [destruct Hv|].
    exists v, vs. split; [reflexivity|].
    inversion Hall as [|? ? [Hty _] _]. exact Hty.
Qed.

(** In a run of framed checks that returns, each check has returned, from a
    detector with the registry, and what it has recorded is in the result. *)
Lemma runChecks_member (reg : Registry) Pv Pw Pc (ms : list (M unit)) :
  Forall (framedAt reg Pv Pw Pc) ms ->
  forall m, In m ms ->
  forall d r d',
    incidents d = Some reg ->
    runChecks ms getResults d = (ok r, d') ->
    exists d0 d1,
      incidents d0 = Some reg /\ m d0 = (ok tt, d1) /\
      forall pre v post,
        violations d1 = (pre ++ v :: post)%list -> length (violations d0) = length pre ->
        In v (resViolations r).
Proof.
  induction 1 as [|m0 ms Hm0 Hms IH]; intros m Hin d r d' Hd Hrun; [destruct Hin|].
  destruct Hm0 as (r0 & vs & ws & cs & Hm0 & _).
  cbn [runChecks] in Hrun. rewrite bind_run, (Hm0 d Hd) in Hrun.
  destruct r0 as [e|[]]; [discriminate|].
  destruct Hin as [<-|Hin].
  - exists d, (appendTo d vs ws cs). split; [exact Hd|]. split; [now apply Hm0|].
    intros pre v post Hsplit Hlen.
    destruct (runChecks_report reg _ _ _ ms Hms (appendTo d vs ws cs) r d' Hd Hrun)
      as (Hr & vs' & ws' & cs' & Hd' & _).
    rewrite Hr, Hd'. cbn [resViolations resultsOf violations appendTo] in *.
    rewrite Hsplit. apply in_or_app. left. apply in_or_app. right. now left.
  - exact (IH m Hin (appendTo d vs ws cs) r d' Hd Hrun).
Qed.

Lemma kindType_inj (k k' : Kind) : kindType k = kindType k' -> k = k'.
Proof. destruct k, k'; simpl; intros Heq; first [reflexivity | discriminate]. Qed.

Lemma checkOf_in_checks (text : string) (context : Context) (investor : bool) (k : Kind) :
  In (checkOf text context investor k) (checks text context investor).
Proof. destruct k; simpl; auto 12. Qed.

(** X24. In the result of an [analyze] that returns, on a text that is
    not documentation, a violation of a kind is reported exactly when the
    conditions of its check hold: what the check asks of the text and of the
    context, and, for a rule-backed kind, that its rule is in the registry
    and, where the check reads the patterns of the rule, that one of them
    matches the text. *)
Theorem violation_is_reported_when_due (env : LoadEnv) (text : string)
    (context : Context) (d : Detector) (r : Results) (reg : Registry) (k : Kind) :
  isDocumentation text = false ->
  fst (analyze env text context d) = ok r ->
  incidents (snd (analyze env text context d)) = Some reg ->
  (Exists (fun v => type v = kindType k) (resViolations r) <-> fires reg text context k).
Proof.
  intros Hdoc Hrun Hfinal.
  destruct (analyze_report env text context d r Hdoc Hrun)
    as (reg' & Hreg & Hinc & Hr & Hv & _).
  assert (reg' = reg) as -> by congruence.
  split.
  - intros Hex. apply List.Exists_exists in Hex as (v & Hin & Hty).
    rewrite List.Forall_forall in Hv.
    destruct (Hv v Hin) as [k' (Hty' & _ & _ & _ & Hgate & Hrule)].
    assert (k' = k) as -> by (apply kindType_inj; congruence).
    split; [exact Hgate|].
    destruct (kindRule k) as [key|]; [|exact I].
    destruct Hrule as (rule & Hlook & Hm & _). exists rule. split; assumption.
  - intros Hfires.
    destruct (analyze_from_loaded env text context d) as (reg0 & _ & Hsame).
    assert (reg0 = reg) as ->.
    { rewrite (Hsame env) in Hfinal. rewrite analyze_keeps_loaded in Hfinal. congruence. }
    rewrite (Hsame env), (analyze_checks env text context reg Hdoc) in Hrun.
    rewrite bind_run in Hrun.
    assert (Hfirst : exists cs0,
      (if isInvestorMaterials text
       then pushCommendation
              {| ctype := "INVESTOR_MATERIALS";
                 cmessage := "Investor materials - describing market opportunity" |}
       else mret tt) (loaded reg) = (ok tt, appendTo (loaded reg) [] [] cs0)).
    { destruct (isInvestorMaterials text); eexists; reflexivity. }
    destruct Hfirst as (cs0 & Hfirst). rewrite Hfirst in Hrun.
    destruct (runChecks _ getResults _) as [r' d'] eqn:Hchecks.
    simpl in Hrun. subst r'.
    destruct (runChecks_member reg _ _ _ _ (checks_framed reg text context)
                (checkOf text context (isInvestorMaterials text) k)
                (checkOf_in_checks _ _ _ k)
                (appendTo (loaded reg) [] [] cs0) r d' eq_refl Hchecks)
      as (d0 & d1 & Hd0 & Hcheck & Hkept).
    destruct (check_fires reg text context _ k d0 d1 Hfires Hd0 Hcheck)
      as (v & vs & Hnew & Hty).
    pose proof (Hkept (violations d0) v vs Hnew eq_refl) as Hin.
    apply List.Exists_exists. exists v. split; [exact Hin | exact Hty].
Qed.

End DueFacts.

(** ** The events of a report *)

Section EventFacts.
Import JS Rules Regex Detector Report Telemetry.
Context `{RegExpHost}.

(** X25. The telemetry event of each violation that an [analyze]
    reports is fixed by the kind of the violation: its pattern identifier is
    the incident label of the kind, or [unknown] for enterprise sprawl; its
    validation source is the label behind [github-issue-], with the prefix
    [Issue #] cut off where the label has one, or [pattern-detection] for
    enterprise sprawl; its outcome is SEV1 for a critical kind, SEV2 for a
    high one and SEV3 for the directory check; and for a kind that reports
    no financial impact both the cost and the measured return are 0. *)
Theorem reported_violations_as_events (env : LoadEnv) (text : string)
    (context : Context) (d : Detector) (r : Results)
    (now : string) (eventContext : Context) :
  fst (analyze env text context d) = ok r ->
  Forall (fun v => exists k,
            type v = kindType k /\
            patternId (mapViolationToEvent now v eventContext)
            = match k with
              | SecurityControlRemoval => "Issue #43"
              | NoNginxLaw => "Issue #32"
              | AlpineBaseImage => "Alpine Base Image"
              | DockerAmd64Platform => "Docker AMD64 Platform"
              | HardcodedLiveData => "Live Data Law"
              | GitDirectoryBreakout => "Issue #95"
              | EnterpriseSprawl => "unknown"
              end /\
            validationSource (mapViolationToEvent now v eventContext)
            = match k with
              | SecurityControlRemoval => "github-issue-43"
              | NoNginxLaw => "github-issue-32"
              | AlpineBaseImage => "github-issue-Alpine Base Image"
              | DockerAmd64Platform => "github-issue-Docker AMD64 Platform"
              | HardcodedLiveData => "github-issue-Live Data Law"
              | GitDirectoryBreakout => "github-issue-95"
              | EnterpriseSprawl => "pattern-detection"
              end /\
            outcome (mapViolationToEvent now v eventContext)
            = match kindSeverity k with
              | CRITICAL => "SEV1 incident"
              | HIGH => "SEV2 incident"
              | _ => "SEV3 incident"
              end /\
            (kindReportsImpact k = false ->
             costOfViolation (mapViolationToEvent now v eventContext) = 0%Z /\
             roiMeasured (mapViolationToEvent now v eventContext) = 0%Z))
         (resViolations r).
Proof.
  intros Hrun.
  destruct (analyze_findings env text context d r Hrun)
    as (reg & _ & _ & _ & _ & Hv & _).
  revert Hv. apply List.Forall_impl.
  intros v [k (Hty & Hsev & Hinc & _ & _ & Hrule)]. exists k.
  split; [exact Hty|].
  cbn [patternId validationSource outcome costOfViolation roiMeasured
       mapViolationToEvent].
  rewrite Hinc, Hsev.
  assert (Hrisk : kindReportsImpact k = false -> financialRisk v = None).
  { intros Hno. destruct (kindRule k) as [key|]; [|exact Hrule].
    destruct Hrule as (rule & _ & _ & Hfr & _). now rewrite Hno in Hfr. }
  destruct k; cbn [kindIncident kindSeverity kindReportsImpact] in *;
    (split; [reflexivity|]); (split; [vm_compute; reflexivity|]);
    (split; [reflexivity|]);
    intros Hno; try discriminate;
    rewrite (Hrisk eq_refl); split; reflexivity.
Qed.

End EventFacts.

(** ** Worked reviews *)

Section ReviewExamples.
Import JS Rules Detector Examples Report Due Reviews Telemetry.

(** A run of the worked examples that returns. *)
Ltac worked_run r Hrun :=
  match goal with
  | |- exists _, fst ?run = ok _ /\ _ =>
      assert (Hrun : exists r0, fst run = ok r0) by (eexists; vm_compute; reflexivity);
      destruct Hrun as [r Hrun]; exists r; split; [exact Hrun|]
  end.

(** A change to a workflow file that matches two rules, names a category and
    shows no local test: three violations and the UNTESTED_DEPLOY warning. *)
Lemma findings_have_provenance_witness :
  exists r,
    fst (@analyze wordHost offlineEnv reviewText workflowContext (loaded someRules)) = ok r /\
    length (resViolations r) = 3%nat /\
    map type (resWarnings r) = ["UNTESTED_DEPLOY"] /\
    exists reg,
      incidents (snd (@analyze wordHost offlineEnv reviewText workflowContext
                        (loaded someRules))) = Some reg /\
      (forall reg0, incidents (loaded someRules) = Some reg0 -> reg = reg0) /\
      Forall (fun v => exists k, @violationOf wordHost reg reviewText workflowContext k v)
             (resViolations r) /\
      Forall (fun w => exists k,
                warningOf reg reviewText workflowContext (isInvestorMaterials reviewText) k w)
             (resWarnings r).
Proof.
  assert (Hrun : exists r0,
            fst (@analyze wordHost offlineEnv reviewText workflowContext (loaded someRules))
            = ok r0 /\
            length (resViolations r0) = 3%nat /\
            map type (resWarnings r0) = ["UNTESTED_DEPLOY"])
    by (eexists; vm_compute; repeat split).
  destruct Hrun as (r & Hrun & Hthree & Hwarn).
  exists r. split; [exact Hrun|]. split; [exact Hthree|]. split; [exact Hwarn|].
  exact (@findings_have_provenance wordHost offlineEnv reviewText workflowContext
           (loaded someRules) r Hrun).
Defined.

(** The same review: its context names no file. *)
Lemma context_without_file_witness :
  exists r,
    fst (@analyze wordHost offlineEnv reviewText reviewContext (loaded someRules)) = ok r /\
    Forall (fun w => type w = "COST_INEFFICIENCY") (resWarnings r) /\
    Forall (fun v => type v <> "HARDCODED_LIVE_DATA") (resViolations r) /\
    (isInvestorMaterials reviewText = true -> resWarnings r = []).
Proof.
  worked_run r Hrun.
  exact (@context_without_file wordHost offlineEnv reviewText reviewContext
           (loaded someRules) r eq_refl Hrun).
Defined.

(** A change that only adds nginx is a HIGH violation: the review passes. *)
Lemma critical_findings_witness :
  exists r,
    fst (@analyze wordHost offlineEnv nginxText reviewContext (loaded someRules)) = ok r /\
    (reviewExitCode (fst (@analyze wordHost offlineEnv nginxText reviewContext
                            (loaded someRules))) = 0%Z <-> hasCritical r = false).
Proof.
  worked_run r Hrun.
  exact (proj2 (proj2 (proj2
           (@critical_findings wordHost offlineEnv nginxText reviewContext
              (loaded someRules) r Hrun)))).
Defined.

(** The same text under two registries and two contexts. *)
Lemma commendations_depend_on_text_only_witness :
  exists r1 r2,
    fst (@analyze wordHost offlineEnv thriftText reviewContext (loaded someRules)) = ok r1 /\
    fst (@analyze wordHost offlineEnv thriftText emptyContext (loaded ∅)) = ok r2 /\
    resCommendations r1 = resCommendations r2.
Proof.
  assert (Hrun1 : exists r1,
            fst (@analyze wordHost offlineEnv thriftText reviewContext (loaded someRules))
            = ok r1) by (eexists; vm_compute; reflexivity).
  assert (Hrun2 : exists r2,
            fst (@analyze wordHost offlineEnv thriftText emptyContext (loaded ∅)) = ok r2)
    by (eexists; vm_compute; reflexivity).
  destruct Hrun1 as [r1 Hrun1]. destruct Hrun2 as [r2 Hrun2]. exists r1, r2.
  split; [exact Hrun1|]. split; [exact Hrun2|].
  exact (commendations_depend_on_text_only wordHost wordHost offlineEnv offlineEnv
           thriftText reviewContext emptyContext (loaded someRules) (loaded ∅)
           r1 r2 Hrun1 Hrun2).
Defined.

(** A page that hardcodes a version is reported twice. *)
Lemma live_data_reported_twice_witness :
  exists r,
    fst (@analyze wordHost offlineEnv pageText pageContext (loaded liveRules)) = ok r /\
    (countType "HARDCODED_LIVE_DATA" (resViolations r) = 0%nat \/
     countType "HARDCODED_LIVE_DATA" (resViolations r) = 2%nat).
Proof.
  worked_run r Hrun.
  exact (@live_data_reported_twice wordHost offlineEnv pageText pageContext
           (loaded liveRules) r Hrun).
Defined.

(** The second source of the rule, [security(], is no regular expression:
    the review throws although the first pattern matches the text. *)
Lemma invalid_pattern_throws_witness :
  fst (@analyze wordHost offlineEnv reviewText reviewContext (loaded brokenRules))
  = throw SyntaxError.
Proof.
  destruct (@invalid_pattern_throws wordHost offlineEnv reviewText reviewContext
              brokenRules (loaded brokenRules) brokenRule
              ["disable security check"; "security("] "security("
              eq_refl eq_refl) as [H43 _].
  - right. left. reflexivity.
  - reflexivity.
  - apply H43; reflexivity.
Defined.

(** The rule has no financial impact: a text it matches throws, another
    passes. *)
Lemma impact_is_read_on_match_only_witness :
  @checkIssue43Pattern wordHost reviewText reviewContext (loaded bareRules)
  = (throw TypeError, loaded bareRules) /\
  @checkIssue43Pattern wordHost nginxText reviewContext (loaded bareRules)
  = (ok tt, loaded bareRules).
Proof.
  split.
  - destruct (@impact_is_read_on_match_only wordHost reviewText reviewContext bareRules
                (loaded bareRules) bareRule
                [Regex.test (Regex.lit_i "disable security check")]
                eq_refl eq_refl eq_refl) as [H43 _].
    rewrite (H43 eq_refl). reflexivity.
  - destruct (@impact_is_read_on_match_only wordHost nginxText reviewContext bareRules
                (loaded bareRules) bareRule
                [Regex.test (Regex.lit_i "disable security check")]
                eq_refl eq_refl eq_refl) as [H43 _].
    rewrite (H43 eq_refl). reflexivity.
Defined.

(** The registry with the rule that lacks its pattern list: the checks that
    do not read it return. *)
Lemma checks_that_never_throw_witness :
  fst (checkGitDirectoryBreakout reviewText reviewContext (loaded malformedRules)) = ok tt /\
  fst (checkEnterpriseSprawl reviewText reviewContext false (loaded malformedRules))
  = ok tt.
Proof.
  destruct (@checks_that_never_throw wordHost reviewText reviewContext malformedRules
              (loaded malformedRules) false eq_refl)
    as (_ & _ & Hgit & Hsprawl & _).
  split; [exact Hgit | exact Hsprawl].
Defined.

(** The review of the change: the nginx violation is due, the Alpine one is
    not. *)
Lemma violation_is_reported_when_due_witness :
  exists r,
    fst (@analyze wordHost offlineEnv reviewText reviewContext (loaded someRules)) = ok r /\
    (Exists (fun v => type v = kindType NoNginxLaw) (resViolations r) <->
     @fires wordHost someRules reviewText reviewContext NoNginxLaw).
Proof.
  worked_run r Hrun.
  apply (@violation_is_reported_when_due wordHost offlineEnv reviewText reviewContext
           (loaded someRules) r someRules NoNginxLaw).
  - reflexivity.
  - exact Hrun.
  - apply analyze_keeps_loaded.
Defined.

(** The events of the review. *)
Lemma reported_violations_as_events_witness :
  exists r,
    fst (@analyze wordHost offlineEnv reviewText reviewContext (loaded someRules)) = ok r /\
    Forall (fun v => exists k,
              type v = kindType k /\
              patternId (mapViolationToEvent "2025-11-03T10:00:01.000Z" v reviewContext)
              = match k with
                | SecurityControlRemoval => "Issue #43"
                | NoNginxLaw => "Issue #32"
                | AlpineBaseImage => "Alpine Base Image"
                | DockerAmd64Platform => "Docker AMD64 Platform"
                | HardcodedLiveData => "Live Data Law"
                | GitDirectoryBreakout => "Issue #95"
                | EnterpriseSprawl => "unknown"
                end /\
              validationSource
                (mapViolationToEvent "2025-11-03T10:00:01.000Z" v reviewContext)
              = match k with
                | SecurityControlRemoval => "github-issue-43"
                | NoNginxLaw => "github-issue-32"
                | AlpineBaseImage => "github-issue-Alpine Base Image"
                | DockerAmd64Platform => "github-issue-Docker AMD64 Platform"
                | HardcodedLiveData => "github-issue-Live Data Law"
                | GitDirectoryBreakout => "github-issue-95"
                | EnterpriseSprawl => "pattern-detection"
                end /\
              outcome (mapViolationToEvent "2025-11-03T10:00:01.000Z" v reviewContext)
              = match kindSeverity k with
                | CRITICAL => "SEV1 incident"
                | HIGH => "SEV2 incident"
                | _ => "SEV3 incident"
                end /\
              (kindReportsImpact k = false ->
               costOfViolation
                 (mapViolationToEvent "2025-11-03T10:00:01.000Z" v reviewContext) = 0%Z /\
               roiMeasured
                 (mapViolationToEvent "2025-11-03T10:00:01.000Z" v reviewContext) = 0%Z))
           (resViolations r).
Proof.
  worked_run r Hrun.
  exact (@reported_violations_as_events wordHost offlineEnv reviewText reviewContext
           (loaded someRules) r "2025-11-03T10:00:01.000Z" reviewContext Hrun).
Defined.

End ReviewExamples.

(** ** The git analyzer *)

Section GitFacts.
Import JS Git.

Lemma splitLines_line (l rest : string) :
  oneLine l = true -> splitLines (l ++ newline ++ rest) = l :: splitLines rest.
Proof.
  induction l as [|c l IH]; intros Hl.
  - rewrite append_nil_l. reflexivity.
  - simpl in Hl. apply andb_true_iff in Hl as [Hc Hl]. apply negb_true_iff in Hc.
    rewrite append_cons. simpl. rewrite Hc, (IH Hl). reflexivity.
Qed.

Lemma string_app_assoc (a b c : string) : (a ++ b) ++ c = a ++ (b ++ c).
Proof. induction a as [|x a IH]; [reflexivity|]. rewrite !append_cons. now rewrite IH. Qed.

Lemma oneLine_app (a b : string) :
  oneLine a = true -> oneLine b = true -> oneLine (a ++ b) = true.
Proof.
  induction a as [|x a IH]; intros Ha Hb; [now rewrite append_nil_l|].
  simpl in Ha. apply andb_true_iff in Ha as [Hx Ha].
  rewrite append_cons. simpl. rewrite Hx. now apply IH.
Qed.

Lemma substring_take (p s : string) :
  String.substring 0 (String.length p) (p ++ s) = p.
Proof.
  induction p as [|c p IH]; [now destruct s|].
  rewrite append_cons. simpl. now rewrite IH.
Qed.

Lemma substring_all (s : string) : String.substring 0 (String.length s) s = s.
Proof. induction s as [|c s IH]; [reflexivity|]. simpl. now rewrite IH. Qed.

Lemma from3_skips (xy path : string) :
  String.length xy = 2%nat -> from3 (xy ++ " " ++ path) = path.
Proof.
  intros Hlen. destruct xy as [|a [|b [|c xy]]]; try discriminate.
  unfold from3.
  change (String a (String b "") ++ " " ++ path) with (String a (String b (String " " path))).
  cbn [String.length]. rewrite Nat.sub_succ, Nat.sub_succ, Nat.sub_succ, Nat.sub_0_r.
  cbn [String.substring]. apply substring_all.
Qed.

(** X26. [getModifiedFiles] reads back what [git status
    --porcelain] prints: for entries of a status of two characters and a path
    of one line, it returns one entry for each line, in order, with the
    status trimmed and the path as it is; when the command fails it returns
    the empty list. *)
Theorem getModifiedFiles_reads_porcelain (entries : list (string * string)) :
  Forall (fun e => String.length (fst e) = 2%nat /\
                   oneLine (fst e) = true /\ oneLine (snd e) = true) entries ->
  getModifiedFiles (ok (porcelain entries))
  = map (fun e => {| status := trim (fst e); file := snd e |}) entries /\
  length (getModifiedFiles (ok (porcelain entries))) = length entries /\
  (forall e, getModifiedFiles (throw e) = []).
Proof.
  intros Hall.
  assert (Hread : getModifiedFiles (ok (porcelain entries))
                  = map (fun e => {| status := trim (fst e); file := snd e |}) entries).
  { induction Hall as [|[xy path] rest (Hlen & Hxy & Hpath) _ IH]; [reflexivity|].
    cbn [fst snd] in *. unfold getModifiedFiles, ok in *.
    cbn [porcelain]. unfold porcelainLine. cbn [fst snd].
    assert (Hline : (xy ++ " " ++ path ++ newline) ++ porcelain rest
                    = (xy ++ " " ++ path) ++ newline ++ porcelain rest).
    { now rewrite !string_app_assoc. }
    rewrite Hline, splitLines_line.
    2:{ apply oneLine_app; [exact Hxy|]. apply (oneLine_app " " path); [reflexivity | exact Hpath]. }
    cbn [List.filter].
    assert (Hne : String.eqb (xy ++ " " ++ path) "" = false).
    { destruct xy; [discriminate | reflexivity]. }
    rewrite Hne. cbn [negb map]. rewrite IH. f_equal.
    rewrite (from3_skips xy path Hlen). f_equal.
    rewrite <- Hlen. now rewrite substring_take. }
  split; [exact Hread|]. split; [|reflexivity].
  rewrite Hread. apply length_map.
Qed.

End GitFacts.

(** Worked instance: a modified, an untracked and an added file. *)
Lemma getModifiedFiles_reads_porcelain_witness :
  Git.getModifiedFiles
    (JS.ok (Git.porcelain [(" M", "src/app.js"); ("??", "notes.txt"); ("A ", "Dockerfile")]))
  = [ {| Git.status := "M"; Git.file := "src/app.js" |};
      {| Git.status := "??"; Git.file := "notes.txt" |};
      {| Git.status := "A"; Git.file := "Dockerfile" |} ].
Proof.
  refine (proj1 (getModifiedFiles_reads_porcelain
                   [(" M", "src/app.js"); ("??", "notes.txt"); ("A ", "Dockerfile")] _)).
  repeat (apply List.Forall_cons; [split; [reflexivity | split; reflexivity]|]).
  apply List.Forall_nil.
Defined.

(** ** The review command *)

Section ReviewFacts.
Import JS Rules Detector Report Review.
Context `{RegExpHost}.

(** X27. [dredd review] exits with 0 or 1. It exits with 0 without
    analysing anything when a git command fails or both diffs are blank.
    Otherwise it analyses the two diffs joined by a line feed, in a context
    without [file]: it exits with 1 when [analyze] throws; when [analyze]
    returns it exits with 1 exactly when a SECURITY_CONTROL_REMOVAL or an
    ENTERPRISE_SPRAWL violation is reported, every warning is a
    COST_INEFFICIENCY one and no HARDCODED_LIVE_DATA violation is reported. *)
Theorem review_exit_code (env : LoadEnv) (diff diffCached porcelain : Result string)
    (now : string) :
  (review env diff diffCached porcelain now = 0%Z \/
   review env diff diffCached porcelain now = 1%Z) /\
  ((exists e, diff = throw e) \/ (exists e, diffCached = throw e) ->
   review env diff diffCached porcelain now = 0%Z) /\
  (forall unstaged staged,
     diff = ok unstaged -> diffCached = ok staged ->
     trimmedNonEmpty unstaged = false -> trimmedNonEmpty staged = false ->
     review env diff diffCached porcelain now = 0%Z) /\
  (forall unstaged staged,
     diff = ok unstaged -> diffCached = ok staged ->
     trimmedNonEmpty unstaged || trimmedNonEmpty staged = true ->
     (forall e,
        fst (analyze env (unstaged ++ Git.newline ++ staged)
               (contextOf now (Git.getModifiedFiles porcelain))
               (snd (loadIncidentPatterns env newDetector))) = throw e ->
        review env diff diffCached porcelain now = 1%Z) /\
     (forall r,
        fst (analyze env (unstaged ++ Git.newline ++ staged)
               (contextOf now (Git.getModifiedFiles porcelain))
               (snd (loadIncidentPatterns env newDetector))) = ok r ->
        (review env diff diffCached porcelain now = 1%Z <->
         Exists (fun v => type v = "SECURITY_CONTROL_REMOVAL" \/
                          type v = "ENTERPRISE_SPRAWL") (resViolations r)) /\
        Forall (fun w => type w = "COST_INEFFICIENCY") (resWarnings r) /\
        Forall (fun v => type v <> "HARDCODED_LIVE_DATA") (resViolations r))).
Proof.
  split; [|split; [|split]].
  - unfold review. cbv zeta. destruct (negb _); [now left|].
    unfold reviewExitCode. destruct (fst _) as [e|r]; [now right|].
    destruct (hasCritical r); [now right | now left].
  - intros [[e ->]|[e ->]]; unfold review, Git.getUncommittedChanges.
    + reflexivity.
    + destruct diff; reflexivity.
  - intros unstaged staged -> -> Hu Hs. unfold review, Git.getUncommittedChanges.
    simpl. rewrite Hu, Hs. reflexivity.
  - intros unstaged staged -> -> Hany.
    assert (Hrev : review env (ok unstaged) (ok staged) porcelain now
                   = reviewExitCode
                       (fst (analyze env (unstaged ++ Git.newline ++ staged)
                               (contextOf now (Git.getModifiedFiles porcelain))
                               (snd (loadIncidentPatterns env newDetector))))).
    { unfold review, Git.getUncommittedChanges. simpl. rewrite Hany. reflexivity. }
    rewrite Hrev. split.
    + intros e ->. reflexivity.
    + intros r Hrun. rewrite Hrun.
      destruct (analyze_findings env _ _ _ r Hrun) as (reg & _ & _ & Hcrit & _ & Hv & Hw).
      split; [|split].
      * rewrite <- (critical_kinds reg _ _ _ Hv), <- Hcrit.
        unfold reviewExitCode, ok. cbv beta iota.
        destruct (hasCritical r); split; congruence.
      * pose proof (warnings_without_file reg _
                      (contextOf now (Git.getModifiedFiles porcelain)) _ eq_refl Hw) as Hcost.
        revert Hcost. apply List.Forall_impl. intros w [Hty _]. exact Hty.
      * exact (violations_without_file reg _
                 (contextOf now (Git.getModifiedFiles porcelain)) _ eq_refl Hv).
Qed.

End ReviewFacts.

(** ** Loading when the Central Brain fails *)

Section FallbackFacts.
Import JS Rules Detector.

(** X28. A Central Brain that is not configured, cannot be reached,
    answers with an error status or with a body that cannot be read, or has
    no patterns to give, never keeps the local rules from loading:
    [fetchIncidentPatterns] returns the empty dictionary without throwing,
    and [loadIncidentPatterns] does exactly what it does without a Central
    Brain. *)
Theorem remote_failure_falls_back (env : LoadEnv) (d : Detector) :
  CentralBrain.enabled (brain env) = false \/
  remote env = CentralBrain.Rejected \/
  (exists body, remote env = CentralBrain.Responded false body) \/
  (exists e, remote env = CentralBrain.Responded true (throw e)) \/
  remote env = CentralBrain.Responded true (ok None) \/
  remote env = CentralBrain.Responded true (ok (Some ∅)) ->
  CentralBrain.fetchIncidentPatterns (brain env) (remote env) = ok ∅ /\
  loadIncidentPatterns env d
  = loadIncidentPatterns {| brain := CentralBrain.newSender;
                            remote := CentralBrain.Rejected;
                            localDir := localDir env |} d.
Proof.
  intros Hfail.
  assert (Hfetch : CentralBrain.fetchIncidentPatterns (brain env) (remote env) = ok ∅).
  { unfold CentralBrain.fetchIncidentPatterns.
    destruct (CentralBrain.enabled (brain env)) eqn:Hen; [|reflexivity]. simpl.
    destruct Hfail as [Hoff|[->|[[body ->]|[[e ->]|[->| ->]]]]];
      first [discriminate | reflexivity]. }
  split; [exact Hfetch|].
  unfold loadIncidentPatterns.
  assert (tryLive env = None) as ->.
  { unfold tryLive. rewrite Hfetch.
    destruct (CentralBrain.enabled (brain env)); reflexivity. }
  reflexivity.
Qed.

End FallbackFacts.

(** Worked instance: the request to a configured Central Brain is rejected;
    the rules are those of the local directory. *)
Lemma remote_failure_falls_back_witness :
  CentralBrain.enabled (Detector.brain Outage.outageEnv) = true /\
  Detector.loadIncidentPatterns Outage.outageEnv Detector.newDetector
  = Detector.loadIncidentPatterns Scenarios.localEnv Detector.newDetector.
Proof.
  split; [reflexivity|].
  refine (proj2 (remote_failure_falls_back Outage.outageEnv Detector.newDetector _)).
  right. left. reflexivity.
Defined.

(** ** The session check *)

Section SessionFacts.
Import JS Rules Detector Session.
Context `{RegExpHost}.

(** One analysis of the loop takes nothing from the ones before it. *)
Lemma analyzeAll_run (env : LoadEnv) (reg : Registry) (texts : list string) :
  forall d,
    incidents d = Some reg ->
    (forall text, In text texts -> violationCount reg text <> None) ->
    fst (analyzeAll env texts d)
    = ok (list_sum (map (fun text => default 0%nat (violationCount reg text)) texts)) /\
    incidents (snd (analyzeAll env texts d)) = Some reg.
Proof.
  induction texts as [|text rest IH]; intros d Hd Hall.
  - split; [reflexivity | exact Hd].
  - cbn [analyzeAll]. rewrite bind_run.
    destruct (analyze_from_loaded env text emptyContext d) as (reg' & Hreg & Hsame).
    rewrite (Hreg reg Hd) in Hsame.
    pose proof (Hall text (or_introl eq_refl)) as Hone. unfold violationCount in Hone.
    set (plain := {| brain := CentralBrain.newSender; remote := CentralBrain.Rejected;
                     localDir := throw IOError |}) in *.
    pose proof (analyze_keeps_loaded plain text emptyContext reg) as Hkeep.
    assert (Hcount : violationCount reg text
                     = match fst (analyze plain text emptyContext (loaded reg)) with
                       | inr results => Some (length (resViolations results))
                       | inl _ => None
                       end) by reflexivity.
    rewrite (Hsame plain).
    destruct (analyze plain text emptyContext (loaded reg)) as [[e|r] d1] eqn:Hrun;
      cbn [fst snd] in *; [congruence|].
    destruct (IH d1 Hkeep (fun t Ht => Hall t (or_intror Ht))) as [Hrest Hinc].
    rewrite bind_run.
    destruct (analyzeAll env rest d1) as [[e|n] d2]; cbn [fst snd] in *; [discriminate|].
    unfold ok in Hrest. injection Hrest as ->.
    split; [|exact Hinc].
    cbn [map]. rewrite Hcount. reflexivity.
Qed.

(** One analysis of the loop that throws ends the loop. *)
Lemma analyzeAll_throws (env : LoadEnv) (reg : Registry) (texts : list string) :
  forall d,
    incidents d = Some reg ->
    Exists (fun text => violationCount reg text = None) texts ->
    exists e, fst (analyzeAll env texts d) = throw e.
Proof.
  induction texts as [|text rest IH]; intros d Hd Hex; [inversion Hex|].
  cbn [analyzeAll]. rewrite bind_run.
  destruct (analyze_from_loaded env text emptyContext d) as (reg' & Hreg & Hsame).
  rewrite (Hreg reg Hd) in Hsame.
  set (plain := {| brain := CentralBrain.newSender; remote := CentralBrain.Rejected;
                   localDir := throw IOError |}) in *.
  pose proof (analyze_keeps_loaded plain text emptyContext reg) as Hkeep.
  assert (Hcount : violationCount reg text
                   = match fst (analyze plain text emptyContext (loaded reg)) with
                     | inr results => Some (length (resViolations results))
                     | inl _ => None
                     end) by reflexivity.
  rewrite (Hsame plain).
  destruct (analyze plain text emptyContext (loaded reg)) as [[e|r] d1] eqn:Hrun;
    cbn [fst snd] in *; [now exists e|].
  inversion Hex as [? ? Hhead|? ? Htail]; subst; [congruence|].
  destruct (IH d1 Hkeep Htail) as (e & He).
  rewrite bind_run.
  destruct (analyzeAll env rest d1) as [[e'|n] d2]; cbn [fst] in *; [now exists e'|].
  discriminate.
Qed.

(** X29. [dredd session-start] analyses the diff of each recent
    commit and then the uncommitted changes, each on its own: what one
    analysis reports takes nothing from the ones before it. When every
    analysis returns the command exits with 0 and prints the sum of the
    violation counts of the texts, however many violations there are;
    when one analysis throws it exits with 1. *)
Theorem session_start_outcome (env : LoadEnv) (commitDiffs : list string)
    (diff diffCached : Result string) :
  exists reg,
    incidents (snd (loadIncidentPatterns env newDetector)) = Some reg /\
    (Forall (fun text => violationCount reg text <> None)
            (sessionTexts commitDiffs diff diffCached) ->
     sessionStart env commitDiffs diff diffCached
     = (0%Z, Some (list_sum (map (fun text => default 0%nat (violationCount reg text))
                                 (sessionTexts commitDiffs diff diffCached))))) /\
    (Exists (fun text => violationCount reg text = None)
            (sessionTexts commitDiffs diff diffCached) ->
     sessionStart env commitDiffs diff diffCached = (1%Z, None)).
Proof.
  destruct (loadIncidentPatterns_run env newDetector) as (b & reg & Hload).
  exists reg.
  assert (Hd : incidents (snd (loadIncidentPatterns env newDetector)) = Some reg).
  { rewrite Hload. reflexivity. }
  split; [exact Hd|]. split.
  - intros Hall. unfold sessionStart. cbv zeta.
    rewrite List.Forall_forall in Hall.
    destruct (analyzeAll_run env reg _ _ Hd Hall) as [-> _]. reflexivity.
  - intros Hex. unfold sessionStart. cbv zeta.
    destruct (analyzeAll_throws env reg _ _ Hd Hex) as (e & ->). reflexivity.
Qed.

End SessionFacts.
